(** * PDF Tools backend: a shallow embedding of [main.py]

    The development follows the source file top to bottom: the Python string
    and path primitives the handlers call, the identifier generator, the
    store under [TEMP_DIR], the two helpers [_save_upload] and
    [_make_download], the three operation handlers and the download handler.
    The PDF and image engines are opaque parameters of the model.

    The handlers are given twice.  The first reading follows the runs in
    which every [open], copy, engine write and [os.remove] of an existing
    file succeeds; the functional claims are stated on it.  The second,
    [Module IO], reads the same lines with the failures of these
    operations; the claims on cleanup and on errors are stated on it. *)

From Stdlib Require Import ZArith Lia Ascii String List DecimalString.
From stdpp Require Import gmap strings list fin_maps.

Open Scope string_scope.
Open Scope list_scope.

(** ** Python strings *)

Module Py.

(** [str_all P s]: every character of [s] satisfies [P]. *)
Fixpoint str_all (P : ascii → bool) (s : string) : bool :=
  match s with
  | EmptyString => true
  | String c r => P c && str_all P r
  end.

Definition is_upper (c : ascii) : bool :=
  let n := nat_of_ascii c in (65 <=? n)%nat && (n <=? 90)%nat.

Definition lower_char (c : ascii) : ascii :=
  if is_upper c then ascii_of_nat (nat_of_ascii c + 32) else c.

(** [s.lower()].  Strings are byte strings: the letters [A]-[Z] are mapped
    and every other byte is kept, which is [str.lower] on ASCII text. *)
Fixpoint lower (s : string) : string :=
  match s with
  | EmptyString => EmptyString
  | String c r => String (lower_char c) (lower r)
  end.

(** [s.startswith(p)] *)
Fixpoint startswith (s p : string) : bool :=
  match p, s with
  | EmptyString, _ => true
  | String a p', String b s' => Ascii.eqb b a && startswith s' p'
  | String _ _, EmptyString => false
  end.

(** [s.endswith(suffix)]: [s] is [suffix], or its tail ends with it. *)
Fixpoint endswith (s suffix : string) : bool :=
  String.eqb s suffix ||
  match s with
  | EmptyString => false
  | String _ r => endswith r suffix
  end.

(** [s.split(sep)] for a one-character separator; never the empty list. *)
Fixpoint split (sep : ascii) (s : string) : list string :=
  match s with
  | EmptyString => [EmptyString]
  | String c r =>
      if Ascii.eqb c sep then EmptyString :: split sep r
      else match split sep r with
           | h :: t => String c h :: t
           | [] => [String c EmptyString]
           end
  end.

(** [l[-1]] on a list of strings. *)
Definition last_item (l : list string) : string := List.last l EmptyString.

(** [s.rfind(c)]: the highest index of [c] in [s], [-1] when absent. *)
Fixpoint rfind (s : string) (c : ascii) : Z :=
  match s with
  | EmptyString => (-1)%Z
  | String x r =>
      let k := rfind r c in
      if (0 <=? k)%Z then (k + 1)%Z
      else if Ascii.eqb x c then 0%Z else (-1)%Z
  end.

(** [s[n:]] for a natural [n]. *)
Fixpoint drop_chars (n : nat) (s : string) : string :=
  match n, s with
  | O, _ => s
  | S n', String _ r => drop_chars n' r
  | S _, EmptyString => EmptyString
  end.

(** [str(n)] for a non-negative integer. *)
Definition str_of_nat (n : nat) : string :=
  NilZero.string_of_uint (Nat.to_uint n).

(** [sub in s] *)
Definition contains (s sub : string) : Prop :=
  ∃ pre post, s = pre +:+ sub +:+ post.

End Py.

(** ** [os.path] on POSIX *)

Module os_path.

Definition sep : ascii := "/"%char.

(** [posixpath.basename]: [i = p.rfind('/') + 1; return p[i:]]. *)
Definition basename (p : string) : string :=
  let i := (Py.rfind p sep + 1)%Z in
  Py.drop_chars (Z.to_nat i) p.

(** [posixpath.join] with one extra component. *)
Definition join (a b : string) : string :=
  if Py.startswith b "/" then b
  else if String.eqb a "" || Py.endswith a "/" then a +:+ b
  else a +:+ "/" +:+ b.

(** A resolved location: the directory names from the root down. *)
Definition location := list string.

(** One step of path lookup; the stack holds the location reversed.  The
    parent of the root is the root. *)
Definition walk (stack : list string) (c : string) : list string :=
  if String.eqb c "" || String.eqb c "." then stack
  else if String.eqb c ".." then tail stack
  else c :: stack.

(** The location an absolute path denotes, with [..] taken lexically: there
    are no symbolic links, and what precedes a [..] is taken to be a
    directory.  The handlers resolve the temp root joined with one
    component only. *)
Definition resolve (p : string) : location :=
  rev (fold_left walk (Py.split sep p) []).

End os_path.

(** ** [uuid.uuid4] and [str(uuid)] *)

Module uuid.

(** [UUID(bytes=os.urandom(16), version=4)]: the variant and version bits
    are forced on 128 random bits. *)
Definition uuid4_int (r : Z) : Z :=
  let i := (r mod 2 ^ 128)%Z in
  let i := Z.land i (Z.lnot (Z.shiftl 49152 48)) in
  let i := Z.lor i (Z.shiftl 32768 48) in
  let i := Z.land i (Z.lnot (Z.shiftl 61440 64)) in
  Z.lor i (Z.shiftl 4 76).

Definition hexdigit (d : Z) : ascii :=
  match String.get (Z.to_nat d) "0123456789abcdef" with
  | Some c => c
  | None => "0"%char
  end.

(** ['%0kx' % n]: [k] hexadecimal digits, most significant first. *)
Fixpoint hex (k : nat) (n : Z) : string :=
  match k with
  | O => EmptyString
  | S k' => hex k' (n / 16) +:+ String (hexdigit (n mod 16)) EmptyString
  end.

(** [UUID.__str__]: the 8-4-4-4-12 grouping of ['%032x' % self.int]. *)
Definition str (i : Z) : string :=
  let h := hex 32 i in
  substring 0 8 h +:+ "-" +:+ substring 8 4 h +:+ "-" +:+
  substring 12 4 h +:+ "-" +:+ substring 16 4 h +:+ "-" +:+
  substring 20 12 h.

(** The characters a printed UUID is made of. *)
Definition uuid_char (c : ascii) : bool :=
  negb (Py.str_all (fun x => negb (Ascii.eqb x c)) "0123456789abcdef-").

End uuid.

(** ** Exceptions and the handler monad *)

Definition bytes := list Byte.byte.

(** What a handler can raise: an [HTTPException] with its status code and
    detail, or any other exception, which the framework reports as a generic
    server error. *)
Inductive exn : Type :=
| HTTPException (status_code : Z) (detail : string)
| OtherError (what : string).

Inductive result (A : Type) : Type :=
| Ok (a : A)
| Raise (e : exn).
Arguments Ok {A} a.
Arguments Raise {A} e.

(** A computation over a mutable state [S].  The state survives an
    exception, as the Python heap and the file system do. *)
Definition M (S A : Type) : Type := S → S * result A.

#[global] Instance M_ret {S} : MRet (M S) := λ A a s, (s, Ok a).
#[global] Instance M_bind {S} : MBind (M S) := λ A B f m s,
  match m s with
  | (s', Ok a) => f a s'
  | (s', Raise e) => (s', Raise e)
  end.

Definition raise {S A} (e : exn) : M S A := λ s, (s, Raise e).
Definition get_state {S} : M S S := λ s, (s, Ok s).
Definition modify {S} (f : S → S) : M S unit := λ s, (f s, Ok tt).

(** [try: body finally: cleanup], for a cleanup that raises nothing itself
    when it swallows its own exceptions; if it does raise, that exception
    replaces the outcome of the body. *)
Definition try_finally {S A} (body : M S A) (cleanup : M S unit) : M S A := λ s,
  match body s with
  | (s1, r) =>
      match cleanup s1 with
      | (s2, Ok _) => (s2, r)
      | (s2, Raise e) => (s2, Raise e)
      end
  end.

(** Run a block that has local variables of its own: [enter] allocates them
    next to the outer state, [leave] drops them. *)
Definition with_locals {S F A} (enter : S → F) (leave : F → S) (m : M F A)
  : M S A := λ s,
  match m (enter s) with
  | (fr, r) => (leave fr, r)
  end.

(** [try: m except Exception: pass] *)
Definition try_pass {S} (m : M S unit) : M S unit := λ s, (fst (m s), Ok tt).

(** The error taxonomy of the handlers, read off a result. *)
Definition has_status {A} (code : Z) (r : result A) : bool :=
  match r with
  | Raise (HTTPException c _) => (c =? code)%Z
  | _ => false
  end.
Definition is_InvalidInput {A} (r : result A) : bool := has_status 400 r.
Definition is_NotFound {A} (r : result A) : bool := has_status 404 r.
Definition is_EngineUnavailable {A} (r : result A) : bool := has_status 500 r.

(** ** The process state: the store, the entropy source, the importable
    engines *)

(** Ghost record of the file operations performed, for stating what an
    invocation wrote. *)
Inductive origin : Type := Upload | Artifact.
Inductive event : Type :=
| Wrote (o : origin) (p : string) (data : bytes)
| Removed (p : string).

Inductive import_result : Type :=
| Imported
| ImportError (e : string).

Record world : Type := {
  files : gmap (list string) bytes;  (* regular files, by resolved location *)
  urandom : nat → Z;                 (* the n-th draw of 16 random bytes *)
  draws : nat;                       (* draws consumed so far *)
  PyPDF2 : import_result;            (* outcome of [from PyPDF2 import ...] *)
  PIL : import_result;               (* outcome of [from PIL import Image] *)
  trace : list event
}.

Definition TEMP_DIR : string := "/tmp/processed_files".

(** [os.makedirs(TEMP_DIR, exist_ok=True)] ran at import time: the temp root
    and its ancestors are directories.  No other directory is modelled. *)
Definition is_dir (l : os_path.location) : bool :=
  bool_decide (l `prefix_of` os_path.resolve TEMP_DIR).

(** [os.path.exists(p)]: true of directories as well as of regular files. *)
Definition os_path_exists (w : world) (p : string) : bool :=
  is_dir (os_path.resolve p) || bool_decide (is_Some (files w !! os_path.resolve p)).

(** The content of the regular file at [p], if there is one. *)
Definition read_file (w : world) (p : string) : option bytes :=
  if is_dir (os_path.resolve p) then None else files w !! os_path.resolve p.

(** [with open(p, "wb") as out: out.write(data)], when the file can be
    opened and the write goes through.  [IO.open_wb] has the failures. *)
Definition open_wb (o : origin) (p : string) (data : bytes) : M world unit := λ w,
  ({| files := <[os_path.resolve p := data]> (files w);
      urandom := urandom w; draws := draws w;
      PyPDF2 := PyPDF2 w; PIL := PIL w;
      trace := trace w ++ [Wrote o p data] |}, Ok tt).

(** [os.remove(p)] of a path that is no directory: raises when there is no
    file.  [IO.os_remove] adds the removals the file system refuses. *)
Definition os_remove (p : string) : M world unit := λ w,
  match files w !! os_path.resolve p with
  | Some _ =>
      ({| files := delete (os_path.resolve p) (files w);
          urandom := urandom w; draws := draws w;
          PyPDF2 := PyPDF2 w; PIL := PIL w;
          trace := trace w ++ [Removed p] |}, Ok tt)
  | None => (w, Raise (OtherError "FileNotFoundError"))
  end.

(** [str(uuid.uuid4())] *)
Definition uuid4_str : M world string := λ w,
  ({| files := files w;
      urandom := urandom w; draws := S (draws w);
      PyPDF2 := PyPDF2 w; PIL := PIL w;
      trace := trace w |},
   Ok (uuid.str (uuid.uuid4_int (urandom w (draws w))))).

(** ** Requests and responses *)

Record UploadFile : Type := {
  filename : string;
  file : bytes
}.

Record JSONResponse : Type := {
  file_id : string;
  json_filename : string;
  download_url : string
}.

Record FileResponse : Type := {
  path : string;
  fr_filename : string;
  media_type : string
}.

(** What the framework streams for a [FileResponse]: the bytes of the
    regular file at its path. *)
Definition body (w : world) (r : FileResponse) : option bytes :=
  read_file w (path r).

(** [_save_upload], when the copy of the upload goes through. *)
Definition _save_upload (f : UploadFile) : M world string :=
  if String.eqb (filename f) "" then
    raise (HTTPException 400 "File must have a filename")
  else
    let filename := os_path.basename (filename f) in
    let ext := Py.lower (Py.last_item (Py.split "." filename)) in
    safe_id ← uuid4_str;
    let dest_path := os_path.join TEMP_DIR (safe_id +:+ "." +:+ ext) in
    open_wb Upload dest_path (file f);;
    mret dest_path.

Definition _make_download (file_path label : string) : JSONResponse :=
  let file_id := os_path.basename file_path in
  {| file_id := file_id;
     json_filename := label;
     download_url := "/api/download/" +:+ file_id |}.

(** ** The transformation engines *)

(** The two external libraries, as far as the handlers use them.  [None]
    stands for the library raising on the given file content.  The two
    writers give the bytes of a write that goes through; a write that
    raises is a [fault] of the file model below. *)
Class Engines : Type := {
  page : Type;
  (** [PdfReader(path).pages] on the content of the file *)
  PdfReader_pages : bytes → option (list page);
  (** the bytes [PdfWriter.write] produces for the pages added so far *)
  PdfWriter_write : list page → bytes;
  image : Type;
  (** [Image.open(path).convert("RGB")] on the content of the file *)
  Image_open_RGB : bytes → option image;
  (** [first.save(out, save_all=True, append_images=rest, format="PDF")] *)
  Image_save_PDF : image → list image → bytes
}.

(** [range(a, b)] *)
Definition py_range (a b : Z) : list Z :=
  map (λ k, (a + Z.of_nat k)%Z) (seq 0 (Z.to_nat (b - a))).

(** [l[i]]: a negative index counts from the end; [None] is [IndexError]. *)
Definition getitem {A} (l : list A) (i : Z) : option A :=
  let n := Z.of_nat (length l) in
  let j := if (i <? 0)%Z then (i + n)%Z else i in
  if (0 <=? j)%Z && (j <? n)%Z then l !! Z.to_nat j else None.

(** [for p in paths: try: os.remove(p) except Exception: pass] *)
Fixpoint remove_all (paths : list string) : M world unit :=
  match paths with
  | [] => mret tt
  | p :: rest => try_pass (os_remove p);; remove_all rest
  end.

Section Handlers.

Context {E : Engines}.

(** [writer.add_page(page)] *)
Definition add_page (writer : list page) (pg : page) : list page :=
  writer ++ [pg].

(** [PdfReader(p)] followed by reading [reader.pages]. *)
Definition PdfReader (p : string) : M world (list page) := λ w,
  match read_file w p with
  | None => (w, Raise (OtherError "FileNotFoundError"))
  | Some data =>
      match PdfReader_pages data with
      | Some pages => (w, Ok pages)
      | None => (w, Raise (OtherError "PdfReadError"))
      end
  end.

(** [Image.open(p).convert("RGB")] *)
Definition Image_open (p : string) : M world image := λ w,
  match read_file w p with
  | None => (w, Raise (OtherError "FileNotFoundError"))
  | Some data =>
      match Image_open_RGB data with
      | Some im => (w, Ok im)
      | None => (w, Raise (OtherError "UnidentifiedImageError"))
      end
  end.

Definition import_PyPDF2 : M world unit := λ w,
  match PyPDF2 w with
  | Imported => (w, Ok tt)
  | ImportError e =>
      (w, Raise (HTTPException 500 ("PDF engine unavailable: " +:+ e)))
  end.

Definition import_PIL : M world unit := λ w,
  match PIL w with
  | Imported => (w, Ok tt)
  | ImportError e =>
      (w, Raise (HTTPException 500 ("Image engine unavailable: " +:+ e)))
  end.

(** *** merge *)

(** The local variables of [merge_pdfs] that its [finally] block and the
    code after the loop read, next to the process state. *)
Record merge_frame : Type := {
  m_world : world;
  m_saved_paths : list string;
  m_writer : list page
}.

Definition m_io {A} (m : M world A) : M merge_frame A := λ fr,
  match m (m_world fr) with
  | (w', r) =>
      ({| m_world := w'; m_saved_paths := m_saved_paths fr;
          m_writer := m_writer fr |}, r)
  end.

Definition m_append_saved (p : string) : M merge_frame unit :=
  modify (λ fr, {| m_world := m_world fr;
                   m_saved_paths := m_saved_paths fr ++ [p];
                   m_writer := m_writer fr |}).

Definition m_add_pages (pages : list page) : M merge_frame unit :=
  modify (λ fr, {| m_world := m_world fr;
                   m_saved_paths := m_saved_paths fr;
                   m_writer := fold_left add_page pages (m_writer fr) |}).

Definition is_pdf_name (f : UploadFile) : bool :=
  Py.endswith (Py.lower (filename f)) ".pdf".

(** The [for f in files] loop of [merge_pdfs]. *)
Fixpoint merge_loop (files : list UploadFile) : M merge_frame unit :=
  match files with
  | [] => mret tt
  | f :: rest =>
      (if negb (is_pdf_name f)
       then raise (HTTPException 400 (filename f +:+ " is not a PDF"))
       else mret tt);;
      p ← m_io (_save_upload f);
      m_append_saved p;;
      pages ← m_io (PdfReader p);
      m_add_pages pages;;
      merge_loop rest
  end.

Definition merge_body (files : list UploadFile) : M merge_frame JSONResponse :=
  merge_loop files;;
  out_id ← m_io uuid4_str;
  let out_path := os_path.join TEMP_DIR ("merged_" +:+ out_id +:+ ".pdf") in
  fr ← get_state;
  m_io (open_wb Artifact out_path (PdfWriter_write (m_writer fr)));;
  mret (_make_download out_path ("merged_" +:+ out_id +:+ ".pdf")).

Definition merge_finally : M merge_frame unit :=
  fr ← get_state;
  m_io (remove_all (m_saved_paths fr)).

Definition merge_pdfs (files : list UploadFile) : M world JSONResponse :=
  import_PyPDF2;;
  if (length files <? 2)%nat then
    raise (HTTPException 400 "Please upload at least two PDF files to merge")
  else
    with_locals (λ w, {| m_world := w; m_saved_paths := []; m_writer := [] |})
                m_world
                (try_finally (merge_body files) merge_finally).

(** *** split *)

(** [for i in range(...): writer.add_page(reader.pages[i])] *)
Fixpoint split_loop (pages : list page) (idx : list Z) (writer : list page)
  : M world (list page) :=
  match idx with
  | [] => mret writer
  | i :: rest =>
      match getitem pages i with
      | Some pg => split_loop pages rest (add_page writer pg)
      | None => raise (OtherError "IndexError")
      end
  end.

Definition split_body (src_path : string) (start_page end_page : Z)
  : M world JSONResponse :=
  pages ← PdfReader src_path;
  let total := length pages in
  if (start_page <? 1)%Z || (end_page <? start_page)%Z
     || (Z.of_nat total <? end_page)%Z then
    raise (HTTPException 400
             ("Invalid page range. Document has " +:+ Py.str_of_nat total
              +:+ " pages."))
  else
    writer ← split_loop pages (py_range (start_page - 1) end_page) [];
    out_id ← uuid4_str;
    let out_path := os_path.join TEMP_DIR ("split_" +:+ out_id +:+ ".pdf") in
    open_wb Artifact out_path (PdfWriter_write writer);;
    mret (_make_download out_path ("split_" +:+ out_id +:+ ".pdf")).

Definition split_pdf (file : UploadFile) (start_page end_page : Z)
  : M world JSONResponse :=
  import_PyPDF2;;
  if negb (is_pdf_name file) then
    raise (HTTPException 400 "Uploaded file must be a PDF")
  else
    src_path ← _save_upload file;
    try_finally (split_body src_path start_page end_page)
                (try_pass (os_remove src_path)).

(** *** images to pdf *)

Record images_frame : Type := {
  i_world : world;
  i_saved_paths : list string;
  i_pil_images : list image
}.

Definition i_io {A} (m : M world A) : M images_frame A := λ fr,
  match m (i_world fr) with
  | (w', r) =>
      ({| i_world := w'; i_saved_paths := i_saved_paths fr;
          i_pil_images := i_pil_images fr |}, r)
  end.

Definition i_append_saved (p : string) : M images_frame unit :=
  modify (λ fr, {| i_world := i_world fr;
                   i_saved_paths := i_saved_paths fr ++ [p];
                   i_pil_images := i_pil_images fr |}).

Definition i_append_image (im : image) : M images_frame unit :=
  modify (λ fr, {| i_world := i_world fr;
                   i_saved_paths := i_saved_paths fr;
                   i_pil_images := i_pil_images fr ++ [im] |}).

Definition image_exts : list string :=
  [".png"; ".jpg"; ".jpeg"; ".webp"; ".bmp"].

(** [any(img.filename.lower().endswith(ext) for ext in [...])] *)
Definition is_image_name (f : UploadFile) : bool :=
  existsb (λ ext, Py.endswith (Py.lower (filename f)) ext) image_exts.

(** The [for img in images] loop of [images_to_pdf]. *)
Fixpoint images_loop (images : list UploadFile) : M images_frame unit :=
  match images with
  | [] => mret tt
  | img :: rest =>
      (if negb (is_image_name img)
       then raise (HTTPException 400
                     ("Unsupported image format: " +:+ filename img))
       else mret tt);;
      p ← i_io (_save_upload img);
      i_append_saved p;;
      pil ← i_io (Image_open p);
      i_append_image pil;;
      images_loop rest
  end.

Definition images_body (images : list UploadFile) : M images_frame JSONResponse :=
  images_loop images;;
  out_id ← i_io uuid4_str;
  let out_path := os_path.join TEMP_DIR ("images_" +:+ out_id +:+ ".pdf") in
  fr ← get_state;
  match i_pil_images fr with
  | [] => raise (OtherError "IndexError")
  | first :: rest =>
      i_io (open_wb Artifact out_path (Image_save_PDF first rest));;
      mret (_make_download out_path ("images_" +:+ out_id +:+ ".pdf"))
  end.

(** The second loop of the [finally] block closes in-memory images and
    touches no file. *)
Definition images_finally : M images_frame unit :=
  fr ← get_state;
  i_io (remove_all (i_saved_paths fr)).

Definition images_to_pdf (images : list UploadFile) : M world JSONResponse :=
  import_PIL;;
  match images with
  | [] => raise (HTTPException 400 "Please upload at least one image")
  | _ =>
      with_locals (λ w, {| i_world := w; i_saved_paths := [];
                           i_pil_images := [] |})
                  i_world
                  (try_finally (images_body images) images_finally)
  end.

(** *** download *)

Definition download_file (file_id : string) : M world FileResponse := λ w,
  let safe_name := os_path.basename file_id in
  let file_path := os_path.join TEMP_DIR safe_name in
  if negb (os_path_exists w file_path) then
    (w, Raise (HTTPException 404 "File not found or expired"))
  else
    (w, Ok {| path := file_path; fr_filename := safe_name;
              media_type := "application/pdf" |}).

(** *** the routes of the three operation handlers *)

Inductive request : Type :=
| PostMerge (files : list UploadFile)
| PostSplit (file : UploadFile) (start_page end_page : Z)
| PostImagesToPdf (images : list UploadFile).

Definition handle (req : request) : M world JSONResponse :=
  match req with
  | PostMerge files => merge_pdfs files
  | PostSplit f s e => split_pdf f s e
  | PostImagesToPdf images => images_to_pdf images
  end.

End Handlers.

(** ** Names and locations under the temp root *)

(** A string without a path separator. *)
Definition no_slash (s : string) : bool :=
  Py.str_all (λ c, negb (Ascii.eqb c os_path.sep)) s.

(** A single ordinary directory entry name: no separator, and none of the
    empty name, [.] and [..]. *)
Definition plain_name (s : string) : bool :=
  no_slash s && negb (String.eqb s "") && negb (String.eqb s ".")
  && negb (String.eqb s "..").

(** The location of the temp root, and of an entry in it. *)
Definition TEMP_loc : os_path.location := os_path.resolve TEMP_DIR.
Definition entry (name : string) : os_path.location := (TEMP_loc ++ [name])%list.

(** Non-strict containment of a location in the temp root. *)
Definition within_temp_root (l : os_path.location) : bool :=
  bool_decide (TEMP_loc `prefix_of` l).

(** [head_is P s]: [s] is not empty and its first character satisfies [P]. *)
Definition head_is (P : ascii → bool) (s : string) : bool :=
  match s with
  | String c _ => P c
  | EmptyString => false
  end.

(** The names [_save_upload] gives its files start with a UUID; the names of
    the artifacts start with a letter no UUID contains. *)
Definition upload_name (s : string) : bool :=
  plain_name s && head_is uuid.uuid_char s.
Definition artifact_name (s : string) : bool :=
  plain_name s && head_is (λ c, negb (uuid.uuid_char c)) s.

(** ** What an invocation has done to the store *)

(** The artifact an invocation has declared, if any: its identifier and the
    bytes written for it. *)
Definition declared := option (string * bytes).

(** [in_flight w0 w evs saved art]: inside a handler started in [w0], the
    state [w] has been reached by the events [evs]; every upload written is
    listed in [saved], at most the artifact [art] has been written, and
    nothing else in the store is new. *)
Record in_flight (w0 w : world) (evs : list event) (saved : list string)
    (art : declared) : Prop := {
  fl_trace : trace w = (trace w0 ++ evs)%list;
  fl_writes : ∀ o p d, Wrote o p d ∈ evs →
    match o with
    | Upload => p ∈ saved
    | Artifact => ∃ id, art = Some (id, d) ∧ p = os_path.join TEMP_DIR id
    end;
  fl_files : ∀ l, is_Some (files w !! l) →
    is_Some (files w0 !! l) ∨ (∃ p, p ∈ saved ∧ l = os_path.resolve p)
    ∨ (∃ id d, art = Some (id, d) ∧ l = entry id);
  fl_saved : ∀ p, p ∈ saved →
    ∃ n, upload_name n = true ∧ p = os_path.join TEMP_DIR n;
  fl_art : ∀ id d, art = Some (id, d) →
    artifact_name id = true ∧ files w !! entry id = Some d
    ∧ Wrote Artifact (os_path.join TEMP_DIR id) d ∈ evs
}.

(** [settled w0 w' evs art]: a handler started in [w0] has returned in [w']
    after the events [evs]; every upload it wrote is gone, and the store
    holds nothing new but the declared artifact [art]. *)
Record settled (w0 w' : world) (evs : list event) (art : declared) : Prop := {
  st_trace : trace w' = (trace w0 ++ evs)%list;
  st_uploads : ∀ p d, Wrote Upload p d ∈ evs →
    files w' !! os_path.resolve p = None;
  st_upload_names : ∀ p d, Wrote Upload p d ∈ evs →
    ∃ n, upload_name n = true ∧ p = os_path.join TEMP_DIR n;
  st_artifacts : ∀ p d, Wrote Artifact p d ∈ evs →
    ∃ id, art = Some (id, d) ∧ p = os_path.join TEMP_DIR id;
  st_files : ∀ l, is_Some (files w' !! l) →
    is_Some (files w0 !! l) ∨ (∃ id d, art = Some (id, d) ∧ l = entry id);
  st_art : ∀ id d, art = Some (id, d) →
    artifact_name id = true ∧ files w' !! entry id = Some d
    ∧ Wrote Artifact (os_path.join TEMP_DIR id) d ∈ evs
}.

(** The identifier the next call of [uuid4_str] returns in state [w]. *)
Definition next_uuid (w : world) : string :=
  uuid.str (uuid.uuid4_int (urandom w (draws w))).

(** The path [_save_upload] picks for [f] in state [w]. *)
Definition upload_dest (f : UploadFile) (w : world) : string :=
  os_path.join TEMP_DIR
    (uuid.str (uuid.uuid4_int (urandom w (draws w))) +:+ "." +:+
     Py.lower (Py.last_item (Py.split "." (os_path.basename (filename f))))).

(** ** The handlers' outcomes as pure functions of the request

    Each function below follows the control flow of its handler and returns
    what the handler raises, or the pages it hands to the writer.  The
    handlers are shown to agree with them. *)

Section Outcomes.

Context {E : Engines}.

(** The response [_make_download] builds for the artifact [id]. *)
Definition download_of (id : string) : JSONResponse :=
  {| file_id := id; json_filename := id;
     download_url := "/api/download/" +:+ id |}.

Fixpoint merge_scan (files : list UploadFile) : result (list page) :=
  match files with
  | [] => Ok []
  | f :: rest =>
      if negb (is_pdf_name f) then
        Raise (HTTPException 400 (filename f +:+ " is not a PDF"))
      else
        match PdfReader_pages (file f) with
        | None => Raise (OtherError "PdfReadError")
        | Some ps =>
            match merge_scan rest with
            | Ok qs => Ok (ps ++ qs)
            | Raise e => Raise e
            end
        end
  end.

Definition merge_outcome (w : world) (files : list UploadFile)
  : result (list page) :=
  match PyPDF2 w with
  | ImportError e =>
      Raise (HTTPException 500 ("PDF engine unavailable: " +:+ e))
  | Imported =>
      if (length files <? 2)%nat then
        Raise (HTTPException 400
                 "Please upload at least two PDF files to merge")
      else merge_scan files
  end.

(** The pages [start_page .. end_page] (1-indexed, inclusive). *)
Definition page_range (pages : list page) (start_page end_page : Z)
  : list page :=
  take (Z.to_nat (end_page - start_page + 1))
       (drop (Z.to_nat (start_page - 1)) pages).

Definition split_outcome (w : world) (f : UploadFile)
    (start_page end_page : Z) : result (list page) :=
  match PyPDF2 w with
  | ImportError e =>
      Raise (HTTPException 500 ("PDF engine unavailable: " +:+ e))
  | Imported =>
      if negb (is_pdf_name f) then
        Raise (HTTPException 400 "Uploaded file must be a PDF")
      else
        match PdfReader_pages (file f) with
        | None => Raise (OtherError "PdfReadError")
        | Some pages =>
            if (start_page <? 1)%Z || (end_page <? start_page)%Z
               || (Z.of_nat (length pages) <? end_page)%Z then
              Raise (HTTPException 400
                       ("Invalid page range. Document has "
                        +:+ Py.str_of_nat (length pages) +:+ " pages."))
            else Ok (page_range pages start_page end_page)
        end
  end.

Fixpoint images_scan (images : list UploadFile) : result (list image) :=
  match images with
  | [] => Ok []
  | img :: rest =>
      if negb (is_image_name img) then
        Raise (HTTPException 400
                 ("Unsupported image format: " +:+ filename img))
      else
        match Image_open_RGB (file img) with
        | None => Raise (OtherError "UnidentifiedImageError")
        | Some im =>
            match images_scan rest with
            | Ok ims => Ok (im :: ims)
            | Raise e => Raise e
            end
        end
  end.

Definition images_outcome (w : world) (images : list UploadFile)
  : result (list image) :=
  match PIL w with
  | ImportError e =>
      Raise (HTTPException 500 ("Image engine unavailable: " +:+ e))
  | Imported =>
      match images with
      | [] => Raise (HTTPException 400 "Please upload at least one image")
      | _ => images_scan images
      end
  end.

(** The frame of a loop after one more file has been saved. *)
Definition m_after_save (f : UploadFile) (fr : merge_frame)
    (writer : list page) : merge_frame :=
  {| m_world := fst (_save_upload f (m_world fr));
     m_saved_paths := m_saved_paths fr ++ [upload_dest f (m_world fr)];
     m_writer := writer |}.

Definition i_after_save (f : UploadFile) (fr : images_frame)
    (pil_images : list image) : images_frame :=
  {| i_world := fst (_save_upload f (i_world fr));
     i_saved_paths := i_saved_paths fr ++ [upload_dest f (i_world fr)];
     i_pil_images := pil_images |}.

(** The bytes of the artifact a successful request leaves behind. *)
Definition artifact_bytes (w : world) (req : request) : option bytes :=
  match req with
  | PostMerge files =>
      match merge_outcome w files with
      | Ok pages => Some (PdfWriter_write pages)
      | Raise _ => None
      end
  | PostSplit f s e =>
      match split_outcome w f s e with
      | Ok pages => Some (PdfWriter_write pages)
      | Raise _ => None
      end
  | PostImagesToPdf images =>
      match images_outcome w images with
      | Ok (first :: rest) => Some (Image_save_PDF first rest)
      | _ => None
      end
  end.

(** The exception an unsuccessful request ends with. *)
Definition raised (w : world) (req : request) : option exn :=
  match req with
  | PostMerge files =>
      match merge_outcome w files with Raise e => Some e | Ok _ => None end
  | PostSplit f s e =>
      match split_outcome w f s e with Raise e => Some e | Ok _ => None end
  | PostImagesToPdf images =>
      match images_outcome w images with Raise e => Some e | Ok _ => None end
  end.

End Outcomes.

(** ** The routes *)

Section Routes.

Context {E : Engines}.

(** The engine a route imports before anything else. *)
Definition required_engine (req : request) (w : world) : import_result :=
  match req with
  | PostMerge _ | PostSplit _ _ _ => PyPDF2 w
  | PostImagesToPdf _ => PIL w
  end.

Definition engine_label (req : request) : string :=
  match req with
  | PostMerge _ | PostSplit _ _ _ => "PDF"
  | PostImagesToPdf _ => "Image"
  end.

End Routes.

(** ** A concrete engine and process state, for running the handlers

    A document is the byte [%] followed by one byte per page; an image is
    any non-empty content, and the PDF made of images has one byte per
    image after the [%]. *)

Definition toy_engines : Engines := {|
  page := Byte.byte;
  PdfReader_pages := λ data,
    match data with
    | Byte.x25 :: pages => Some pages
    | _ => None
    end;
  PdfWriter_write := λ pages, Byte.x25 :: pages;
  image := bytes;
  Image_open_RGB := λ data,
    match data with
    | [] => None
    | _ => Some data
    end;
  Image_save_PDF := λ first rest,
    Byte.x25 :: map (λ _, Byte.x01) (first :: rest)
|}.

(** An empty temp root, both engines importable. *)
Definition fresh_world : world := {|
  files := ∅;
  urandom := λ n, (Z.of_nat n * 1234567890123456789)%Z;
  draws := 0;
  PyPDF2 := Imported;
  PIL := Imported;
  trace := []
|}.

(** The same with neither engine installed. *)
Definition bare_world : world := {|
  files := ∅;
  urandom := λ n, (Z.of_nat n * 1234567890123456789)%Z;
  draws := 0;
  PyPDF2 := ImportError "No module named 'PyPDF2'";
  PIL := ImportError "No module named 'PIL'";
  trace := []
|}.

Definition upload (name : string) (data : bytes) : UploadFile :=
  {| filename := name; file := data |}.

(** Sample requests. *)
Definition two_pdfs : list UploadFile :=
  [upload "a.pdf" [Byte.x25; Byte.x0a; Byte.x0b];
   upload "B.PDF" [Byte.x25; Byte.x0c]].

Definition five_pages : UploadFile :=
  upload "report.pdf"
    [Byte.x25; Byte.x01; Byte.x02; Byte.x03; Byte.x04; Byte.x05].

Definition two_images : list UploadFile :=
  [upload "scan.png" [Byte.x89]; upload "photo.JPG" [Byte.xff; Byte.xd8]].

(** ** Vocabulary for the further properties *)

(** A location that is not the entry of the temp root under an upload
    name, that is, under an ordinary name that starts with one of the
    characters [0]-[9], [a]-[f] of a UUID.  The entries of the artifacts are
    such locations; [data.txt] in the temp root is not. *)
Definition no_upload_entry (l : os_path.location) : Prop :=
  ∀ n, upload_name n = true → l ≠ entry n.

(** The requests whose first check already fails: the file count or the
    name of the first file for a merge, the name of the file for a split, no
    image or the name of the first image for images-to-pdf. *)
Definition rejected_at_once (req : request) : bool :=
  match req with
  | PostMerge files =>
      (length files <? 2)%nat
      || match files with
         | f :: _ => negb (is_pdf_name f)
         | [] => true
         end
  | PostSplit f _ _ => negb (is_pdf_name f)
  | PostImagesToPdf images =>
      match images with
      | img :: _ => negb (is_image_name img)
      | [] => true
      end
  end.

(** A temp root that holds one file, named [secret]. *)
Definition secret_world : world := {|
  files := {[ entry "secret" := [Byte.x2a] ]};
  urandom := λ n, (Z.of_nat n * 1234567890123456789)%Z;
  draws := 0;
  PyPDF2 := Imported;
  PIL := Imported;
  trace := []
|}.

(** ** The handlers when file operations can fail

    The definitions so far describe the runs in which every [open], copy,
    engine write and [os.remove] succeeds.  The module below follows the
    same source lines with the failures of these operations made explicit:
    [open] can refuse a path, a write can break off after part of the data
    has reached the file, and a removal can be refused. *)

(** How the write of one file goes.  [err] is the name of the exception
    that is raised. *)
Inductive fault : Type :=
| Sound                   (* the file is opened and written in full *)
| Refused (err : string)  (* [open] raises: no file is created *)
| Broken (written : nat) (err : string).
                          (* the file is created, [written] bytes reach it,
                             then the copy or the engine write raises *)

(** The exception of a write that fails. *)
Definition failure (f : fault) : option string :=
  match f with
  | Sound => None
  | Refused err | Broken _ err => Some err
  end.

(** The behaviour of the file system and of the writers during one request,
    per path. *)
Class Disk : Type := {
  write_fault : string → fault;
  (** [os.remove] raises (permissions and the like) and the file stays *)
  remove_fault : string → bool
}.

(** A path [open] rejects before it reaches the file system: an embedded
    NUL (ValueError). *)
Definition has_nul (p : string) : bool :=
  negb (Py.str_all (λ c, negb (Ascii.eqb c "000"%char)) p).

(** A path with a component over NAME_MAX (OSError, ENAMETOOLONG). *)
Definition name_too_long (p : string) : bool :=
  existsb (λ c, (255 <? String.length c)%nat) (Py.split os_path.sep p).

Module IO.

Section IOHandlers.

Context {E : Engines} {D : Disk}.

(** [with open(p, "wb") as out:] followed by the write of [data], by
    [shutil.copyfileobj] or by the engine. *)
Definition open_wb (o : origin) (p : string) (data : bytes) : M world unit := λ w,
  if has_nul p then (w, Raise (OtherError "ValueError"))
  else if name_too_long p then (w, Raise (OtherError "OSError"))
  else
    match write_fault p with
    | Sound => open_wb o p data w
    | Refused err => (w, Raise (OtherError err))
    | Broken n err => (fst (open_wb o p (take n data) w), Raise (OtherError err))
    end.

(** [os.remove(p)] *)
Definition os_remove (p : string) : M world unit := λ w,
  if remove_fault p then (w, Raise (OtherError "PermissionError"))
  else os_remove p w.

Definition _save_upload (f : UploadFile) : M world string :=
  if String.eqb (filename f) "" then
    raise (HTTPException 400 "File must have a filename")
  else
    let filename := os_path.basename (filename f) in
    let ext := Py.lower (Py.last_item (Py.split "." filename)) in
    safe_id ← uuid4_str;
    let dest_path := os_path.join TEMP_DIR (safe_id +:+ "." +:+ ext) in
    open_wb Upload dest_path (file f);;
    mret dest_path.

(** [for p in paths: try: os.remove(p) except Exception: pass] *)
Fixpoint remove_all (paths : list string) : M world unit :=
  match paths with
  | [] => mret tt
  | p :: rest => try_pass (os_remove p);; remove_all rest
  end.

(** *** merge *)

Fixpoint merge_loop (files : list UploadFile) : M merge_frame unit :=
  match files with
  | [] => mret tt
  | f :: rest =>
      (if negb (is_pdf_name f)
       then raise (HTTPException 400 (filename f +:+ " is not a PDF"))
       else mret tt);;
      p ← m_io (_save_upload f);
      m_append_saved p;;
      pages ← m_io (PdfReader p);
      m_add_pages pages;;
      merge_loop rest
  end.

Definition merge_body (files : list UploadFile) : M merge_frame JSONResponse :=
  merge_loop files;;
  out_id ← m_io uuid4_str;
  let out_path := os_path.join TEMP_DIR ("merged_" +:+ out_id +:+ ".pdf") in
  fr ← get_state;
  m_io (open_wb Artifact out_path (PdfWriter_write (m_writer fr)));;
  mret (_make_download out_path ("merged_" +:+ out_id +:+ ".pdf")).

Definition merge_finally : M merge_frame unit :=
  fr ← get_state;
  m_io (remove_all (m_saved_paths fr)).

Definition merge_pdfs (files : list UploadFile) : M world JSONResponse :=
  import_PyPDF2;;
  if (length files <? 2)%nat then
    raise (HTTPException 400 "Please upload at least two PDF files to merge")
  else
    with_locals (λ w, {| m_world := w; m_saved_paths := []; m_writer := [] |})
                m_world
                (try_finally (merge_body files) merge_finally).

(** *** split *)

Definition split_body (src_path : string) (start_page end_page : Z)
  : M world JSONResponse :=
  pages ← PdfReader src_path;
  let total := length pages in
  if (start_page <? 1)%Z || (end_page <? start_page)%Z
     || (Z.of_nat total <? end_page)%Z then
    raise (HTTPException 400
             ("Invalid page range. Document has " +:+ Py.str_of_nat total
              +:+ " pages."))
  else
    writer ← split_loop pages (py_range (start_page - 1) end_page) [];
    out_id ← uuid4_str;
    let out_path := os_path.join TEMP_DIR ("split_" +:+ out_id +:+ ".pdf") in
    open_wb Artifact out_path (PdfWriter_write writer);;
    mret (_make_download out_path ("split_" +:+ out_id +:+ ".pdf")).

Definition split_pdf (file : UploadFile) (start_page end_page : Z)
  : M world JSONResponse :=
  import_PyPDF2;;
  if negb (is_pdf_name file) then
    raise (HTTPException 400 "Uploaded file must be a PDF")
  else
    src_path ← _save_upload file;
    try_finally (split_body src_path start_page end_page)
                (try_pass (os_remove src_path)).

(** *** images to pdf *)

Fixpoint images_loop (images : list UploadFile) : M images_frame unit :=
  match images with
  | [] => mret tt
  | img :: rest =>
      (if negb (is_image_name img)
       then raise (HTTPException 400
                     ("Unsupported image format: " +:+ filename img))
       else mret tt);;
      p ← i_io (_save_upload img);
      i_append_saved p;;
      pil ← i_io (Image_open p);
      i_append_image pil;;
      images_loop rest
  end.

Definition images_body (images : list UploadFile) : M images_frame JSONResponse :=
  images_loop images;;
  out_id ← i_io uuid4_str;
  let out_path := os_path.join TEMP_DIR ("images_" +:+ out_id +:+ ".pdf") in
  fr ← get_state;
  match i_pil_images fr with
  | [] => raise (OtherError "IndexError")
  | first :: rest =>
      i_io (open_wb Artifact out_path (Image_save_PDF first rest));;
      mret (_make_download out_path ("images_" +:+ out_id +:+ ".pdf"))
  end.

Definition images_finally : M images_frame unit :=
  fr ← get_state;
  i_io (remove_all (i_saved_paths fr)).

Definition images_to_pdf (images : list UploadFile) : M world JSONResponse :=
  import_PIL;;
  match images with
  | [] => raise (HTTPException 400 "Please upload at least one image")
  | _ =>
      with_locals (λ w, {| i_world := w; i_saved_paths := [];
                           i_pil_images := [] |})
                  i_world
                  (try_finally (images_body images) images_finally)
  end.

Definition handle (req : request) : M world JSONResponse :=
  match req with
  | PostMerge files => merge_pdfs files
  | PostSplit f s e => split_pdf f s e
  | PostImagesToPdf images => images_to_pdf images
  end.

End IOHandlers.

End IO.

(** The file system on which nothing fails. *)
Definition sound_disk : Disk :=
  {| write_fault := λ _, Sound; remove_fault := λ _, false |}.

(** A file system on which every write of a merged output breaks off after
    one byte. *)
Definition merged_breaks : Disk :=
  {| write_fault := λ p,
       if Py.startswith p "/tmp/processed_files/merged_"
       then Broken 1 "OSError" else Sound;
     remove_fault := λ _, false |}.

(** A file system on which the copy of every upload breaks off after one
    byte. *)
Definition uploads_break : Disk :=
  {| write_fault := λ p,
       if Py.startswith p "/tmp/processed_files/0"
       then Broken 1 "OSError" else Sound;
     remove_fault := λ _, false |}.

(** A path of the temp root under the name of an upload. *)
Definition upload_path (p : string) : Prop :=
  ∃ n, upload_name n = true ∧ p = os_path.join TEMP_DIR n.

(** The exception of a file write that failed: the ValueError of a path
    with a NUL, the OSError of a name that is too long, or what the file
    system or the writer raised. *)
Definition write_error `{D : Disk} (e : exn) : Prop :=
  e = OtherError "ValueError" ∨ e = OtherError "OSError"
  ∨ ∃ p err, failure (write_fault p) = Some err ∧ e = OtherError err.

(** The exceptions of a handler whose engine is there: a 400 of its own
    validation, the read or decode error of the engine, or the error of a
    file write that failed. *)
Definition handler_error `{D : Disk} (e : exn) : Prop :=
  (∃ detail, e = HTTPException 400 detail
             ∧ detail ≠ "File must have a filename")
  ∨ e = OtherError "PdfReadError"
  ∨ e = OtherError "UnidentifiedImageError"
  ∨ write_error e.

(** [io_landed w0 w evs saved art]: inside a handler started in [w0], on a
    disk that can fail.  Every upload write is at an upload path and is
    listed in [saved] unless it broke off; every artifact write is at an
    artifact path and is the declared one unless it broke off; nothing else
    in the store is new; the saved paths were written in full. *)
Record io_landed `{D : Disk} (w0 w : world) (evs : list event)
    (saved : list string) (art : declared) : Prop := {
  iol_trace : trace w = (trace w0 ++ evs)%list;
  iol_uploads : ∀ p d, Wrote Upload p d ∈ evs →
    upload_path p ∧ (p ∈ saved ∨ write_fault p ≠ Sound);
  iol_artifacts : ∀ p d, Wrote Artifact p d ∈ evs →
    ∃ id, artifact_name id = true ∧ p = os_path.join TEMP_DIR id
          ∧ (art = Some (id, d) ∨ (art = None ∧ write_fault p ≠ Sound));
  iol_files : ∀ l, is_Some (files w !! l) →
    is_Some (files w0 !! l)
    ∨ ∃ o p d, Wrote o p d ∈ evs ∧ l = os_path.resolve p;
  iol_saved : ∀ p, p ∈ saved → upload_path p ∧ write_fault p = Sound;
  iol_art : ∀ id d, art = Some (id, d) →
    artifact_name id = true ∧ files w !! entry id = Some d
    ∧ Wrote Artifact (os_path.join TEMP_DIR id) d ∈ evs
}.

(** The same before the output is written: no artifact write yet. *)
Definition io_flight `{D : Disk} (w0 w : world) (evs : list event)
    (saved : list string) : Prop :=
  io_landed w0 w evs saved None ∧ ∀ p d, Wrote Artifact p d ∉ evs.

(** [io_settled w0 w' evs art]: a handler started in [w0] has returned in
    [w'].  An upload written in full is gone unless its removal was refused;
    a file that is new is at the path of an artifact write, or at the path
    of an upload whose write broke off or whose removal was refused. *)
Record io_settled `{D : Disk} (w0 w' : world) (evs : list event)
    (art : declared) : Prop := {
  ios_trace : trace w' = (trace w0 ++ evs)%list;
  ios_uploads : ∀ p d, Wrote Upload p d ∈ evs →
    upload_path p
    ∧ (write_fault p = Sound → remove_fault p = false →
       files w' !! os_path.resolve p = None);
  ios_artifacts : ∀ p d, Wrote Artifact p d ∈ evs →
    ∃ id, artifact_name id = true ∧ p = os_path.join TEMP_DIR id
          ∧ (art = Some (id, d) ∨ (art = None ∧ write_fault p ≠ Sound));
  ios_files : ∀ l, is_Some (files w' !! l) →
    is_Some (files w0 !! l)
    ∨ (∃ p d, Wrote Artifact p d ∈ evs ∧ l = os_path.resolve p)
    ∨ (∃ p d, Wrote Upload p d ∈ evs ∧ l = os_path.resolve p
              ∧ (write_fault p ≠ Sound ∨ remove_fault p = true));
  ios_art : ∀ id d, art = Some (id, d) →
    artifact_name id = true ∧ files w' !! entry id = Some d
    ∧ Wrote Artifact (os_path.join TEMP_DIR id) d ∈ evs
}.

(** What a handler hands back, next to the artifact it has declared: a
    response that names the artifact, or the 500 of a missing engine, or one
    of the errors above and no artifact. *)
Definition io_outcome `{D : Disk} (req : request) (w : world)
    (r : result JSONResponse) (art : declared) : Prop :=
  match r with
  | Ok resp => ∃ id d, artifact_name id = true ∧ resp = download_of id
                       ∧ art = Some (id, d)
  | Raise e =>
      art = None
      ∧ ((∃ ie, required_engine req w = ImportError ie
                ∧ e = HTTPException 500
                        (engine_label req +:+ " engine unavailable: " +:+ ie))
         ∨ (required_engine req w = Imported ∧ handler_error e))
  end.

(** * Properties *)

(** The path and identifier functions are reasoned about through their
    lemmas; [simpl] leaves them folded. *)
Arguments upload_dest : simpl never.
Arguments next_uuid : simpl never.
Arguments uuid.str : simpl never.
Arguments uuid.uuid4_int : simpl never.
Arguments os_path.resolve : simpl never.
Arguments os_path.join : simpl never.
Arguments os_path.basename : simpl never.
Arguments entry : simpl never.
Arguments Py.str_of_nat : simpl never.

(** ** Strings and paths *)

Section StringFacts.

Import Py.

Lemma str_all_app P s t :
  str_all P (s +:+ t) = str_all P s && str_all P t.
Proof.
  induction s as [|c s IH]; simpl; [done|].
  by rewrite IH, andb_assoc.
Qed.

Lemma str_all_impl (P Q : ascii → bool) s :
  (∀ c, P c = true → Q c = true) → str_all P s = true → str_all Q s = true.
Proof.
  intros HPQ. induction s as [|c s IH]; simpl; [done|].
  intros [Hc Hs]%andb_true_iff. by rewrite (HPQ _ Hc), IH.
Qed.

Lemma str_all_substring P n m s :
  str_all P s = true → str_all P (substring n m s) = true.
Proof.
  revert n m. induction s as [|c s IH]; intros n m Hs.
  - by destruct n, m.
  - simpl in Hs. apply andb_true_iff in Hs as [Hc Hs].
    destruct n as [|n]; simpl.
    + destruct m as [|m]; simpl; [done|]. by rewrite Hc, IH.
    + by apply IH.
Qed.

Lemma str_all_lower P s :
  (∀ c, P c = true → P (lower_char c) = true) →
  str_all P s = true → str_all P (lower s) = true.
Proof.
  intros HP. induction s as [|c s IH]; simpl; [done|].
  intros [Hc Hs]%andb_true_iff. by rewrite HP, IH.
Qed.

Lemma split_nonempty sep s : split sep s ≠ [].
Proof.
  destruct s as [|c s]; simpl; [done|].
  destruct (Ascii.eqb c sep); [done|]. by destruct (split sep s).
Qed.

Lemma split_app_sep sep a b :
  split sep (a +:+ String sep b) = (split sep a ++ split sep b)%list.
Proof.
  induction a as [|c a IH]; simpl.
  - by rewrite Ascii.eqb_refl.
  - destruct (Ascii.eqb c sep); [by rewrite IH|].
    rewrite IH. pose proof (split_nonempty sep a).
    by destruct (split sep a).
Qed.

Lemma split_all P sep s :
  str_all P s = true → Forall (λ t, str_all P t = true) (split sep s).
Proof.
  induction s as [|c s IH]; simpl; intros Hs.
  - by constructor.
  - apply andb_true_iff in Hs as [Hc Hs]. specialize (IH Hs).
    destruct (Ascii.eqb c sep); [by constructor|].
    destruct (split sep s) as [|h t]; [by constructor; [simpl; rewrite Hc|]|].
    inversion_clear IH. constructor; [|done]. simpl. by rewrite Hc.
Qed.

Lemma last_item_all P l :
  Forall (λ t, str_all P t = true) l → str_all P (last_item l) = true.
Proof.
  unfold last_item. induction 1 as [|t l Ht Hl IH]; [done|].
  destruct l; [done|]. exact IH.
Qed.

End StringFacts.

Section PathFacts.

Import Py os_path.

Lemma rfind_no_slash s : no_slash s = true → rfind s sep = (-1)%Z.
Proof.
  unfold no_slash. induction s as [|c s IH]; simpl; [done|].
  intros [Hc Hs]%andb_true_iff. rewrite (IH Hs). simpl.
  by apply negb_true_iff in Hc as ->.
Qed.

Lemma rfind_ge s c : (-1 ≤ rfind s c)%Z.
Proof.
  induction s as [|x s IH]; simpl; [lia|].
  destruct (0 <=? rfind s c)%Z eqn:Hk; [lia|].
  destruct (Ascii.eqb x c); lia.
Qed.

Lemma basename_cons x r :
  basename (String x r) =
    if (0 <=? rfind r sep)%Z then basename r
    else if Ascii.eqb x sep then r else String x r.
Proof.
  unfold basename. simpl rfind.
  destruct (0 <=? rfind r sep)%Z eqn:Hk.
  - apply Z.leb_le in Hk.
    replace (Z.to_nat (rfind r sep + 1 + 1)) with (S (Z.to_nat (rfind r sep + 1)))
      by lia.
    done.
  - destruct (Ascii.eqb x sep); done.
Qed.

Lemma rfind_neg_no_slash s : (rfind s sep <? 0)%Z = true → no_slash s = true.
Proof.
  unfold no_slash. induction s as [|c s IH]; simpl; [done|].
  destruct (0 <=? rfind s sep)%Z eqn:Hk.
  - apply Z.leb_le in Hk. intros ?%Z.ltb_lt. lia.
  - intros H. rewrite IH by (apply Z.ltb_lt; apply Z.leb_gt in Hk; lia).
    destruct (Ascii.eqb c sep); [done|]. done.
Qed.

(** [basename] never returns a name with a separator in it. *)
Lemma basename_no_slash p : no_slash (basename p) = true.
Proof.
  induction p as [|x r IH]; [done|].
  rewrite basename_cons.
  destruct (0 <=? rfind r sep)%Z eqn:Hk; [done|].
  assert (no_slash r = true) as Hr
    by (apply rfind_neg_no_slash, Z.ltb_lt; apply Z.leb_gt in Hk; lia).
  destruct (Ascii.eqb x sep) eqn:Hx; [done|].
  unfold no_slash in *. simpl. by rewrite Hx, Hr.
Qed.

(** On a name without separator, [basename] is the identity. *)
Lemma basename_id s : no_slash s = true → basename s = s.
Proof.
  intros Hs. unfold basename. by rewrite (rfind_no_slash _ Hs).
Qed.

Lemma basename_app_sep a b :
  no_slash b = true → basename (a +:+ String sep b) = b.
Proof.
  intros Hb. induction a as [|x a IH].
  - change ("" +:+ String sep b) with (String sep b).
    rewrite basename_cons, (rfind_no_slash _ Hb). done.
  - change (String x a +:+ String sep b) with (String x (a +:+ String sep b)).
    rewrite basename_cons.
    assert (0 ≤ rfind (a +:+ String sep b) sep)%Z as Hk.
    { clear IH. induction a as [|y a IHa]; simpl.
      - rewrite (rfind_no_slash _ Hb). simpl. done.
      - destruct (0 <=? rfind (a +:+ String sep b) sep)%Z eqn:Hk; lia. }
    apply Z.leb_le in Hk. by rewrite Hk.
Qed.

Lemma no_slash_not_startswith s : no_slash s = true → startswith s "/" = false.
Proof.
  destruct s as [|c s]; [done|]. unfold no_slash, startswith. simpl.
  intros [Hc _]%andb_true_iff. apply negb_true_iff in Hc.
  fold sep. by rewrite Hc.
Qed.

(** Joining a separator-free name to the temp root appends it. *)
Lemma join_TEMP_DIR s :
  no_slash s = true → join TEMP_DIR s = TEMP_DIR +:+ String sep s.
Proof.
  intros Hs. unfold join. by rewrite (no_slash_not_startswith _ Hs).
Qed.

Lemma split_no_slash s : no_slash s = true → split sep s = [s].
Proof.
  unfold no_slash. induction s as [|c s IH]; simpl; [done|].
  intros [Hc Hs]%andb_true_iff. apply negb_true_iff in Hc.
  by rewrite Hc, (IH Hs).
Qed.

(** Where a separator-free name resolves under the temp root. *)
Lemma resolve_join s :
  no_slash s = true →
  resolve (join TEMP_DIR s) = rev (walk (rev TEMP_loc) s).
Proof.
  intros Hs. rewrite (join_TEMP_DIR _ Hs). unfold resolve.
  rewrite split_app_sep, (split_no_slash _ Hs). done.
Qed.

Lemma resolve_join_plain s :
  plain_name s = true → resolve (join TEMP_DIR s) = entry s.
Proof.
  unfold plain_name.
  intros [[[Hs H0]%andb_true_iff H1]%andb_true_iff H2]%andb_true_iff.
  rewrite (resolve_join _ Hs). unfold walk.
  apply negb_true_iff in H0, H1, H2. by rewrite H0, H1, H2.
Qed.

Lemma basename_join s : no_slash s = true → basename (join TEMP_DIR s) = s.
Proof.
  intros Hs. rewrite (join_TEMP_DIR _ Hs). by apply basename_app_sep.
Qed.

Lemma entry_inj a b : entry a = entry b → a = b.
Proof. unfold entry. intros H. by simplify_list_eq. Qed.

Lemma entry_not_dir s : plain_name s = true → is_dir (entry s) = false.
Proof.
  intros _. unfold is_dir. apply bool_decide_eq_false.
  intros [k Hk]. apply (f_equal length) in Hk.
  unfold entry in Hk. rewrite !length_app in Hk. simpl in Hk. lia.
Qed.

Lemma entry_within s : within_temp_root (entry s) = true.
Proof. apply bool_decide_eq_true. by exists [s]. Qed.

End PathFacts.

(** ** Printed UUIDs and the names built from them *)

Section NameFacts.

Import Py uuid.

Lemma hexdigit_char d : uuid_char (hexdigit d) = true.
Proof.
  unfold hexdigit. generalize (Z.to_nat d) as n. intros n.
  do 16 (destruct n as [|n]; [reflexivity|]). reflexivity.
Qed.

Lemma hex_chars k n : str_all uuid_char (hex k n) = true.
Proof.
  revert n. induction k as [|k IH]; intros n; simpl; [done|].
  rewrite str_all_app, IH. simpl. by rewrite hexdigit_char.
Qed.

Lemma uuid_str_chars i : str_all uuid_char (str i) = true.
Proof.
  unfold str. cbv zeta.
  rewrite !str_all_app, !str_all_substring by apply hex_chars. done.
Qed.

Lemma uuid_str_head i : head_is uuid_char (str i) = true.
Proof.
  pose proof (uuid_str_chars i) as H. unfold str in *. cbv zeta in *.
  destruct (substring 0 8 (hex 32 i)) as [|c r]; [done|].
  simpl in *. by apply andb_true_iff in H as [-> _].
Qed.

Lemma uuid_char_not_sep c : uuid_char c = true → negb (Ascii.eqb c os_path.sep) = true.
Proof.
  destruct (Ascii.eqb c os_path.sep) eqn:Hc; [|done].
  apply Ascii.eqb_eq in Hc as ->. done.
Qed.

Lemma uuid_str_no_slash i : no_slash (str i) = true.
Proof.
  unfold no_slash. eapply str_all_impl; [|apply uuid_str_chars].
  apply uuid_char_not_sep.
Qed.

Lemma head_is_app P s t : head_is P s = true → head_is P (s +:+ t) = true.
Proof. by destruct s. Qed.

Lemma no_slash_app s t : no_slash (s +:+ t) = no_slash s && no_slash t.
Proof. apply str_all_app. Qed.

(** A separator-free name whose first character is not a dot is plain. *)
Lemma plain_name_head P s :
  P "."%char = false → head_is P s = true → no_slash s = true →
  plain_name s = true.
Proof.
  intros Hdot Hh Hs. unfold plain_name. rewrite Hs.
  destruct s as [|c r]; [done|]. simpl in Hh.
  assert (c ≠ "."%char) as Hc by congruence.
  apply Ascii.eqb_neq in Hc. simpl. by rewrite Hc.
Qed.

Lemma lower_char_not_sep c :
  negb (Ascii.eqb c os_path.sep) = true →
  negb (Ascii.eqb (lower_char c) os_path.sep) = true.
Proof. by destruct c as [[] [] [] [] [] [] [] []]. Qed.

(** The extension [_save_upload] keeps has no separator in it. *)
Lemma ext_no_slash name :
  no_slash (lower (last_item (split "." (os_path.basename name)))) = true.
Proof.
  apply str_all_lower; [apply lower_char_not_sep|].
  apply last_item_all, split_all, basename_no_slash.
Qed.

Lemma upload_name_intro i ext :
  no_slash ext = true → upload_name (str i +:+ "." +:+ ext) = true.
Proof.
  intros Hext. unfold upload_name.
  assert (head_is uuid_char (str i +:+ "." +:+ ext) = true) as Hh
    by apply head_is_app, uuid_str_head.
  rewrite Hh, andb_true_r.
  apply (plain_name_head uuid_char); [done|done|].
  by rewrite !no_slash_app, uuid_str_no_slash, Hext.
Qed.

Lemma artifact_name_intro pre i :
  no_slash pre = true →
  head_is (λ c, negb (uuid_char c) && negb (Ascii.eqb c ".")) pre = true →
  artifact_name (pre +:+ str i +:+ ".pdf") = true.
Proof.
  intros Hpre Hh. unfold artifact_name.
  destruct pre as [|c pre]; [done|]. simpl in Hh.
  apply andb_true_iff in Hh as [Hc Hdot].
  apply andb_true_iff. split; [|done].
  apply (plain_name_head (λ c, negb (Ascii.eqb c "."))).
  - done.
  - done.
  - by rewrite !no_slash_app, Hpre, uuid_str_no_slash.
Qed.

Lemma upload_artifact_ne a b :
  upload_name a = true → artifact_name b = true → a ≠ b.
Proof.
  unfold upload_name, artifact_name.
  intros [_ Ha]%andb_true_iff [_ Hb]%andb_true_iff ->.
  destruct b as [|c b]; [done|]. simpl in *. by rewrite Ha in Hb.
Qed.

Lemma upload_name_plain s : upload_name s = true → plain_name s = true.
Proof. by intros [? _]%andb_true_iff. Qed.

Lemma artifact_name_plain s : artifact_name s = true → plain_name s = true.
Proof. by intros [? _]%andb_true_iff. Qed.

Lemma plain_name_no_slash s : plain_name s = true → no_slash s = true.
Proof.
  unfold plain_name. by intros [[[? _]%andb_true_iff _]%andb_true_iff _]%andb_true_iff.
Qed.

End NameFacts.

(** ** The store primitives *)

Section StoreFacts.

Import os_path.

(** Project the fields of a state that has been written out, and nothing
    else. *)
Ltac world_simpl :=
  cbn [fst snd files trace urandom draws PyPDF2 PIL] in *.

Lemma bind_run {S A B} (m : M S A) (f : A → M S B) s :
  (m ≫= f) s =
    match m s with
    | (s', Ok a) => f a s'
    | (s', Raise e) => (s', Raise e)
    end.
Proof. reflexivity. Qed.

Lemma ret_run {S A} (a : A) (s : S) : mret (M := M S) a s = (s, Ok a).
Proof. reflexivity. Qed.

Lemma uuid4_str_run w : uuid4_str w = (fst (uuid4_str w), Ok (next_uuid w)).
Proof. reflexivity. Qed.

Lemma open_wb_run o p d w : open_wb o p d w = (fst (open_wb o p d w), Ok tt).
Proof. reflexivity. Qed.

Lemma save_upload_run f w :
  filename f ≠ "" →
  _save_upload f w =
    ({| files := <[resolve (upload_dest f w) := file f]> (files w);
        urandom := urandom w; draws := S (draws w);
        PyPDF2 := PyPDF2 w; PIL := PIL w;
        trace := trace w ++ [Wrote Upload (upload_dest f w) (file f)] |},
     Ok (upload_dest f w)).
Proof.
  intros Hf. unfold _save_upload.
  destruct (String.eqb_spec (filename f) ""); [done|]. reflexivity.
Qed.

Lemma upload_dest_name f w :
  ∃ n, upload_name n = true ∧ upload_dest f w = join TEMP_DIR n.
Proof. eexists. split; [|reflexivity]. apply upload_name_intro, ext_no_slash. Qed.

Lemma resolve_upload n : upload_name n = true → resolve (join TEMP_DIR n) = entry n.
Proof. intros Hn. by apply resolve_join_plain, upload_name_plain. Qed.

Lemma resolve_artifact n : artifact_name n = true → resolve (join TEMP_DIR n) = entry n.
Proof. intros Hn. by apply resolve_join_plain, artifact_name_plain. Qed.

(** A file just written at an entry of the temp root reads back. *)
Lemma read_file_entry w n :
  plain_name n = true → read_file w (join TEMP_DIR n) = files w !! entry n.
Proof.
  intros Hn. unfold read_file.
  by rewrite (resolve_join_plain _ Hn), (entry_not_dir _ Hn).
Qed.

Lemma in_flight_start w0 : in_flight w0 w0 [] [] None.
Proof.
  split.
  - by rewrite app_nil_r.
  - intros o p d H. by apply elem_of_nil in H.
  - auto.
  - intros p H. by apply elem_of_nil in H.
  - done.
Qed.

Lemma in_flight_save w0 w evs saved f :
  filename f ≠ "" →
  in_flight w0 w evs saved None →
  in_flight w0 (fst (_save_upload f w))
    (evs ++ [Wrote Upload (upload_dest f w) (file f)])
    (saved ++ [upload_dest f w]) None.
Proof.
  intros Hf [Ht Hw Hfs Hs Ha]. rewrite (save_upload_run _ _ Hf).
  split; world_simpl.
  - by rewrite Ht, app_assoc.
  - intros o p d [H|H]%elem_of_app.
    + specialize (Hw _ _ _ H). destruct o; [|done].
      apply elem_of_app. by left.
    + apply list_elem_of_singleton in H. injection H as -> -> ->.
      apply elem_of_app. right. by apply list_elem_of_singleton.
  - intros l Hl. destruct (decide (l = resolve (upload_dest f w))) as [->|Hne].
    + right. left. eexists. split; [|done].
      apply elem_of_app. right. by apply list_elem_of_singleton.
    + rewrite lookup_insert_ne in Hl by done.
      destruct (Hfs _ Hl) as [?|[(p & Hp & ->)|(? & ? & ? & _)]]; [by left| |done].
      right. left. exists p. split; [|done]. apply elem_of_app. by left.
  - intros p [H|H]%elem_of_app; [by apply Hs|].
    apply list_elem_of_singleton in H as ->. apply upload_dest_name.
  - done.
Qed.

Lemma in_flight_draw w0 w evs saved art :
  in_flight w0 w evs saved art → in_flight w0 (fst (uuid4_str w)) evs saved art.
Proof. intros [Ht Hw Hfs Hs Ha]. by split. Qed.

Lemma in_flight_artifact w0 w evs saved id d :
  artifact_name id = true →
  in_flight w0 w evs saved None →
  in_flight w0 (fst (open_wb Artifact (join TEMP_DIR id) d w))
    (evs ++ [Wrote Artifact (join TEMP_DIR id) d]) saved (Some (id, d)).
Proof.
  intros Hid [Ht Hw Hfs Hs Ha]. split; simpl.
  - by rewrite Ht, app_assoc.
  - intros o p d' [H|H]%elem_of_app.
    + specialize (Hw _ _ _ H). destruct o; [done|]. by destruct Hw as (? & ? & _).
    + apply list_elem_of_singleton in H. injection H as -> -> ->. by exists id.
  - intros l Hl. rewrite (resolve_artifact _ Hid) in Hl.
    destruct (decide (l = entry id)) as [->|Hne].
    + right. right. by exists id, d.
    + rewrite lookup_insert_ne in Hl by done.
      destruct (Hfs _ Hl) as [?|[?|(? & ? & ? & _)]]; [by left|by right; left|done].
  - done.
  - intros id' d' [= <- <-]. split; [done|]. split.
    + by rewrite (resolve_artifact _ Hid), lookup_insert_eq.
    + apply elem_of_app. right. by apply list_elem_of_singleton.
Qed.

(** *** Cleanup *)

Lemma remove_all_ok ps w : snd (remove_all ps w) = Ok tt.
Proof.
  revert w. induction ps as [|p ps IH]; intros w; [done|].
  cbn [remove_all]. rewrite bind_run. unfold try_pass. apply IH.
Qed.

Lemma os_remove_files p w l :
  files (fst (os_remove p w)) !! l =
    if bool_decide (l = resolve p) then None else files w !! l.
Proof.
  unfold os_remove. destruct (files w !! resolve p) eqn:Hp; world_simpl.
  - case_bool_decide as Hl; [subst; apply lookup_delete_eq|].
    by apply lookup_delete_ne.
  - case_bool_decide as Hl; [by subst|done].
Qed.

Lemma remove_all_run ps w : remove_all ps w = (fst (remove_all ps w), Ok tt).
Proof.
  pose proof (remove_all_ok ps w) as H.
  destruct (remove_all ps w) as [w' r]. cbn [fst snd] in *. by subst.
Qed.

Lemma remove_all_files ps w l :
  files (fst (remove_all ps w)) !! l =
    if bool_decide (l ∈ resolve <$> ps) then None else files w !! l.
Proof.
  revert w. induction ps as [|p ps IH]; intros w; [done|].
  cbn [remove_all]. rewrite bind_run. unfold try_pass. rewrite IH.
  rewrite fmap_cons, os_remove_files. clear IH.
  repeat case_bool_decide; try done; set_solver.
Qed.

Lemma remove_all_trace ps w :
  ∃ rs, trace (fst (remove_all ps w)) = (trace w ++ rs)%list
        ∧ ∀ o p d, Wrote o p d ∉ rs.
Proof.
  revert w. induction ps as [|p ps IH]; intros w.
  - exists []. split; [by rewrite app_nil_r|]. intros o q d H. by apply elem_of_nil in H.
  - simpl remove_all. rewrite bind_run. unfold try_pass.
    destruct (IH (fst (os_remove p w))) as (rs & Hrs & Hno).
    unfold os_remove in *. destruct (files w !! resolve p); simpl in *.
    + exists (Removed p :: rs). split; [by rewrite Hrs, <- app_assoc|].
      intros o q d [H|H]%elem_of_cons; [done|]. by apply Hno in H.
    + by exists rs.
Qed.

(** Whatever the body of a handler did, removing the saved paths settles
    the store. *)
Lemma cleanup_settles w0 w evs saved art :
  in_flight w0 w evs saved art →
  ∃ evs', settled w0 (fst (remove_all saved w)) evs' art.
Proof.
  intros [Ht Hw Hfs Hs Ha].
  destruct (remove_all_trace saved w) as (rs & Hrs & Hno).
  exists (evs ++ rs)%list. split.
  - by rewrite Hrs, Ht, app_assoc.
  - intros p d [H|H]%elem_of_app; [|by apply Hno in H].
    rewrite remove_all_files. specialize (Hw _ _ _ H). simpl in Hw.
    rewrite bool_decide_eq_true_2; [done|]. by apply list_elem_of_fmap_2.
  - intros p d [H|H]%elem_of_app; [|by apply Hno in H].
    apply Hs. by specialize (Hw _ _ _ H).
  - intros p d [H|H]%elem_of_app; [|by apply Hno in H].
    by specialize (Hw _ _ _ H).
  - intros l. rewrite remove_all_files. case_bool_decide as Hl.
    + by intros [? ?].
    + intros Hsome. destruct (Hfs _ Hsome) as [?|[(p & Hp & ->)|?]];
        [by left| |by right].
      exfalso. apply Hl. by apply list_elem_of_fmap_2.
  - intros id d Hart. destruct (Ha _ _ Hart) as (Hid & Hfile & Hev).
    split; [done|]. split; [|apply elem_of_app; by left].
    rewrite remove_all_files. rewrite bool_decide_eq_false_2; [done|].
    intros (p & Heq & Hp)%list_elem_of_fmap.
    destruct (Hs _ Hp) as (n & Hn & ->).
    rewrite (resolve_upload _ Hn) in Heq. apply entry_inj in Heq as <-.
    by eapply upload_artifact_ne.
Qed.

End StoreFacts.

(** ** The handlers agree with their outcome functions *)

Ltac frame_simpl :=
  cbn [m_world m_saved_paths m_writer i_world i_saved_paths i_pil_images
       fst snd] in *.

Section HandlerFacts.

Context {E : Engines}.
Import os_path.

Lemma is_pdf_name_filename f : is_pdf_name f = true → filename f ≠ "".
Proof. unfold is_pdf_name. by intros H Hf; rewrite Hf in H. Qed.

Lemma is_image_name_filename f : is_image_name f = true → filename f ≠ "".
Proof. unfold is_image_name. by intros H Hf; rewrite Hf in H. Qed.

Lemma fold_add_page (ps writer : list page) :
  fold_left add_page ps writer = (writer ++ ps)%list.
Proof.
  revert writer. induction ps as [|p ps IH]; intros writer; simpl.
  - by rewrite app_nil_r.
  - rewrite IH. unfold add_page. by rewrite <- app_assoc.
Qed.

(** The file [_save_upload] just wrote reads back as uploaded. *)
Lemma read_saved_upload f w :
  filename f ≠ "" →
  read_file (fst (_save_upload f w)) (upload_dest f w) = Some (file f).
Proof.
  intros Hf. rewrite (save_upload_run _ _ Hf). cbn [fst].
  destruct (upload_dest_name f w) as (n & Hn & Heq). rewrite Heq.
  rewrite (read_file_entry _ _ (upload_name_plain _ Hn)). cbn [files].
  by rewrite (resolve_upload _ Hn), lookup_insert_eq.
Qed.

Lemma make_download_artifact id :
  artifact_name id = true →
  _make_download (join TEMP_DIR id) id = download_of id.
Proof.
  intros Hid. unfold _make_download, download_of.
  by rewrite (basename_join _ (plain_name_no_slash _ (artifact_name_plain _ Hid))).
Qed.

(** *** merge *)

Lemma merge_loop_cons f rest fr :
  merge_loop (f :: rest) fr =
    if negb (is_pdf_name f) then
      (fr, Raise (HTTPException 400 (filename f +:+ " is not a PDF")))
    else
      match PdfReader_pages (file f) with
      | None => (m_after_save f fr (m_writer fr), Raise (OtherError "PdfReadError"))
      | Some ps => merge_loop rest (m_after_save f fr (m_writer fr ++ ps))
      end.
Proof.
  cbn [merge_loop]. rewrite bind_run.
  destruct (is_pdf_name f) eqn:Hpdf; cbn [negb]; [|done].
  apply is_pdf_name_filename in Hpdf.
  rewrite ret_run, bind_run. unfold m_io at 1.
  pose proof (read_saved_upload f (m_world fr) Hpdf) as Hread.
  rewrite (save_upload_run _ _ Hpdf) in *. cbn [fst] in Hread.
  rewrite bind_run. unfold m_append_saved, modify.
  rewrite bind_run. unfold m_io at 1. cbn [m_world]. unfold PdfReader.
  rewrite Hread.
  unfold m_after_save. rewrite (save_upload_run _ _ Hpdf).
  destruct (PdfReader_pages (file f)) as [ps|]; frame_simpl; [|done].
  rewrite bind_run. unfold m_add_pages, modify. frame_simpl.
  by rewrite fold_add_page.
Qed.

Lemma merge_loop_spec files : ∀ w0 fr evs,
  in_flight w0 (m_world fr) evs (m_saved_paths fr) None →
  ∃ evs',
    in_flight w0 (m_world (fst (merge_loop files fr))) evs'
              (m_saved_paths (fst (merge_loop files fr))) None
    ∧ match merge_scan files with
      | Ok qs => snd (merge_loop files fr) = Ok tt
                 ∧ m_writer (fst (merge_loop files fr)) = (m_writer fr ++ qs)%list
      | Raise e => snd (merge_loop files fr) = Raise e
      end.
Proof.
  induction files as [|f rest IH]; intros w0 fr evs Hfl.
  - exists evs. split; [done|]. simpl. by rewrite app_nil_r.
  - rewrite merge_loop_cons. simpl merge_scan.
    destruct (is_pdf_name f) eqn:Hpdf; simpl negb; cbv iota; [|by exists evs].
    pose proof (in_flight_save _ _ _ _ f (is_pdf_name_filename _ Hpdf) Hfl) as Hfl'.
    destruct (PdfReader_pages (file f)) as [ps|]; [|by eexists].
    destruct (IH w0 (m_after_save f fr (m_writer fr ++ ps)) _ Hfl')
      as (evs' & Hfl'' & Hres).
    exists evs'. split; [done|].
    destruct (merge_scan rest) as [qs|e]; [|done].
    destruct Hres as [-> ->]. split; [done|]. simpl. by rewrite <- app_assoc.
Qed.

Lemma settled_refl w : settled w w [] None.
Proof.
  split; [by rewrite app_nil_r| | | |by left|done];
    intros ? ? H; by apply elem_of_nil in H.
Qed.

(** What the body of [merge_pdfs] does after its loop. *)
Lemma merge_body_run files fr0 :
  merge_body files fr0 =
    match merge_loop files fr0 with
    | (fr1, Ok _) =>
        let id := "merged_" +:+ next_uuid (m_world fr1) +:+ ".pdf" in
        ({| m_world :=
              fst (open_wb Artifact (join TEMP_DIR id)
                     (PdfWriter_write (m_writer fr1))
                     (fst (uuid4_str (m_world fr1))));
            m_saved_paths := m_saved_paths fr1;
            m_writer := m_writer fr1 |},
         Ok (_make_download (join TEMP_DIR id) id))
    | (fr1, Raise e) => (fr1, Raise e)
    end.
Proof.
  unfold merge_body. rewrite bind_run.
  destruct (merge_loop files fr0) as [fr1 [[]|e]]; [|done].
  reflexivity.
Qed.

Lemma merge_finally_run fr :
  merge_finally fr =
    ({| m_world := fst (remove_all (m_saved_paths fr) (m_world fr));
        m_saved_paths := m_saved_paths fr;
        m_writer := m_writer fr |}, Ok tt).
Proof.
  unfold merge_finally. rewrite bind_run. unfold get_state, m_io.
  by rewrite remove_all_run.
Qed.

(** Write the artifact, then remove the saved uploads: the store settles on
    the artifact. *)
Lemma finish_settles w0 w evs saved pre data :
  no_slash pre = true →
  head_is (λ c, negb (uuid.uuid_char c) && negb (Ascii.eqb c ".")) pre = true →
  in_flight w0 w evs saved None →
  artifact_name (pre +:+ next_uuid w +:+ ".pdf") = true
  ∧ ∃ evs',
      settled w0
        (fst (remove_all saved
                (fst (open_wb Artifact
                        (join TEMP_DIR (pre +:+ next_uuid w +:+ ".pdf")) data
                        (fst (uuid4_str w))))))
        evs' (Some (pre +:+ next_uuid w +:+ ".pdf", data)).
Proof.
  intros Hpre Hhead Hfl.
  assert (artifact_name (pre +:+ next_uuid w +:+ ".pdf") = true) as Hid
    by (by apply artifact_name_intro).
  split; [done|].
  apply in_flight_draw in Hfl.
  eapply cleanup_settles, in_flight_artifact; done.
Qed.

Lemma merge_pdfs_spec files w :
  ∃ evs art,
    settled w (fst (merge_pdfs files w)) evs art
    ∧ match merge_outcome w files with
      | Ok qs => ∃ id, artifact_name id = true
                       ∧ snd (merge_pdfs files w) = Ok (download_of id)
                       ∧ art = Some (id, PdfWriter_write qs)
      | Raise e => snd (merge_pdfs files w) = Raise e ∧ art = None
      end.
Proof.
  unfold merge_pdfs, merge_outcome. rewrite bind_run. unfold import_PyPDF2.
  pose proof (settled_refl w) as Hnone.
  destruct (PyPDF2 w); [|by exists [], None].
  destruct (length files <? 2)%nat; [by exists [], None|].
  unfold with_locals, try_finally. rewrite merge_body_run.
  set (fr0 := {| m_world := w; m_saved_paths := []; m_writer := [] |}).
  destruct (merge_loop_spec files w fr0 [] (in_flight_start w)) as (evs & Hfl & Hres).
  destruct (merge_loop files fr0) as [fr1 r1]. frame_simpl.
  destruct (merge_scan files) as [qs|e].
  - destruct Hres as [-> Hw]. cbn [m_writer app fr0] in Hw. subst qs.
    cbv zeta. rewrite merge_finally_run. frame_simpl.
    destruct (finish_settles w (m_world fr1) evs (m_saved_paths fr1) "merged_"
                (PdfWriter_write (m_writer fr1)) eq_refl eq_refl Hfl)
      as (Hid & evs' & Hst).
    exists evs', (Some ("merged_" +:+ next_uuid (m_world fr1) +:+ ".pdf",
                        PdfWriter_write (m_writer fr1))).
    split; [done|]. eexists. split; [exact Hid|].
    by rewrite (make_download_artifact _ Hid).
  - subst r1. rewrite merge_finally_run. frame_simpl.
    destruct (cleanup_settles _ _ _ _ _ Hfl) as (evs' & Hst).
    by exists evs', None.
Qed.

(** *** split *)

Lemma try_pass_remove p w : try_pass (os_remove p) w = remove_all [p] w.
Proof. reflexivity. Qed.

Lemma split_loop_seq (pages : list page) (a : Z) : ∀ n i acc w,
  (0 ≤ a)%Z → (Z.to_nat a + i + n ≤ length pages)%nat →
  split_loop pages (map (λ k, (a + Z.of_nat k)%Z) (seq i n)) acc w =
    (w, Ok (acc ++ take n (drop (Z.to_nat a + i) pages))).
Proof.
  induction n as [|n IH]; intros i acc w Ha Hlen.
  - simpl. by rewrite app_nil_r.
  - simpl seq. simpl map. simpl split_loop.
    destruct (lookup_lt_is_Some_2 pages (Z.to_nat a + i)) as [pg Hpg]; [lia|].
    assert (getitem pages (a + Z.of_nat i) = Some pg) as ->.
    { unfold getitem.
      destruct (a + Z.of_nat i <? 0)%Z eqn:Hneg; [apply Z.ltb_lt in Hneg; lia|].
      assert ((0 <=? a + Z.of_nat i)%Z && (a + Z.of_nat i <? Z.of_nat (length pages))%Z = true)
        as -> by (apply andb_true_iff; split; [apply Z.leb_le|apply Z.ltb_lt]; lia).
      by replace (Z.to_nat (a + Z.of_nat i)) with (Z.to_nat a + i)%nat by lia. }
    rewrite IH by lia. unfold add_page.
    rewrite (drop_S _ _ _ Hpg). simpl take.
    replace (Z.to_nat a + S i)%nat with (S (Z.to_nat a + i)) by lia.
    by rewrite <- app_assoc.
Qed.

Lemma split_loop_range (pages : list page) s e w :
  (1 ≤ s)%Z → (s ≤ e)%Z → (e ≤ Z.of_nat (length pages))%Z →
  split_loop pages (py_range (s - 1) e) [] w = (w, Ok (page_range pages s e)).
Proof.
  intros Hs Hse He. unfold py_range, page_range.
  rewrite split_loop_seq by lia. cbn [app].
  by replace (Z.to_nat (e - (s - 1))) with (Z.to_nat (e - s + 1)) by lia;
     replace (Z.to_nat (s - 1) + 0)%nat with (Z.to_nat (s - 1)) by lia.
Qed.

Lemma split_body_run p s e w :
  split_body p s e w =
    match read_file w p with
    | None => (w, Raise (OtherError "FileNotFoundError"))
    | Some data =>
        match PdfReader_pages data with
        | None => (w, Raise (OtherError "PdfReadError"))
        | Some pages =>
            if (s <? 1)%Z || (e <? s)%Z || (Z.of_nat (length pages) <? e)%Z then
              (w, Raise (HTTPException 400
                           ("Invalid page range. Document has "
                            +:+ Py.str_of_nat (length pages) +:+ " pages.")))
            else
              match split_loop pages (py_range (s - 1) e) [] w with
              | (w2, Ok writer) =>
                  let id := "split_" +:+ next_uuid w2 +:+ ".pdf" in
                  (fst (open_wb Artifact (join TEMP_DIR id)
                          (PdfWriter_write writer) (fst (uuid4_str w2))),
                   Ok (_make_download (join TEMP_DIR id) id))
              | (w2, Raise err) => (w2, Raise err)
              end
        end
    end.
Proof.
  unfold split_body. rewrite bind_run. unfold PdfReader.
  destruct (read_file w p) as [data|]; [|done].
  destruct (PdfReader_pages data) as [pages|]; [|done].
  destruct ((s <? 1)%Z || (e <? s)%Z || (Z.of_nat (length pages) <? e)%Z); [done|].
  rewrite bind_run.
  destruct (split_loop pages (py_range (s - 1) e) [] w) as [w2 [writer|err]]; [|done].
  reflexivity.
Qed.

Lemma split_pdf_spec f s e w :
  ∃ evs art,
    settled w (fst (split_pdf f s e w)) evs art
    ∧ match split_outcome w f s e with
      | Ok qs => ∃ id, artifact_name id = true
                       ∧ snd (split_pdf f s e w) = Ok (download_of id)
                       ∧ art = Some (id, PdfWriter_write qs)
      | Raise err => snd (split_pdf f s e w) = Raise err ∧ art = None
      end.
Proof.
  unfold split_pdf, split_outcome. rewrite bind_run. unfold import_PyPDF2.
  pose proof (settled_refl w) as Hnone.
  destruct (PyPDF2 w); [|by exists [], None].
  destruct (is_pdf_name f) eqn:Hpdf; cbn [negb]; [|by exists [], None].
  apply is_pdf_name_filename in Hpdf.
  rewrite bind_run.
  pose proof (read_saved_upload f w Hpdf) as Hread.
  pose proof (in_flight_save _ _ _ _ f Hpdf (in_flight_start w)) as Hfl.
  cbn [app] in Hfl.
  rewrite (save_upload_run _ _ Hpdf) in *. cbn [fst] in Hread, Hfl.
  set (w1 := {| files := _ |}) in *.
  unfold try_finally. rewrite split_body_run, Hread.
  destruct (PdfReader_pages (file f)) as [pages|].
  - destruct ((s <? 1)%Z || (e <? s)%Z || (Z.of_nat (length pages) <? e)%Z) eqn:Hrange.
    + rewrite try_pass_remove, remove_all_run. cbn [fst snd].
      destruct (cleanup_settles _ _ _ _ _ Hfl) as (evs' & Hst).
      by exists evs', None.
    + apply orb_false_iff in Hrange as [[H1 H2]%orb_false_iff H3].
      apply Z.ltb_ge in H1, H2, H3.
      rewrite split_loop_range by lia. cbv beta iota zeta.
      rewrite try_pass_remove, remove_all_run. cbn [fst snd].
      destruct (finish_settles w w1 _ _ "split_"
                  (PdfWriter_write (page_range pages s e)) eq_refl eq_refl Hfl)
        as (Hid & evs' & Hst).
      exists evs', (Some ("split_" +:+ next_uuid w1 +:+ ".pdf",
                          PdfWriter_write (page_range pages s e))).
      split; [done|]. eexists. split; [exact Hid|].
      by rewrite (make_download_artifact _ Hid).
  - rewrite try_pass_remove, remove_all_run. cbn [fst snd].
    destruct (cleanup_settles _ _ _ _ _ Hfl) as (evs' & Hst).
    by exists evs', None.
Qed.

End HandlerFacts.

Section ImageFacts.

Context {E : Engines}.
Import os_path.

(** *** images to pdf *)

Lemma images_loop_cons img rest fr :
  images_loop (img :: rest) fr =
    if negb (is_image_name img) then
      (fr, Raise (HTTPException 400 ("Unsupported image format: " +:+ filename img)))
    else
      match Image_open_RGB (file img) with
      | None => (i_after_save img fr (i_pil_images fr),
                 Raise (OtherError "UnidentifiedImageError"))
      | Some im => images_loop rest (i_after_save img fr (i_pil_images fr ++ [im]))
      end.
Proof.
  cbn [images_loop]. rewrite bind_run.
  destruct (is_image_name img) eqn:Himg; cbn [negb]; [|done].
  apply is_image_name_filename in Himg.
  rewrite ret_run, bind_run. unfold i_io at 1.
  pose proof (read_saved_upload img (i_world fr) Himg) as Hread.
  rewrite (save_upload_run _ _ Himg) in *. cbn [fst] in Hread.
  rewrite bind_run. unfold i_append_saved, modify.
  rewrite bind_run. unfold i_io at 1. cbn [i_world]. unfold Image_open.
  rewrite Hread.
  unfold i_after_save. rewrite (save_upload_run _ _ Himg).
  destruct (Image_open_RGB (file img)) as [im|]; frame_simpl; [|done].
  rewrite bind_run. unfold i_append_image, modify. by frame_simpl.
Qed.

Lemma images_loop_spec images : ∀ w0 fr evs,
  in_flight w0 (i_world fr) evs (i_saved_paths fr) None →
  ∃ evs',
    in_flight w0 (i_world (fst (images_loop images fr))) evs'
              (i_saved_paths (fst (images_loop images fr))) None
    ∧ match images_scan images with
      | Ok ims => snd (images_loop images fr) = Ok tt
                  ∧ i_pil_images (fst (images_loop images fr))
                    = i_pil_images fr ++ ims
      | Raise e => snd (images_loop images fr) = Raise e
      end.
Proof.
  induction images as [|f rest IH]; intros w0 fr evs Hfl.
  - exists evs. split; [done|]. simpl. by rewrite app_nil_r.
  - rewrite images_loop_cons. simpl images_scan.
    destruct (is_image_name f) eqn:Himg; simpl negb; cbv iota; [|by exists evs].
    pose proof (in_flight_save _ _ _ _ f (is_image_name_filename _ Himg) Hfl) as Hfl'.
    destruct (Image_open_RGB (file f)) as [im|]; [|by eexists].
    destruct (IH w0 (i_after_save f fr (i_pil_images fr ++ [im])) _ Hfl')
      as (evs' & Hfl'' & Hres).
    exists evs'. split; [done|].
    destruct (images_scan rest) as [ims|e]; [|done].
    destruct Hres as [-> ->]. split; [done|]. simpl. by rewrite <- app_assoc.
Qed.

(** A scan that succeeds decodes one image per uploaded file. *)
Lemma images_scan_length images ims :
  images_scan images = Ok ims → length ims = length images.
Proof.
  revert ims. induction images as [|f rest IH]; intros ims; simpl.
  - by intros [= <-].
  - destruct (is_image_name f); simpl; [|done].
    destruct (Image_open_RGB (file f)); [|done].
    destruct (images_scan rest) as [ims'|]; [|done].
    intros [= <-]. simpl. by rewrite (IH ims').
Qed.

Lemma images_body_run images fr0 :
  images_body images fr0 =
    match images_loop images fr0 with
    | (fr1, Ok _) =>
        let id := "images_" +:+ next_uuid (i_world fr1) +:+ ".pdf" in
        match i_pil_images fr1 with
        | [] =>
            ({| i_world := fst (uuid4_str (i_world fr1));
                i_saved_paths := i_saved_paths fr1;
                i_pil_images := i_pil_images fr1 |},
             Raise (OtherError "IndexError"))
        | first :: rest =>
            ({| i_world :=
                  fst (open_wb Artifact (join TEMP_DIR id)
                         (Image_save_PDF first rest)
                         (fst (uuid4_str (i_world fr1))));
                i_saved_paths := i_saved_paths fr1;
                i_pil_images := i_pil_images fr1 |},
             Ok (_make_download (join TEMP_DIR id) id))
        end
    | (fr1, Raise e) => (fr1, Raise e)
    end.
Proof.
  unfold images_body. rewrite bind_run.
  destruct (images_loop images fr0) as [fr1 [[]|e]]; [|done].
  rewrite bind_run. unfold i_io at 1. rewrite uuid4_str_run.
  rewrite bind_run. unfold get_state at 1. frame_simpl.
  destruct (i_pil_images fr1) as [|first rest] eqn:Hpil; [done|].
  rewrite bind_run. unfold i_io. frame_simpl. rewrite open_wb_run.
  by rewrite ret_run.
Qed.

Lemma images_finally_run fr :
  images_finally fr =
    ({| i_world := fst (remove_all (i_saved_paths fr) (i_world fr));
        i_saved_paths := i_saved_paths fr;
        i_pil_images := i_pil_images fr |}, Ok tt).
Proof.
  unfold images_finally. rewrite bind_run. unfold get_state, i_io.
  by rewrite remove_all_run.
Qed.

Lemma images_to_pdf_spec images w :
  ∃ evs art,
    settled w (fst (images_to_pdf images w)) evs art
    ∧ match images_outcome w images with
      | Ok ims => ∃ id first rest, artifact_name id = true
                       ∧ ims = first :: rest
                       ∧ snd (images_to_pdf images w) = Ok (download_of id)
                       ∧ art = Some (id, Image_save_PDF first rest)
      | Raise e => snd (images_to_pdf images w) = Raise e ∧ art = None
      end.
Proof.
  unfold images_to_pdf, images_outcome. rewrite bind_run. unfold import_PIL.
  pose proof (settled_refl w) as Hnone.
  destruct (PIL w); [|by exists [], None].
  destruct images as [|img0 images0]; [by exists [], None|].
  set (images := img0 :: images0).
  unfold with_locals, try_finally. rewrite images_body_run.
  set (fr0 := {| i_world := w; i_saved_paths := []; i_pil_images := [] |}).
  destruct (images_loop_spec images w fr0 [] (in_flight_start w)) as (evs & Hfl & Hres).
  pose proof (images_scan_length images) as Hlen.
  destruct (images_loop images fr0) as [fr1 r1]. frame_simpl.
  destruct (images_scan images) as [ims|e].
  - destruct Hres as [-> Hw]. cbn [i_pil_images app fr0] in Hw.
    specialize (Hlen ims eq_refl).
    destruct ims as [|first rest]; [done|].
    cbv zeta. rewrite Hw. rewrite images_finally_run. frame_simpl.
    destruct (finish_settles w (i_world fr1) evs (i_saved_paths fr1) "images_"
                (Image_save_PDF first rest) eq_refl eq_refl Hfl)
      as (Hid & evs' & Hst).
    exists evs', (Some ("images_" +:+ next_uuid (i_world fr1) +:+ ".pdf",
                        Image_save_PDF first rest)).
    split; [done|]. eexists _, first, rest. split; [exact Hid|]. split; [done|].
    by rewrite (make_download_artifact _ Hid).
  - subst r1. rewrite images_finally_run. frame_simpl.
    destruct (cleanup_settles _ _ _ _ _ Hfl) as (evs' & Hst).
    by exists evs', None.
Qed.

(** *** all three handlers *)

Lemma handle_spec req w :
  ∃ evs art,
    settled w (fst (handle req w)) evs art
    ∧ match snd (handle req w) with
      | Ok resp => ∃ id d, artifact_name id = true ∧ resp = download_of id
                           ∧ art = Some (id, d) ∧ artifact_bytes w req = Some d
      | Raise e => art = None ∧ raised w req = Some e
      end.
Proof.
  destruct req as [files|f s e|images]; cbn [handle artifact_bytes raised].
  - destruct (merge_pdfs_spec files w) as (evs & art & Hst & Hres).
    exists evs, art. split; [done|].
    destruct (merge_outcome w files) as [qs|err].
    + destruct Hres as (id & Hid & -> & ->). by exists id, (PdfWriter_write qs).
    + by destruct Hres as [-> ->].
  - destruct (split_pdf_spec f s e w) as (evs & art & Hst & Hres).
    exists evs, art. split; [done|].
    destruct (split_outcome w f s e) as [qs|err].
    + destruct Hres as (id & Hid & -> & ->). by exists id, (PdfWriter_write qs).
    + by destruct Hres as [-> ->].
  - destruct (images_to_pdf_spec images w) as (evs & art & Hst & Hres).
    exists evs, art. split; [done|].
    destruct (images_outcome w images) as [ims|err].
    + destruct Hres as (id & first & rest & Hid & -> & -> & ->).
      by exists id, (Image_save_PDF first rest).
    + by destruct Hres as [-> ->].
Qed.

End ImageFacts.

(** * The claims *)

(** ** The download handler on its own *)

Section DownloadFacts.

Context {E : Engines}.
Import os_path.

Lemma download_file_run id w :
  download_file id w =
    if os_path_exists w (join TEMP_DIR (basename id)) then
      (w, Ok {| path := join TEMP_DIR (basename id);
                fr_filename := basename id;
                media_type := "application/pdf" |})
    else (w, Raise (HTTPException 404 "File not found or expired")).
Proof. unfold download_file. by destruct (os_path_exists _ _). Qed.

Lemma exists_entry w n :
  plain_name n = true →
  os_path_exists w (join TEMP_DIR n) = bool_decide (is_Some (files w !! entry n)).
Proof.
  intros Hn. unfold os_path_exists.
  by rewrite (resolve_join_plain _ Hn), (entry_not_dir _ Hn).
Qed.

(** Downloading the name of a stored artifact serves that file. *)
Lemma download_artifact w id d :
  artifact_name id = true → files w !! entry id = Some d →
  download_file id w =
    (w, Ok {| path := join TEMP_DIR id; fr_filename := id;
              media_type := "application/pdf" |})
  ∧ read_file w (join TEMP_DIR id) = Some d.
Proof.
  intros Hid Hd. pose proof (artifact_name_plain _ Hid) as Hp.
  rewrite download_file_run, (basename_id _ (plain_name_no_slash _ Hp)).
  rewrite (exists_entry _ _ Hp), (read_file_entry _ _ Hp), Hd.
  by rewrite bool_decide_eq_true_2.
Qed.

(** The path served for an identifier stays within the temp root unless
    the last component of the identifier is [..]. *)
Lemma download_path_within id w fr :
  basename id ≠ ".." →
  snd (download_file id w) = Ok fr →
  within_temp_root (resolve (path fr)) = true.
Proof.
  intros Hne. rewrite download_file_run.
  destruct (os_path_exists _ _); [|done]. simpl. intros [= <-]. simpl.
  rewrite (resolve_join _ (basename_no_slash id)). unfold walk.
  destruct (String.eqb_spec (basename id) ""); [done|].
  destruct (String.eqb_spec (basename id) "."); [done|].
  destruct (String.eqb_spec (basename id) ".."); [done|].
  simpl. apply bool_decide_eq_true. by eexists [_].
Qed.

End DownloadFacts.

(** ** Cleanup, round trip, engine check *)

(** C9. After a successful operation, downloading the returned identifier
    resolves to the very path the handler wrote its artifact to, and the
    bytes served are the bytes written; the identifier is the basename of
    that path. *)
Theorem download_round_trip `{E : Engines} (req : request) (w : world)
    (resp : JSONResponse) :
  snd (handle req w) = Ok resp →
  ∃ evs d,
    trace (fst (handle req w)) = trace w ++ evs
    ∧ Wrote Artifact (os_path.join TEMP_DIR (file_id resp)) d ∈ evs
    ∧ (∀ p' d', Wrote Artifact p' d' ∈ evs →
         p' = os_path.join TEMP_DIR (file_id resp) ∧ d' = d)
    ∧ file_id resp = os_path.basename (os_path.join TEMP_DIR (file_id resp))
    ∧ ∃ served,
        download_file (file_id resp) (fst (handle req w))
          = (fst (handle req w), Ok served)
        ∧ path served = os_path.join TEMP_DIR (file_id resp)
        ∧ body (fst (handle req w)) served = Some d.
Proof.
  intros Hok. destruct (handle_spec req w) as (evs & art & Hst & Hres).
  rewrite Hok in Hres. destruct Hres as (id & d & Hid & -> & -> & _).
  destruct Hst as [Ht Hup Hnames Harts Hfiles Hart].
  destruct (Hart _ _ eq_refl) as (_ & Hfile & Hev).
  exists evs, d. simpl file_id. split; [done|]. split; [done|]. split.
  - intros p' d' Hin. destruct (Harts _ _ Hin) as (id' & [= <- <-] & ->). done.
  - split.
    + by rewrite (basename_join _ (plain_name_no_slash _ (artifact_name_plain _ Hid))).
    + destruct (download_artifact _ _ _ Hid Hfile) as [Hdl Hread].
      eexists. split; [exact Hdl|]. by split.
Qed.

(** A merge of two documents, then the download of what it returned. *)
Lemma download_round_trip_witness :
  ∃ served d,
    snd (download_file "merged_00000000-0000-4000-a244-21e8fbd3022a.pdf"
           (fst (handle (E := toy_engines) (PostMerge two_pdfs) fresh_world)))
      = Ok served
    ∧ path served
      = os_path.join TEMP_DIR "merged_00000000-0000-4000-a244-21e8fbd3022a.pdf"
    ∧ body (fst (handle (E := toy_engines) (PostMerge two_pdfs) fresh_world)) served
      = Some d.
Proof.
  destruct (download_round_trip (E := toy_engines) (PostMerge two_pdfs) fresh_world
              (download_of "merged_00000000-0000-4000-a244-21e8fbd3022a.pdf"))
    as (evs & d & _ & _ & _ & _ & served & Hdl & Hpath & Hbody).
  { vm_compute. reflexivity. }
  exists served, d. cbn [file_id download_of] in Hdl, Hpath.
  rewrite Hdl. split; [reflexivity|]. split; [exact Hpath|exact Hbody].
Defined.

(** C10. Every operation handler imports its engine before it looks at the
    request: with the engine missing the outcome is the 500 "engine
    unavailable" error for every request, valid or not, nothing is written,
    and InvalidInput is not reported. *)
Theorem engine_checked_first `{E : Engines} (req : request) (w : world)
    (e : string) :
  required_engine req w = ImportError e →
  handle req w =
    (w, Raise (HTTPException 500
                 (engine_label req +:+ " engine unavailable: " +:+ e)))
  ∧ is_EngineUnavailable (snd (handle req w)) = true
  ∧ is_InvalidInput (snd (handle req w)) = false.
Proof.
  intros Himp.
  assert (handle req w =
    (w, Raise (HTTPException 500
                 (engine_label req +:+ " engine unavailable: " +:+ e)))) as Heq.
  { destruct req as [files|f s t|images]; simpl in *.
    - unfold merge_pdfs. rewrite bind_run. unfold import_PyPDF2. by rewrite Himp.
    - unfold split_pdf. rewrite bind_run. unfold import_PyPDF2. by rewrite Himp.
    - unfold images_to_pdf. rewrite bind_run. unfold import_PIL. by rewrite Himp. }
  by rewrite Heq.
Qed.

(** A merge of a single file with no engine installed: the engine error
    wins over the file-count error. *)
Lemma engine_checked_first_witness :
  handle (E := toy_engines) (PostMerge [upload "notes.txt" []]) bare_world =
    (bare_world,
     Raise (HTTPException 500 "PDF engine unavailable: No module named 'PyPDF2'")).
Proof.
  apply (engine_checked_first (E := toy_engines)
           (PostMerge [upload "notes.txt" []]) bare_world
           "No module named 'PyPDF2'").
  reflexivity.
Defined.

(** ** Path safety and not-found *)

(** C1, at the identifier [..]: [basename] leaves it as it is, the joined
    path exists because it is the parent of the temp root, and the handler
    answers with a response for that path, which lies outside the temp
    root. *)
Theorem download_dotdot_escapes `{E : Engines} (w : world) :
  ∃ served,
    download_file ".." w = (w, Ok served)
    ∧ path served = "/tmp/processed_files/.."
    ∧ os_path.resolve (path served) = ["tmp"]
    ∧ within_temp_root (os_path.resolve (path served)) = false.
Proof.
  eexists. split; [|split; [|split]].
  - rewrite download_file_run. reflexivity.
  - reflexivity.
  - reflexivity.
  - reflexivity.
Qed.

(** ** What the operations produce *)

Section OutcomeFacts.

Context {E : Engines}.
Import os_path.

Lemma merge_scan_valid files docs :
  Forall2 (λ f ps, is_pdf_name f = true ∧ PdfReader_pages (file f) = Some ps)
          files docs →
  merge_scan files = Ok (concat docs).
Proof.
  induction 1 as [|f ps files docs [Hname Hread] _ IH]; [done|].
  simpl. by rewrite Hname, Hread, IH.
Qed.

Lemma images_scan_valid images ims :
  Forall2 (λ f im, is_image_name f = true ∧ Image_open_RGB (file f) = Some im)
          images ims →
  images_scan images = Ok ims.
Proof.
  induction 1 as [|f im images ims [Hname Hread] _ IH]; [done|].
  simpl. by rewrite Hname, Hread, IH.
Qed.

Lemma concat_length_sum {A} (docs : list (list A)) :
  length (concat docs) = sum_list (length <$> docs).
Proof.
  induction docs as [|d docs IH]; [done|].
  rewrite fmap_cons. cbn [concat sum_list sum_list_with].
  change (id (length d)) with (length d). by rewrite length_app, IH.
Qed.

(** Page [j] of document [i] sits in the concatenation after all pages of
    the documents before [i] and after the first [j] pages of its own. *)
Lemma concat_lookup {A} (docs : list (list A)) : ∀ i j d (pg : A),
  docs !! i = Some d → d !! j = Some pg →
  concat docs !! (sum_list (length <$> take i docs) + j) = Some pg.
Proof.
  induction docs as [|d0 docs IH]; intros i j d pg Hd Hpg; [done|].
  change (concat (d0 :: docs)) with (d0 ++ concat docs).
  destruct i as [|i].
  - injection Hd as ->. by apply lookup_app_l_Some.
  - specialize (IH i j d pg Hd Hpg).
    rewrite firstn_cons, fmap_cons. cbn [sum_list sum_list_with].
    change (id (length d0)) with (length d0).
    rewrite lookup_app_r by lia. rewrite <- IH. f_equal. lia.
Qed.

(** The stored artifact reads back through its path. *)
Lemma settled_artifact_read w w' evs id d :
  settled w w' evs (Some (id, d)) → read_file w' (join TEMP_DIR id) = Some d.
Proof.
  intros Hst. destruct (st_art _ _ _ _ Hst _ _ eq_refl) as (Hid & Hfile & _).
  by rewrite (read_file_entry _ _ (artifact_name_plain _ Hid)).
Qed.

Lemma split_status code f s e w :
  has_status code (snd (split_pdf f s e w)) = has_status code (split_outcome w f s e).
Proof.
  destruct (split_pdf_spec f s e w) as (evs & art & _ & Hres).
  destruct (split_outcome w f s e) as [qs|err].
  - by destruct Hres as (id & _ & -> & _).
  - by destruct Hres as [-> _].
Qed.

Lemma merge_status code files w :
  has_status code (snd (merge_pdfs files w)) = has_status code (merge_outcome w files).
Proof.
  destruct (merge_pdfs_spec files w) as (evs & art & _ & Hres).
  destruct (merge_outcome w files) as [qs|err].
  - by destruct Hres as (id & _ & -> & _).
  - by destruct Hres as [-> _].
Qed.

(** The scan of a merge ends in InvalidInput exactly at a file that is not
    named as a PDF and is reached, that is, preceded only by files that are
    and that the engine reads. *)
Lemma merge_scan_invalid files :
  has_status 400 (merge_scan files) = true ↔
  ∃ pre f post,
    files = pre ++ f :: post ∧ is_pdf_name f = false
    ∧ Forall (λ g, is_pdf_name g = true ∧ is_Some (PdfReader_pages (file g))) pre.
Proof.
  induction files as [|f rest IH]; simpl.
  - split; [done|]. intros (pre & g & post & Heq & _). by destruct pre.
  - destruct (is_pdf_name f) eqn:Hname; simpl.
    + destruct (PdfReader_pages (file f)) as [ps|] eqn:Hread.
      * assert (has_status 400
                  match merge_scan rest with
                  | Ok qs => Ok (ps ++ qs)
                  | Raise e => Raise e
                  end = has_status 400 (merge_scan rest)) as ->
          by (by destruct (merge_scan rest)).
        rewrite IH. split.
        -- intros (pre & g & post & -> & Hg & Hpre).
           exists (f :: pre), g, post. split; [done|]. split; [done|].
           constructor; [|done]. by rewrite Hread.
        -- intros (pre & g & post & Heq & Hg & Hpre).
           destruct pre as [|f' pre]; simpl in Heq.
           ++ injection Heq as -> ->. congruence.
           ++ injection Heq as -> ->. exists pre, g, post.
              split; [done|]. split; [done|]. by inversion Hpre.
      * split; [done|]. intros (pre & g & post & Heq & Hg & Hpre).
        destruct pre as [|f' pre]; simpl in Heq.
        -- injection Heq as -> ->. congruence.
        -- injection Heq as -> ->. inversion Hpre as [|? ? [_ [? Hsome]]]; subst.
           congruence.
    + split; [|done]. intros _. exists [], f, rest. by split.
Qed.

End OutcomeFacts.

(** C4. A merge of two or more files that are named as PDFs and that the
    engine reads returns an artifact holding the concatenation of the input
    documents: its page count is the sum of theirs, and page [j] of input
    [i] comes after every page of the inputs before [i] and after the pages
    before [j] of its own. *)
Theorem merge_concatenates `{E : Engines} (files : list UploadFile)
    (docs : list (list page)) (w : world) :
  PyPDF2 w = Imported →
  (2 ≤ length files)%nat →
  Forall2 (λ f ps, is_pdf_name f = true ∧ PdfReader_pages (file f) = Some ps)
          files docs →
  ∃ id,
    snd (merge_pdfs files w) = Ok (download_of id)
    ∧ read_file (fst (merge_pdfs files w)) (os_path.join TEMP_DIR id)
      = Some (PdfWriter_write (concat docs))
    ∧ length (concat docs) = sum_list (length <$> docs)
    ∧ ∀ i j d pg, docs !! i = Some d → d !! j = Some pg →
        concat docs !! (sum_list (length <$> take i docs) + j) = Some pg.
Proof.
  intros Himp Hlen Hvalid.
  destruct (merge_pdfs_spec files w) as (evs & art & Hst & Hres).
  unfold merge_outcome in Hres. rewrite Himp in Hres.
  assert ((length files <? 2)%nat = false) as Hlt by (apply Nat.ltb_ge; lia).
  rewrite Hlt, (merge_scan_valid _ _ Hvalid) in Hres.
  destruct Hres as (id & Hid & Hok & ->).
  exists id. split; [done|]. split; [by eapply settled_artifact_read|].
  split; [apply concat_length_sum|]. apply concat_lookup.
Qed.

(** Two documents of two pages and one page give a document of three. *)
Lemma merge_concatenates_witness :
  ∃ id,
    snd (merge_pdfs (E := toy_engines) two_pdfs fresh_world) = Ok (download_of id)
    ∧ read_file (fst (merge_pdfs (E := toy_engines) two_pdfs fresh_world))
        (os_path.join TEMP_DIR id)
      = Some [Byte.x25; Byte.x0a; Byte.x0b; Byte.x0c].
Proof.
  destruct (merge_concatenates (E := toy_engines) two_pdfs
              [[Byte.x0a; Byte.x0b]; [Byte.x0c]] fresh_world)
    as (id & Hok & Hread & _).
  - reflexivity.
  - cbn [length two_pdfs]. lia.
  - repeat constructor.
  - exists id. split; [exact Hok|exact Hread].
Defined.

(** C5. A split of a readable document of [N] pages with
    [1 ≤ start_page ≤ end_page ≤ N] returns an artifact of
    [end_page - start_page + 1] pages whose page [i] (1-indexed) is page
    [start_page + i - 1] of the input. *)
Theorem split_extracts_range `{E : Engines} (f : UploadFile)
    (pages : list page) (start_page end_page : Z) (w : world) :
  PyPDF2 w = Imported →
  is_pdf_name f = true →
  PdfReader_pages (file f) = Some pages →
  (1 ≤ start_page)%Z → (start_page ≤ end_page)%Z →
  (end_page ≤ Z.of_nat (length pages))%Z →
  ∃ id out,
    snd (split_pdf f start_page end_page w) = Ok (download_of id)
    ∧ read_file (fst (split_pdf f start_page end_page w)) (os_path.join TEMP_DIR id)
      = Some (PdfWriter_write out)
    ∧ Z.of_nat (length out) = (end_page - start_page + 1)%Z
    ∧ ∀ i : Z, (1 ≤ i ≤ end_page - start_page + 1)%Z →
        ∃ pg, out !! Z.to_nat (i - 1) = Some pg
              ∧ pages !! Z.to_nat (start_page + i - 1 - 1) = Some pg.
Proof.
  intros Himp Hname Hread Hs Hse He.
  destruct (split_pdf_spec f start_page end_page w) as (evs & art & Hst & Hres).
  unfold split_outcome in Hres. rewrite Himp, Hname, Hread in Hres. simpl in Hres.
  assert ((start_page <? 1)%Z || (end_page <? start_page)%Z
          || (Z.of_nat (length pages) <? end_page)%Z = false) as Hrange.
  { apply orb_false_iff. split; [apply orb_false_iff; split|]; apply Z.ltb_ge; lia. }
  rewrite Hrange in Hres. destruct Hres as (id & Hid & Hok & ->).
  exists id, (page_range pages start_page end_page).
  split; [done|]. split; [by eapply settled_artifact_read|].
  unfold page_range. split.
  - rewrite length_take, length_drop. lia.
  - intros i Hi.
    destruct (lookup_lt_is_Some_2 pages (Z.to_nat (start_page + i - 1 - 1)))
      as [pg Hpg]; [lia|].
    exists pg. split; [|done].
    rewrite lookup_take_lt by lia. rewrite lookup_drop.
    by replace (Z.to_nat (start_page - 1) + Z.to_nat (i - 1))
      with (Z.to_nat (start_page + i - 1 - 1)) by lia.
Qed.

(** Pages 2 to 4 of a document of five: three pages, the first of them
    page 2 of the input. *)
Lemma split_extracts_range_witness :
  ∃ id out,
    snd (split_pdf (E := toy_engines) five_pages 2 4 fresh_world) = Ok (download_of id)
    ∧ Z.of_nat (length out) = 3%Z
    ∧ out !! 0 = Some Byte.x02.
Proof.
  destruct (split_extracts_range (E := toy_engines) five_pages
              [Byte.x01; Byte.x02; Byte.x03; Byte.x04; Byte.x05] 2 4 fresh_world)
    as (id & out & Hok & Hread & Hlen & Hpages).
  - reflexivity.
  - reflexivity.
  - reflexivity.
  - lia.
  - lia.
  - cbn [length]. lia.
  - exists id, out. split; [exact Hok|]. split; [exact Hlen|].
    destruct (Hpages 1%Z) as (pg & Hout & Hin); [lia|].
    exact (eq_trans Hout (eq_sym Hin)).
Defined.

(** C6. An images-to-pdf request of one or more files with supported
    extensions that the engine decodes returns a PDF assembled from exactly
    the decoded images, one per input file and in input order. *)
Theorem images_one_page_each `{E : Engines} (images : list UploadFile)
    (ims : list image) (w : world) :
  PIL w = Imported →
  images ≠ [] →
  Forall2 (λ f im, is_image_name f = true ∧ Image_open_RGB (file f) = Some im)
          images ims →
  ∃ id first rest,
    snd (images_to_pdf images w) = Ok (download_of id)
    ∧ read_file (fst (images_to_pdf images w)) (os_path.join TEMP_DIR id)
      = Some (Image_save_PDF first rest)
    ∧ length (first :: rest) = length images
    ∧ ∀ k f, images !! k = Some f →
        ∃ im, (first :: rest) !! k = Some im ∧ Image_open_RGB (file f) = Some im.
Proof.
  intros Himp Hne Hvalid.
  destruct (images_to_pdf_spec images w) as (evs & art & Hst & Hres).
  unfold images_outcome in Hres. rewrite Himp in Hres.
  destruct images as [|img0 images0]; [done|].
  rewrite (images_scan_valid _ _ Hvalid) in Hres.
  destruct Hres as (id & first & rest & Hid & -> & Hok & ->).
  exists id, first, rest. split; [done|]. split; [by eapply settled_artifact_read|].
  split; [symmetry; by eapply Forall2_length|].
  intros k f Hk.
  destruct (Forall2_lookup_l _ _ _ _ _ Hvalid Hk) as (im & Him & _ & Hopen).
  by exists im.
Qed.

(** A PNG and a JPEG give a PDF of two pages. *)
Lemma images_one_page_each_witness :
  ∃ id (first : bytes) (rest : list bytes),
    snd (images_to_pdf (E := toy_engines) two_images fresh_world) = Ok (download_of id)
    ∧ length (first :: rest) = 2.
Proof.
  destruct (images_one_page_each (E := toy_engines) two_images
              [[Byte.x89]; [Byte.xff; Byte.xd8]] fresh_world)
    as (id & first & rest & Hok & Hread & Hlen & _).
  - reflexivity.
  - discriminate.
  - repeat constructor.
  - exists id, first, rest. split; [exact Hok|exact Hlen].
Defined.

(** ** When the handlers report InvalidInput *)

(** C3, as stated, fails in two ways.  With the PDF engine missing, a file
    named [notes.txt] gets the engine error, not InvalidInput.  With the
    engine present, a file named as a PDF that the engine cannot read gets
    the read error of the engine even for [start_page = 0]: the range is
    checked only after the document has been read. *)
Lemma split_invalid_input_not_exact :
  is_pdf_name (upload "notes.txt" []) = false
  ∧ is_InvalidInput
      (snd (split_pdf (E := toy_engines) (upload "notes.txt" []) 1 1 bare_world))
    = false
  ∧ (0 <? 1)%Z = true
  ∧ is_InvalidInput
      (snd (split_pdf (E := toy_engines) (upload "broken.pdf" []) 0 1 fresh_world))
    = false.
Proof. vm_compute. done. Qed.

(** C3, amended.  With the PDF engine available, the split handler raises
    InvalidInput exactly when the file is not named as a PDF, or the engine
    reads the document, of [N] pages, and [start_page < 1] or
    [end_page < start_page] or [end_page > N]; every such page-range
    rejection carries the message "Invalid page range. Document has N
    pages.", which contains [N]. *)
Theorem split_invalid_input `{E : Engines} (f : UploadFile)
    (start_page end_page : Z) (w : world) :
  PyPDF2 w = Imported →
  (is_InvalidInput (snd (split_pdf f start_page end_page w)) = true
   ↔ is_pdf_name f = false
     ∨ ∃ pages, PdfReader_pages (file f) = Some pages
                ∧ (start_page < 1 ∨ end_page < start_page
                   ∨ Z.of_nat (length pages) < end_page)%Z)
  ∧ (∀ pages,
       is_pdf_name f = true →
       PdfReader_pages (file f) = Some pages →
       (start_page < 1 ∨ end_page < start_page
        ∨ Z.of_nat (length pages) < end_page)%Z →
       snd (split_pdf f start_page end_page w)
         = Raise (HTTPException 400
                    ("Invalid page range. Document has "
                     +:+ Py.str_of_nat (length pages) +:+ " pages."))
       ∧ Py.contains ("Invalid page range. Document has "
                      +:+ Py.str_of_nat (length pages) +:+ " pages.")
                     (Py.str_of_nat (length pages))).
Proof.
  intros Himp.
  assert (∀ pages : list page, ((start_page <? 1)%Z || (end_page <? start_page)%Z
                    || (Z.of_nat (length pages) <? end_page)%Z = true)
                   ↔ (start_page < 1 ∨ end_page < start_page
                      ∨ Z.of_nat (length pages) < end_page)%Z) as Hrange.
  { intros pages. rewrite !orb_true_iff, !Z.ltb_lt. tauto. }
  split.
  - unfold is_InvalidInput. rewrite split_status. unfold split_outcome.
    rewrite Himp. destruct (is_pdf_name f) eqn:Hname; simpl.
    + destruct (PdfReader_pages (file f)) as [pages|] eqn:Hread.
      * specialize (Hrange pages).
        destruct ((start_page <? 1)%Z || (end_page <? start_page)%Z
                  || (Z.of_nat (length pages) <? end_page)%Z); simpl.
        -- split; [|done]. intros _. right. exists pages. split; [done|].
           by apply Hrange.
        -- split; [done|]. intros [?|(pages' & [= <-] & Hbad)]; [done|].
           by apply Hrange in Hbad.
      * split; [done|]. by intros [?|(pages' & ? & _)].
    + split; [|done]. by left.
  - intros pages Hname Hread Hbad.
    destruct (split_pdf_spec f start_page end_page w) as (evs & art & _ & Hres).
    unfold split_outcome in Hres. rewrite Himp, Hname, Hread in Hres. simpl in Hres.
    apply Hrange in Hbad. rewrite Hbad in Hres. destruct Hres as [-> _].
    split; [done|]. by exists "Invalid page range. Document has ", " pages.".
Qed.

(** A document of five pages split with [end_page = 6] is rejected with a
    message that says "5 pages". *)
Lemma split_invalid_input_witness :
  snd (split_pdf (E := toy_engines) five_pages 1 6 fresh_world)
  = Raise (HTTPException 400 "Invalid page range. Document has 5 pages.").
Proof.
  destruct (split_invalid_input (E := toy_engines) five_pages 1 6 fresh_world)
    as [_ Hmsg].
  - reflexivity.
  - destruct (Hmsg [Byte.x01; Byte.x02; Byte.x03; Byte.x04; Byte.x05])
      as [Heq _].
    + reflexivity.
    + reflexivity.
    + right. right. simpl. lia.
    + exact Heq.
Defined.

(** C7, as stated, fails in two ways.  With the PDF engine missing, a merge
    of a single file gets the engine error, not InvalidInput.  With the
    engine present, the files are checked and read one after the other, so a
    file that is not named as a PDF goes unreported when the engine fails to
    read a file before it. *)
Lemma merge_invalid_input_not_exact :
  (length [upload "notes.txt" []] <? 2)%nat = true
  ∧ is_InvalidInput
      (snd (merge_pdfs (E := toy_engines) [upload "notes.txt" []] bare_world))
    = false
  ∧ is_pdf_name (upload "notes.txt" []) = false
  ∧ is_InvalidInput
      (snd (merge_pdfs (E := toy_engines)
              [upload "broken.pdf" []; upload "notes.txt" []] fresh_world))
    = false.
Proof. vm_compute. done. Qed.

(** C7, amended.  With the PDF engine available, the merge handler raises
    InvalidInput exactly when fewer than two files are supplied, or some
    supplied file is not named as a PDF and every file before it is named as
    a PDF and read by the engine. *)
Theorem merge_invalid_input `{E : Engines} (files : list UploadFile) (w : world) :
  PyPDF2 w = Imported →
  is_InvalidInput (snd (merge_pdfs files w)) = true
  ↔ (length files < 2)%nat
    ∨ ∃ pre f post,
        files = pre ++ f :: post ∧ is_pdf_name f = false
        ∧ Forall (λ g, is_pdf_name g = true
                       ∧ is_Some (PdfReader_pages (file g))) pre.
Proof.
  intros Himp. unfold is_InvalidInput. rewrite merge_status. unfold merge_outcome.
  rewrite Himp. destruct (length files <? 2)%nat eqn:Hlen.
  - apply Nat.ltb_lt in Hlen. simpl. split; [|done]. by left.
  - apply Nat.ltb_ge in Hlen. rewrite merge_scan_invalid. split; [by right|].
    intros [?|?]; [lia|done].
Qed.

(** A text file after a readable PDF is reported. *)
Lemma merge_invalid_input_witness :
  is_InvalidInput
    (snd (merge_pdfs (E := toy_engines)
            [upload "a.pdf" [Byte.x25; Byte.x0a]; upload "notes.txt" []]
            fresh_world))
  = true.
Proof.
  apply (merge_invalid_input (E := toy_engines)
           [upload "a.pdf" [Byte.x25; Byte.x0a]; upload "notes.txt" []]
           fresh_world).
  - reflexivity.
  - right. exists [upload "a.pdf" [Byte.x25; Byte.x0a]], (upload "notes.txt" []), [].
    split; [reflexivity|]. split; [reflexivity|].
    constructor; [|constructor]. split; [reflexivity|]. by eexists.
Defined.

(** * Further properties of the code *)

(** ** Uploads, identifiers and downloads *)

(** X4. The identifier [_make_download] hands out never contains a separator,
    is left alone by the sanitisation of the download handler, and is the
    last segment of the download URL. *)
Theorem make_download_identifier (file_path label : string) :
  no_slash (file_id (_make_download file_path label)) = true
  ∧ os_path.basename (file_id (_make_download file_path label))
    = file_id (_make_download file_path label)
  ∧ os_path.basename (download_url (_make_download file_path label))
    = file_id (_make_download file_path label).
Proof.
  unfold _make_download. cbn [file_id download_url].
  pose proof (basename_no_slash file_path) as Hns.
  split; [done|]. split; [by apply basename_id|].
  change ("/api/download/" +:+ os_path.basename file_path)
    with ("/api/download" +:+ String os_path.sep (os_path.basename file_path)).
  by apply basename_app_sep.
Qed.

(** X5. The download handler looks at the basename of the identifier only: any
    directory part in front of it is ignored. *)
Theorem download_ignores_directories (id : string) (w : world) :
  download_file id w = download_file (os_path.basename id) w.
Proof.
  rewrite !download_file_run.
  by rewrite (basename_id _ (basename_no_slash id)).
Qed.

(** X6. For every identifier whose basename is not [..], what the download
    handler serves lies within the temp root; when the basename is an
    ordinary name, it is the entry of that name. *)
Theorem download_stays_in_temp_root (id : string) (w : world)
    (served : FileResponse) :
  os_path.basename id ≠ ".." →
  snd (download_file id w) = Ok served →
  within_temp_root (os_path.resolve (path served)) = true
  ∧ (plain_name (os_path.basename id) = true →
     os_path.resolve (path served) = entry (os_path.basename id)).
Proof.
  intros Hne Hok. split; [by eapply download_path_within|].
  intros Hplain. rewrite download_file_run in Hok.
  destruct (os_path_exists _ _); [|done]. cbn [snd] in Hok.
  injection Hok as <-. cbn [path]. by apply resolve_join_plain.
Qed.

(** The identifier [../secret] finds the file [secret] of the temp root. *)
Lemma download_stays_in_temp_root_witness :
  ∃ served,
    snd (download_file "../secret" secret_world) = Ok served
    ∧ os_path.resolve (path served) = entry "secret".
Proof.
  eexists. split; [vm_compute; reflexivity|].
  apply (download_stays_in_temp_root "../secret" secret_world).
  - discriminate.
  - vm_compute. reflexivity.
  - reflexivity.
Defined.

(** X7. Once the file of an identifier has been removed from the temp root, its
    download is NotFound. *)
Theorem removed_file_not_found (id : string) (w : world) :
  plain_name (os_path.basename id) = true →
  is_NotFound
    (snd (download_file id
            (fst (os_remove (os_path.join TEMP_DIR (os_path.basename id)) w))))
  = true.
Proof.
  intros Hplain. rewrite download_file_run, (exists_entry _ _ Hplain).
  rewrite os_remove_files, (resolve_join_plain _ Hplain).
  rewrite (bool_decide_eq_true_2 (entry (os_path.basename id)
                                  = entry (os_path.basename id))) by done.
  rewrite bool_decide_eq_false_2; [done|]. by intros [? ?].
Qed.

(** The file [secret] is there, then removed, then not found. *)
Lemma removed_file_not_found_witness :
  is_NotFound (snd (download_file "secret" secret_world)) = false
  ∧ is_NotFound
      (snd (download_file "secret"
              (fst (os_remove (os_path.join TEMP_DIR "secret") secret_world))))
    = true.
Proof.
  split; [vm_compute; reflexivity|].
  apply (removed_file_not_found "secret" secret_world). reflexivity.
Defined.

(** X9. Every file an operation handler writes, upload or artifact, is written
    at a direct entry of the temp root under an ordinary name, whatever the
    uploaded filenames are. *)
Theorem handlers_write_in_temp_root `{E : Engines} (req : request) (w : world) :
  ∃ evs,
    trace (fst (handle req w)) = trace w ++ evs
    ∧ ∀ o p d, Wrote o p d ∈ evs →
        ∃ n, plain_name n = true
             ∧ p = os_path.join TEMP_DIR n
             ∧ os_path.resolve p = entry n.
Proof.
  destruct (handle_spec req w) as (evs & art & Hst & _).
  exists evs. split; [apply (st_trace _ _ _ _ Hst)|].
  intros [] p d Hin.
  - destruct (st_upload_names _ _ _ _ Hst _ _ Hin) as (n & Hn & ->).
    exists n. split; [by apply upload_name_plain|]. split; [done|].
    by apply resolve_upload.
  - destruct (st_artifacts _ _ _ _ Hst _ _ Hin) as (id & Hart & ->).
    destruct (st_art _ _ _ _ Hst _ _ Hart) as (Hid & _).
    exists id. split; [by apply artifact_name_plain|]. split; [done|].
    by apply resolve_artifact.
Qed.

(** ** What an invocation leaves alone *)

Section KeepFacts.

Context {E : Engines}.
Import os_path.

Lemma save_upload_keeps f w l :
  no_upload_entry l → filename f ≠ "" →
  files (fst (_save_upload f w)) !! l = files w !! l.
Proof.
  intros Hl Hf. rewrite (save_upload_run _ _ Hf). cbn [fst files].
  destruct (upload_dest_name f w) as (n & Hn & ->).
  rewrite (resolve_upload _ Hn). apply lookup_insert_ne.
  intros <-. by apply (Hl n).
Qed.

Lemma merge_loop_keeps (ups : list UploadFile) l : ∀ fr,
  no_upload_entry l →
  files (m_world (fst (merge_loop ups fr))) !! l = files (m_world fr) !! l.
Proof.
  induction ups as [|f rest IH]; intros fr Hl; [done|].
  rewrite merge_loop_cons.
  destruct (is_pdf_name f) eqn:Hpdf; cbn [negb]; [|done].
  apply is_pdf_name_filename in Hpdf.
  destruct (PdfReader_pages (file f)) as [ps|].
  - rewrite IH by done. unfold m_after_save. frame_simpl.
    by apply save_upload_keeps.
  - unfold m_after_save. frame_simpl. by apply save_upload_keeps.
Qed.

Lemma images_loop_keeps images l : ∀ fr,
  no_upload_entry l →
  files (i_world (fst (images_loop images fr))) !! l = files (i_world fr) !! l.
Proof.
  induction images as [|f rest IH]; intros fr Hl; [done|].
  rewrite images_loop_cons.
  destruct (is_image_name f) eqn:Himg; cbn [negb]; [|done].
  apply is_image_name_filename in Himg.
  destruct (Image_open_RGB (file f)) as [im|].
  - rewrite IH by done. unfold i_after_save. frame_simpl.
    by apply save_upload_keeps.
  - unfold i_after_save. frame_simpl. by apply save_upload_keeps.
Qed.

(** Removing saved uploads leaves a no_upload_entry location alone. *)
Lemma cleanup_keeps w0 w evs saved art l :
  in_flight w0 w evs saved art → no_upload_entry l →
  files (fst (remove_all saved w)) !! l = files w !! l.
Proof.
  intros Hfl Hl. rewrite remove_all_files.
  rewrite bool_decide_eq_false_2; [done|].
  intros (p & -> & Hp)%list_elem_of_fmap.
  destruct (fl_saved _ _ _ _ _ Hfl _ Hp) as (n & Hn & ->).
  rewrite (resolve_upload _ Hn) in Hl. by apply (Hl n).
Qed.

(** Writing the artifact and removing the saved uploads leaves alone a
    location that is neither an upload entry nor that of the artifact. *)
Lemma finish_keeps w0 w evs saved id data l :
  artifact_name id = true →
  in_flight w0 w evs saved None → no_upload_entry l → l ≠ entry id →
  files (fst (remove_all saved
                (fst (open_wb Artifact (join TEMP_DIR id) data
                        (fst (uuid4_str w)))))) !! l
  = files w !! l.
Proof.
  intros Hid Hfl Hl Hne.
  apply in_flight_draw in Hfl.
  pose proof (in_flight_artifact _ _ _ _ id data Hid Hfl) as Hfl2.
  rewrite (cleanup_keeps _ _ _ _ _ _ Hfl2 Hl). cbn [open_wb fst files uuid4_str].
  rewrite (resolve_artifact _ Hid). by apply lookup_insert_ne.
Qed.

Lemma merge_pdfs_keeps (ups : list UploadFile) w l :
  no_upload_entry l →
  (∀ resp, snd (merge_pdfs ups w) = Ok resp → l ≠ entry (file_id resp)) →
  files (fst (merge_pdfs ups w)) !! l = files w !! l.
Proof.
  intros Hl. unfold merge_pdfs. rewrite bind_run. unfold import_PyPDF2.
  destruct (PyPDF2 w); [|done].
  destruct (length ups <? 2)%nat; [done|].
  unfold with_locals, try_finally. rewrite merge_body_run.
  set (fr0 := {| m_world := w; m_saved_paths := []; m_writer := [] |}).
  destruct (merge_loop_spec ups w fr0 [] (in_flight_start w)) as (evs & Hfl & _).
  pose proof (merge_loop_keeps ups l fr0 Hl) as Hkeep.
  destruct (merge_loop ups fr0) as [fr1 [[]|e]]; frame_simpl.
  - cbv zeta. rewrite merge_finally_run. frame_simpl. intros Hne.
    assert (artifact_name ("merged_" +:+ next_uuid (m_world fr1) +:+ ".pdf") = true)
      as Hid by (by apply artifact_name_intro).
    rewrite (finish_keeps _ _ _ _ _ _ _ Hid Hfl Hl); [done|].
    specialize (Hne _ eq_refl). by rewrite (make_download_artifact _ Hid) in Hne.
  - rewrite merge_finally_run. frame_simpl. intros _.
    by rewrite (cleanup_keeps _ _ _ _ _ _ Hfl Hl).
Qed.

Lemma split_pdf_keeps f s e w l :
  no_upload_entry l →
  (∀ resp, snd (split_pdf f s e w) = Ok resp → l ≠ entry (file_id resp)) →
  files (fst (split_pdf f s e w)) !! l = files w !! l.
Proof.
  intros Hl. unfold split_pdf. rewrite bind_run. unfold import_PyPDF2.
  destruct (PyPDF2 w); [|done].
  destruct (is_pdf_name f) eqn:Hpdf; cbn [negb]; [|done].
  apply is_pdf_name_filename in Hpdf.
  rewrite bind_run.
  pose proof (read_saved_upload f w Hpdf) as Hread.
  pose proof (in_flight_save _ _ _ _ f Hpdf (in_flight_start w)) as Hfl.
  pose proof (save_upload_keeps f w l Hl Hpdf) as Hkeep.
  cbn [app] in Hfl.
  rewrite (save_upload_run _ _ Hpdf) in *. cbn [fst] in Hread, Hfl, Hkeep.
  set (w1 := {| files := _ |}) in *.
  unfold try_finally. rewrite split_body_run, Hread.
  destruct (PdfReader_pages (file f)) as [pages|].
  - destruct ((s <? 1)%Z || (e <? s)%Z || (Z.of_nat (length pages) <? e)%Z) eqn:Hrange.
    + rewrite try_pass_remove, remove_all_run. cbn [fst snd]. intros _.
      by rewrite (cleanup_keeps _ _ _ _ _ _ Hfl Hl).
    + apply orb_false_iff in Hrange as [[H1 H2]%orb_false_iff H3].
      apply Z.ltb_ge in H1, H2, H3.
      rewrite split_loop_range by lia. cbv beta iota zeta.
      rewrite try_pass_remove, remove_all_run. cbn [fst snd]. intros Hne.
      assert (artifact_name ("split_" +:+ next_uuid w1 +:+ ".pdf") = true)
        as Hid by (by apply artifact_name_intro).
      rewrite (finish_keeps _ _ _ _ _ _ _ Hid Hfl Hl); [done|].
      specialize (Hne _ eq_refl). by rewrite (make_download_artifact _ Hid) in Hne.
  - rewrite try_pass_remove, remove_all_run. cbn [fst snd]. intros _.
    by rewrite (cleanup_keeps _ _ _ _ _ _ Hfl Hl).
Qed.

Lemma images_to_pdf_keeps images w l :
  no_upload_entry l →
  (∀ resp, snd (images_to_pdf images w) = Ok resp → l ≠ entry (file_id resp)) →
  files (fst (images_to_pdf images w)) !! l = files w !! l.
Proof.
  intros Hl. unfold images_to_pdf. rewrite bind_run. unfold import_PIL.
  destruct (PIL w); [|done].
  destruct images as [|img0 images0]; [done|].
  set (images := img0 :: images0).
  unfold with_locals, try_finally. rewrite images_body_run.
  set (fr0 := {| i_world := w; i_saved_paths := []; i_pil_images := [] |}).
  destruct (images_loop_spec images w fr0 [] (in_flight_start w)) as (evs & Hfl & _).
  pose proof (images_loop_keeps images l fr0 Hl) as Hkeep.
  destruct (images_loop images fr0) as [fr1 [[]|e]]; frame_simpl.
  - cbv zeta. destruct (i_pil_images fr1) as [|first rest].
    + rewrite images_finally_run. frame_simpl. intros _.
      apply in_flight_draw in Hfl.
      by rewrite (cleanup_keeps _ _ _ _ _ _ Hfl Hl).
    + rewrite images_finally_run. frame_simpl. intros Hne.
      assert (artifact_name ("images_" +:+ next_uuid (i_world fr1) +:+ ".pdf") = true)
        as Hid by (by apply artifact_name_intro).
      rewrite (finish_keeps _ _ _ _ _ _ _ Hid Hfl Hl); [done|].
      specialize (Hne _ eq_refl). by rewrite (make_download_artifact _ Hid) in Hne.
  - rewrite images_finally_run. frame_simpl. intros _.
    by rewrite (cleanup_keeps _ _ _ _ _ _ Hfl Hl).
Qed.

Lemma artifact_no_upload_entry id : artifact_name id = true → no_upload_entry (entry id).
Proof.
  intros Hid n Hn Heq. apply entry_inj in Heq.
  by apply (upload_artifact_ne n id).
Qed.

End KeepFacts.

(** X11. An artifact produced earlier is still downloadable, with the same
    bytes, after any later request that does not return the same
    identifier. *)
Theorem earlier_artifact_survives `{E : Engines} (req : request) (w : world)
    (id : string) (d : bytes) :
  artifact_name id = true →
  files w !! entry id = Some d →
  (∀ resp, snd (handle req w) = Ok resp → file_id resp ≠ id) →
  ∃ served,
    snd (download_file id (fst (handle req w))) = Ok served
    ∧ body (fst (handle req w)) served = Some d.
Proof.
  intros Hid Hd Hne.
  assert (files (fst (handle req w)) !! entry id = Some d) as Hd'.
  { rewrite <- Hd.
    assert (∀ resp, snd (handle req w) = Ok resp → entry id ≠ entry (file_id resp))
      as Hne' by (intros resp Hresp Heq; apply entry_inj in Heq;
                  by apply (Hne resp)).
    pose proof (artifact_no_upload_entry _ Hid) as Hl.
    destruct req as [ups|f s e|images]; cbn [handle] in *.
    - by apply merge_pdfs_keeps.
    - by apply split_pdf_keeps.
    - by apply images_to_pdf_keeps. }
  destruct (download_artifact _ _ _ Hid Hd') as [Hdl Hread].
  eexists. rewrite Hdl. split; [reflexivity|]. exact Hread.
Qed.

(** The artifact of a merge is still served after a later split. *)
Lemma earlier_artifact_survives_witness :
  ∃ served,
    snd (download_file "merged_00000000-0000-4000-a244-21e8fbd3022a.pdf"
           (fst (handle (E := toy_engines) (PostSplit five_pages 2 4)
                   (fst (handle (E := toy_engines) (PostMerge two_pdfs)
                           fresh_world)))))
    = Ok served.
Proof.
  destruct (earlier_artifact_survives (E := toy_engines) (PostSplit five_pages 2 4)
              (fst (handle (E := toy_engines) (PostMerge two_pdfs) fresh_world))
              "merged_00000000-0000-4000-a244-21e8fbd3022a.pdf"
              [Byte.x25; Byte.x0a; Byte.x0b; Byte.x0c])
    as (served & Hok & _).
  - vm_compute. reflexivity.
  - vm_compute. reflexivity.
  - intros resp Hresp Heq. vm_compute in Hresp. injection Hresp as <-.
    discriminate Heq.
  - exists served. exact Hok.
Defined.

(** ** Rejections and errors *)

Section RejectionFacts.

Context {E : Engines}.
Import os_path.

Lemma images_status code images w :
  has_status code (snd (images_to_pdf images w))
  = has_status code (images_outcome w images).
Proof.
  destruct (images_to_pdf_spec images w) as (evs & art & _ & Hres).
  destruct (images_outcome w images) as [ims|err].
  - by destruct Hres as (id & first & rest & _ & _ & -> & _).
  - by destruct Hres as [-> _].
Qed.

Lemma images_scan_invalid images :
  has_status 400 (images_scan images) = true ↔
  ∃ pre f post,
    images = pre ++ f :: post ∧ is_image_name f = false
    ∧ Forall (λ g, is_image_name g = true
                   ∧ is_Some (Image_open_RGB (file g))) pre.
Proof.
  induction images as [|f rest IH]; cbn [images_scan].
  - split; [done|]. intros (pre & g & post & Heq & _). by destruct pre.
  - destruct (is_image_name f) eqn:Hname; cbn [negb].
    + destruct (Image_open_RGB (file f)) as [im|] eqn:Hread.
      * assert (has_status 400
                  match images_scan rest with
                  | Ok ims => Ok (im :: ims)
                  | Raise e => Raise e
                  end = has_status 400 (images_scan rest)) as ->
          by (by destruct (images_scan rest)).
        rewrite IH. split.
        -- intros (pre & g & post & -> & Hg & Hpre).
           exists (f :: pre), g, post. split; [done|]. split; [done|].
           constructor; [|done]. by rewrite Hread.
        -- intros (pre & g & post & Heq & Hg & Hpre).
           destruct pre as [|f' pre]; cbn [app] in Heq.
           ++ injection Heq as -> ->. congruence.
           ++ injection Heq as -> ->. exists pre, g, post.
              split; [done|]. split; [done|]. by inversion Hpre.
      * split; [done|]. intros (pre & g & post & Heq & Hg & Hpre).
        destruct pre as [|f' pre]; cbn [app] in Heq.
        -- injection Heq as -> ->. congruence.
        -- injection Heq as -> ->. inversion Hpre as [|? ? [_ [? Hsome]]]; subst.
           congruence.
    + split; [|done]. intros _. exists [], f, rest. by split.
Qed.

(** The exceptions a scan can end with. *)
Lemma merge_scan_raises ups e :
  merge_scan ups = Raise e →
  (∃ f, f ∈ ups ∧ e = HTTPException 400 (filename f +:+ " is not a PDF"))
  ∨ e = OtherError "PdfReadError".
Proof.
  induction ups as [|f rest IH]; cbn [merge_scan]; [done|].
  destruct (is_pdf_name f); cbn [negb].
  - destruct (PdfReader_pages (file f)); [|intros [= <-]; by right].
    destruct (merge_scan rest) as [qs|e']; [done|]. intros [= <-].
    destruct (IH eq_refl) as [(g & Hg & ->) | ->]; [|by right].
    left. exists g. split; [by right|done].
  - intros [= <-]. left. exists f. split; [by left|done].
Qed.

Lemma images_scan_raises images e :
  images_scan images = Raise e →
  (∃ f, f ∈ images
        ∧ e = HTTPException 400 ("Unsupported image format: " +:+ filename f))
  ∨ e = OtherError "UnidentifiedImageError".
Proof.
  induction images as [|f rest IH]; cbn [images_scan]; [done|].
  destruct (is_image_name f); cbn [negb].
  - destruct (Image_open_RGB (file f)); [|intros [= <-]; by right].
    destruct (images_scan rest) as [ims|e']; [done|]. intros [= <-].
    destruct (IH eq_refl) as [(g & Hg & ->) | ->]; [|by right].
    left. exists g. split; [by right|done].
  - intros [= <-]. left. exists f. split; [by left|done].
Qed.

Lemma endswith_refl a : Py.endswith a a = true.
Proof.
  destruct a as [|c a]; [reflexivity|].
  cbn [Py.endswith]. by rewrite String.eqb_refl.
Qed.

Lemma endswith_app x a : Py.endswith (x +:+ a) a = true.
Proof.
  induction x as [|c x IH].
  - change ("" +:+ a) with a. apply endswith_refl.
  - change (String c x +:+ a) with (String c (x +:+ a)).
    cbn [Py.endswith]. by rewrite IH, orb_true_r.
Qed.

Lemma not_a_pdf_message name :
  name +:+ " is not a PDF" ≠ "File must have a filename".
Proof.
  intros Heq. pose proof (endswith_app name " is not a PDF") as Hend.
  rewrite Heq in Hend. discriminate Hend.
Qed.

End RejectionFacts.

(** X12. With the image engine available, images-to-pdf raises InvalidInput
    exactly when no image is supplied, or some supplied file has no
    supported extension and every file before it has one and is decoded by
    the engine. *)
Theorem images_invalid_input `{E : Engines} (images : list UploadFile) (w : world) :
  PIL w = Imported →
  is_InvalidInput (snd (images_to_pdf images w)) = true
  ↔ images = []
    ∨ ∃ pre f post,
        images = pre ++ f :: post ∧ is_image_name f = false
        ∧ Forall (λ g, is_image_name g = true
                       ∧ is_Some (Image_open_RGB (file g))) pre.
Proof.
  intros Himp. unfold is_InvalidInput. rewrite images_status.
  unfold images_outcome. rewrite Himp.
  destruct images as [|img0 rest].
  - split; [by left|done].
  - rewrite images_scan_invalid. split; [by right|].
    intros [?|?]; [done|done].
Qed.

(** A text file after a decodable PNG is reported. *)
Lemma images_invalid_input_witness :
  is_InvalidInput
    (snd (images_to_pdf (E := toy_engines)
            [upload "scan.png" [Byte.x89]; upload "notes.txt" []] fresh_world))
  = true.
Proof.
  apply (images_invalid_input (E := toy_engines)
           [upload "scan.png" [Byte.x89]; upload "notes.txt" []] fresh_world).
  - reflexivity.
  - right. exists [upload "scan.png" [Byte.x89]], (upload "notes.txt" []), [].
    split; [reflexivity|]. split; [reflexivity|].
    constructor; [|constructor]. split; [reflexivity|]. by eexists.
Defined.

(** X13. A request whose first check fails is rejected as InvalidInput before
    anything happens: no file is written or removed and no identifier is
    drawn, so the state is the one the request found. *)
Theorem early_rejection_changes_nothing `{E : Engines} (req : request) (w : world) :
  required_engine req w = Imported →
  rejected_at_once req = true →
  fst (handle req w) = w
  ∧ is_InvalidInput (snd (handle req w)) = true.
Proof.
  intros Himp Hrej. destruct req as [ups|f s e|images];
    cbn [handle required_engine rejected_at_once] in *.
  - unfold merge_pdfs. rewrite bind_run. unfold import_PyPDF2. rewrite Himp.
    destruct (length ups <? 2)%nat eqn:Hlen; [done|].
    cbn [orb] in Hrej. destruct ups as [|f rest]; [done|].
    unfold with_locals, try_finally. rewrite merge_body_run, merge_loop_cons.
    rewrite Hrej. rewrite merge_finally_run. frame_simpl. done.
  - unfold split_pdf. rewrite bind_run. unfold import_PyPDF2. rewrite Himp.
    by rewrite Hrej.
  - unfold images_to_pdf. rewrite bind_run. unfold import_PIL. rewrite Himp.
    destruct images as [|img rest]; [done|].
    unfold with_locals, try_finally. rewrite images_body_run, images_loop_cons.
    rewrite Hrej. rewrite images_finally_run. frame_simpl. done.
Qed.

(** A merge whose first file is a text file touches nothing. *)
Lemma early_rejection_changes_nothing_witness :
  fst (handle (E := toy_engines)
         (PostMerge [upload "notes.txt" []; upload "a.pdf" [Byte.x25]])
         fresh_world)
  = fresh_world.
Proof.
  apply (early_rejection_changes_nothing (E := toy_engines)
           (PostMerge [upload "notes.txt" []; upload "a.pdf" [Byte.x25]])
           fresh_world).
  - reflexivity.
  - reflexivity.
Defined.

(** ** Operations composed *)

Section ComposeFacts.

Context {E : Engines}.
Import os_path.

Lemma page_range_head (pages : list page) (k : Z) :
  (0 ≤ k)%Z → page_range pages 1 k = take (Z.to_nat k) pages.
Proof.
  intros Hk. unfold page_range.
  by replace (Z.to_nat (k - 1 + 1)) with (Z.to_nat k) by lia.
Qed.

Lemma page_range_tail (pages : list page) (k : Z) :
  (0 ≤ k)%Z →
  page_range pages (k + 1) (Z.of_nat (length pages)) = drop (Z.to_nat k) pages.
Proof.
  intros Hk. unfold page_range.
  replace (Z.to_nat (k + 1 - 1)) with (Z.to_nat k) by lia.
  apply take_ge. rewrite length_drop. lia.
Qed.

(** What a split that passes its checks stores. *)
Lemma split_pdf_valid f (pages : list page) s e w :
  PyPDF2 w = Imported → is_pdf_name f = true →
  PdfReader_pages (file f) = Some pages →
  (1 ≤ s)%Z → (s ≤ e)%Z → (e ≤ Z.of_nat (length pages))%Z →
  ∃ id, snd (split_pdf f s e w) = Ok (download_of id)
        ∧ read_file (fst (split_pdf f s e w)) (join TEMP_DIR id)
          = Some (PdfWriter_write (page_range pages s e)).
Proof.
  intros Himp Hname Hread Hs Hse He.
  destruct (split_pdf_spec f s e w) as (evs & art & Hst & Hres).
  unfold split_outcome in Hres. rewrite Himp, Hname, Hread in Hres.
  cbn [negb] in Hres.
  assert ((s <? 1)%Z || (e <? s)%Z || (Z.of_nat (length pages) <? e)%Z = false)
    as Hrange.
  { apply orb_false_iff. split; [apply orb_false_iff; split|]; apply Z.ltb_ge; lia. }
  rewrite Hrange in Hres. destruct Hres as (id & Hid & Hok & ->).
  exists id. split; [done|]. by eapply settled_artifact_read.
Qed.

(** What a merge of two readable PDFs stores. *)
Lemma merge_two_valid f1 f2 (ps1 ps2 : list page) w :
  PyPDF2 w = Imported →
  is_pdf_name f1 = true → PdfReader_pages (file f1) = Some ps1 →
  is_pdf_name f2 = true → PdfReader_pages (file f2) = Some ps2 →
  ∃ id, snd (merge_pdfs [f1; f2] w) = Ok (download_of id)
        ∧ read_file (fst (merge_pdfs [f1; f2] w)) (join TEMP_DIR id)
          = Some (PdfWriter_write (ps1 ++ ps2)).
Proof.
  intros Himp Hn1 Hr1 Hn2 Hr2.
  destruct (merge_pdfs_spec [f1; f2] w) as (evs & art & Hst & Hres).
  unfold merge_outcome in Hres. rewrite Himp in Hres.
  cbn [length Nat.ltb Nat.leb merge_scan] in Hres.
  rewrite Hn1, Hr1, Hn2, Hr2 in Hres. cbn [negb] in Hres.
  rewrite app_nil_r in Hres.
  destruct Hres as (id & Hid & Hok & ->).
  exists id. split; [done|]. by eapply settled_artifact_read.
Qed.

End ComposeFacts.

(** X15. With an engine that reads back what it writes: splitting a document
    into its pages [1 .. k] and [k+1 .. N] and merging the two artifacts, in
    that order, gives back the pages of the document. *)
Theorem split_then_merge_restores `{E : Engines} (f : UploadFile)
    (pages : list page) (k : Z) (w1 w2 w3 : world) :
  (∀ ps, PdfReader_pages (PdfWriter_write ps) = Some ps) →
  PyPDF2 w1 = Imported → PyPDF2 w2 = Imported → PyPDF2 w3 = Imported →
  is_pdf_name f = true →
  PdfReader_pages (file f) = Some pages →
  (1 ≤ k < Z.of_nat (length pages))%Z →
  ∃ id1 id2 id3 d1 d2,
    snd (split_pdf f 1 k w1) = Ok (download_of id1)
    ∧ read_file (fst (split_pdf f 1 k w1)) (os_path.join TEMP_DIR id1) = Some d1
    ∧ snd (split_pdf f (k + 1) (Z.of_nat (length pages)) w2) = Ok (download_of id2)
    ∧ read_file (fst (split_pdf f (k + 1) (Z.of_nat (length pages)) w2))
        (os_path.join TEMP_DIR id2) = Some d2
    ∧ snd (merge_pdfs [upload "part1.pdf" d1; upload "part2.pdf" d2] w3)
      = Ok (download_of id3)
    ∧ read_file
        (fst (merge_pdfs [upload "part1.pdf" d1; upload "part2.pdf" d2] w3))
        (os_path.join TEMP_DIR id3)
      = Some (PdfWriter_write pages).
Proof.
  intros Hrt H1 H2 H3 Hname Hread Hk.
  destruct (split_pdf_valid f pages 1 k w1 H1 Hname Hread) as (id1 & Hok1 & Hd1);
    [lia..|].
  destruct (split_pdf_valid f pages (k + 1) (Z.of_nat (length pages)) w2
              H2 Hname Hread) as (id2 & Hok2 & Hd2); [lia..|].
  destruct (merge_two_valid
              (upload "part1.pdf" (PdfWriter_write (page_range pages 1 k)))
              (upload "part2.pdf"
                 (PdfWriter_write
                    (page_range pages (k + 1) (Z.of_nat (length pages)))))
              _ _ w3 H3 eq_refl (Hrt _) eq_refl (Hrt _))
    as (id3 & Hok3 & Hd3).
  exists id1, id2, id3. do 2 eexists.
  split; [exact Hok1|]. split; [exact Hd1|].
  split; [exact Hok2|]. split; [exact Hd2|].
  split; [exact Hok3|]. rewrite Hd3.
  rewrite page_range_head, page_range_tail by lia.
  by rewrite take_drop.
Qed.

(** A document of five pages cut after page 2 and put together again. *)
Lemma split_then_merge_restores_witness :
  ∃ id3 d1 d2,
    read_file
      (fst (merge_pdfs (E := toy_engines)
              [upload "part1.pdf" d1; upload "part2.pdf" d2] fresh_world))
      (os_path.join TEMP_DIR id3)
    = Some [Byte.x25; Byte.x01; Byte.x02; Byte.x03; Byte.x04; Byte.x05].
Proof.
  destruct (split_then_merge_restores (E := toy_engines) five_pages
              [Byte.x01; Byte.x02; Byte.x03; Byte.x04; Byte.x05] 2
              fresh_world fresh_world fresh_world)
    as (id1 & id2 & id3 & d1 & d2 & _ & _ & _ & _ & _ & Hread).
  - intros ps. reflexivity.
  - reflexivity.
  - reflexivity.
  - reflexivity.
  - reflexivity.
  - reflexivity.
  - cbn [length]. lia.
  - exists id3, d1, d2. exact Hread.
Defined.

(** X16. With an engine that reads back what it writes: merging two documents
    and splitting the result at the length of the first gives back the
    pages of the first. *)
Theorem merge_then_split_restores `{E : Engines} (f1 f2 : UploadFile)
    (ps1 ps2 : list page) (w1 w2 : world) :
  (∀ ps, PdfReader_pages (PdfWriter_write ps) = Some ps) →
  PyPDF2 w1 = Imported → PyPDF2 w2 = Imported →
  is_pdf_name f1 = true → PdfReader_pages (file f1) = Some ps1 →
  is_pdf_name f2 = true → PdfReader_pages (file f2) = Some ps2 →
  ps1 ≠ [] →
  ∃ id1 id2 d,
    snd (merge_pdfs [f1; f2] w1) = Ok (download_of id1)
    ∧ read_file (fst (merge_pdfs [f1; f2] w1)) (os_path.join TEMP_DIR id1) = Some d
    ∧ snd (split_pdf (upload "merged.pdf" d) 1 (Z.of_nat (length ps1)) w2)
      = Ok (download_of id2)
    ∧ read_file
        (fst (split_pdf (upload "merged.pdf" d) 1 (Z.of_nat (length ps1)) w2))
        (os_path.join TEMP_DIR id2)
      = Some (PdfWriter_write ps1).
Proof.
  intros Hrt H1 H2 Hn1 Hr1 Hn2 Hr2 Hne.
  destruct (merge_two_valid f1 f2 ps1 ps2 w1 H1 Hn1 Hr1 Hn2 Hr2)
    as (id1 & Hok1 & Hd1).
  assert (0 < length ps1) by (destruct ps1; [done|cbn [length]; lia]).
  destruct (split_pdf_valid (upload "merged.pdf" (PdfWriter_write (ps1 ++ ps2)))
              (ps1 ++ ps2) 1 (Z.of_nat (length ps1)) w2 H2 eq_refl (Hrt _))
    as (id2 & Hok2 & Hd2); [lia|lia|rewrite length_app; lia|].
  exists id1, id2. eexists.
  split; [exact Hok1|]. split; [exact Hd1|]. split; [exact Hok2|].
  rewrite Hd2, page_range_head by lia.
  by rewrite Nat2Z.id, take_app_length.
Qed.

(** The first of two merged documents cut out again. *)
Lemma merge_then_split_restores_witness :
  ∃ id2 d,
    read_file
      (fst (split_pdf (E := toy_engines) (upload "merged.pdf" d) 1 2 fresh_world))
      (os_path.join TEMP_DIR id2)
    = Some [Byte.x25; Byte.x0a; Byte.x0b].
Proof.
  destruct (merge_then_split_restores (E := toy_engines)
              (upload "a.pdf" [Byte.x25; Byte.x0a; Byte.x0b])
              (upload "B.PDF" [Byte.x25; Byte.x0c])
              [Byte.x0a; Byte.x0b] [Byte.x0c] fresh_world fresh_world)
    as (id1 & id2 & d & _ & _ & _ & Hread).
  - intros ps. reflexivity.
  - reflexivity.
  - reflexivity.
  - reflexivity.
  - reflexivity.
  - reflexivity.
  - reflexivity.
  - discriminate.
  - exists id2, d. exact Hread.
Defined.

(** ** The extension an accepted upload is stored with *)

Section ExtensionFacts.

Import Py os_path.

Lemma endswith_inv s suffix :
  endswith s suffix = true → ∃ pre, s = pre +:+ suffix.
Proof.
  induction s as [|c s IH]; cbn [endswith].
  - rewrite orb_false_r. intros ->%String.eqb_eq. by exists "".
  - intros [->%String.eqb_eq|Hs]%orb_true_iff; [by exists ""|].
    destruct (IH Hs) as (pre & ->). by exists (String c pre).
Qed.

Lemma lower_app_inv a : ∀ s b,
  lower s = a +:+ b → ∃ a' b', s = a' +:+ b' ∧ lower a' = a ∧ lower b' = b.
Proof.
  induction a as [|c a IH]; intros s b Hs.
  - by exists "", s.
  - change (String c a +:+ b) with (String c (a +:+ b)) in Hs.
    destruct s as [|c' s]; [done|]. cbn [lower] in Hs.
    injection Hs as Hc Hs. destruct (IH _ _ Hs) as (a' & b' & -> & Ha & Hb).
    exists (String c' a'), b'. split; [done|]. split; [|done].
    cbn [lower]. by rewrite Hc, Ha.
Qed.

Lemma lower_char_fixed_inv x c :
  lower_char x = x → negb (Ascii.eqb (lower_char c) x) = true →
  negb (Ascii.eqb c x) = true.
Proof.
  intros Hx Hc. destruct (Ascii.eqb_spec c x) as [->|]; [|done].
  by rewrite Hx, Ascii.eqb_refl in Hc.
Qed.

Lemma without_lower_inv x s :
  lower_char x = x →
  str_all (λ c, negb (Ascii.eqb c x)) (lower s) = true →
  str_all (λ c, negb (Ascii.eqb c x)) s = true.
Proof.
  intros Hx. induction s as [|c s IH]; cbn [lower str_all]; [done|].
  intros [Hc Hs]%andb_true_iff.
  by rewrite (lower_char_fixed_inv _ _ Hx Hc), IH.
Qed.

Lemma lower_char_dot c : lower_char c = "."%char → c = "."%char.
Proof. by destruct c as [[] [] [] [] [] [] [] []]. Qed.

Lemma rfind_app_no_slash x y :
  no_slash y = true → rfind (x +:+ y) sep = rfind x sep.
Proof.
  intros Hy. induction x as [|c x IH].
  - by apply rfind_no_slash.
  - change (String c x +:+ y) with (String c (x +:+ y)).
    cbn [rfind]. by rewrite IH.
Qed.

Lemma basename_app_no_slash x y :
  no_slash y = true → basename (x +:+ y) = basename x +:+ y.
Proof.
  intros Hy. induction x as [|c x IH].
  - change ("" +:+ y) with y. by rewrite (basename_id _ Hy).
  - change (String c x +:+ y) with (String c (x +:+ y)).
    rewrite !basename_cons, rfind_app_no_slash by done.
    destruct (0 <=? rfind x sep)%Z; [done|].
    by destruct (Ascii.eqb c sep).
Qed.

Lemma split_without x s :
  str_all (λ c, negb (Ascii.eqb c x)) s = true → split x s = [s].
Proof.
  induction s as [|c s IH]; cbn [str_all split]; [done|].
  intros [Hc Hs]%andb_true_iff. apply negb_true_iff in Hc.
  by rewrite Hc, (IH Hs).
Qed.

(** If the lowercased name ends with a dot and a lowercase extension free of
    dots and separators, that extension is the one [_save_upload] keeps. *)
Lemma kept_extension name ext :
  str_all (λ c, negb (Ascii.eqb c ".")) ext = true → no_slash ext = true →
  endswith (lower name) (String "." ext) = true →
  lower (last_item (split "." (basename name))) = ext.
Proof.
  intros Hdot Hslash Hend.
  destruct (endswith_inv _ _ Hend) as (pre & Hpre).
  destruct (lower_app_inv _ _ _ Hpre) as (a & b & -> & _ & Hb).
  destruct b as [|c t]; [done|]. cbn [lower] in Hb. injection Hb as Hc Ht.
  apply lower_char_dot in Hc as ->.
  assert (str_all (λ c, negb (Ascii.eqb c ".")) t = true) as Htdot
    by (apply without_lower_inv; [done|by rewrite Ht]).
  assert (no_slash t = true) as Htslash
    by (apply (without_lower_inv sep); [done|by rewrite Ht]).
  rewrite basename_app_no_slash by (unfold no_slash in *; cbn [str_all];
                                    by rewrite Htslash).
  rewrite split_app_sep, (split_without _ _ Htdot).
  unfold last_item. by rewrite last_last.
Qed.

End ExtensionFacts.

(** X2. A file accepted as a PDF by its name, whatever its case and whatever
    directories or further dots the name has, is stored as
    [<uuid>.pdf]: the check of the handlers on the whole filename and the
    extension [_save_upload] derives from the basename agree. *)
Theorem accepted_pdf_stored_as_pdf (f : UploadFile) (w : world) :
  is_pdf_name f = true →
  snd (_save_upload f w)
  = Ok (os_path.join TEMP_DIR (next_uuid w +:+ ".pdf")).
Proof.
  intros Hname. pose proof (is_pdf_name_filename _ Hname) as Hf.
  rewrite (save_upload_run _ _ Hf). cbn [snd]. unfold upload_dest.
  by rewrite (kept_extension (filename f) "pdf" eq_refl eq_refl Hname).
Qed.

(** An upload named [Docs/Report.v2.PDF]. *)
Lemma accepted_pdf_stored_as_pdf_witness :
  snd (_save_upload (upload "Docs/Report.v2.PDF" []) fresh_world)
  = Ok "/tmp/processed_files/00000000-0000-4000-8000-000000000000.pdf".
Proof.
  etransitivity.
  - apply (accepted_pdf_stored_as_pdf (upload "Docs/Report.v2.PDF" []) fresh_world).
    reflexivity.
  - vm_compute. reflexivity.
Defined.

(** X3. A file accepted as an image by its name is stored under one of the five
    supported extensions, in lowercase. *)
Theorem accepted_image_stored_by_extension (f : UploadFile) (w : world) :
  is_image_name f = true →
  ∃ ext, ext ∈ image_exts
         ∧ snd (_save_upload f w)
           = Ok (os_path.join TEMP_DIR (next_uuid w +:+ ext)).
Proof.
  intros Hname. pose proof (is_image_name_filename _ Hname) as Hf.
  rewrite (save_upload_run _ _ Hf). cbn [snd]. unfold upload_dest.
  unfold is_image_name in Hname. apply existsb_exists in Hname as (ext & Hin & Hend).
  exists ext. split; [by apply list_elem_of_In|].
  cbn [image_exts In] in Hin.
  destruct Hin as [<-|[<-|[<-|[<-|[<-|[]]]]]].
  - by rewrite (kept_extension (filename f) "png" eq_refl eq_refl Hend).
  - by rewrite (kept_extension (filename f) "jpg" eq_refl eq_refl Hend).
  - by rewrite (kept_extension (filename f) "jpeg" eq_refl eq_refl Hend).
  - by rewrite (kept_extension (filename f) "webp" eq_refl eq_refl Hend).
  - by rewrite (kept_extension (filename f) "bmp" eq_refl eq_refl Hend).
Qed.

(** An upload named [photo.JPG]. *)
Lemma accepted_image_stored_by_extension_witness :
  ∃ ext, ext ∈ image_exts
         ∧ snd (_save_upload (upload "photo.JPG" [Byte.xff]) fresh_world)
           = Ok (os_path.join TEMP_DIR (next_uuid fresh_world +:+ ext)).
Proof.
  apply (accepted_image_stored_by_extension (upload "photo.JPG" [Byte.xff])
           fresh_world).
  reflexivity.
Defined.

(** ** Responses and runs *)

(** X17. The response of a successful operation is consistent: the suggested
    filename is the identifier, the identifier is an ordinary entry name,
    and the last segment of the download URL is the identifier, so that
    following the URL hands the download handler exactly that identifier. *)
Theorem response_leads_back `{E : Engines} (req : request) (w : world)
    (resp : JSONResponse) :
  snd (handle req w) = Ok resp →
  json_filename resp = file_id resp
  ∧ plain_name (file_id resp) = true
  ∧ download_url resp = "/api/download/" +:+ file_id resp
  ∧ os_path.basename (download_url resp) = file_id resp.
Proof.
  intros Hok. destruct (handle_spec req w) as (evs & art & _ & Hres).
  rewrite Hok in Hres. destruct Hres as (id & d & Hid & -> & _).
  cbn [download_of json_filename file_id download_url].
  pose proof (artifact_name_plain _ Hid) as Hplain.
  split; [done|]. split; [done|]. split; [done|].
  change ("/api/download/" +:+ id)
    with ("/api/download" +:+ String os_path.sep id).
  by apply basename_app_sep, plain_name_no_slash.
Qed.

(** The response of a merge of two documents. *)
Lemma response_leads_back_witness :
  os_path.basename
    (download_url (download_of "merged_00000000-0000-4000-a244-21e8fbd3022a.pdf"))
  = "merged_00000000-0000-4000-a244-21e8fbd3022a.pdf".
Proof.
  apply (response_leads_back (E := toy_engines) (PostMerge two_pdfs) fresh_world
           (download_of "merged_00000000-0000-4000-a244-21e8fbd3022a.pdf")).
  vm_compute. reflexivity.
Defined.

(** * The handlers on a disk that can fail *)

(** ** The store primitives *)

Ltac io_simpl :=
  cbn [fst snd files trace urandom draws PyPDF2 PIL open_wb] in *.

Section IOStoreFacts.

Context {D : Disk}.
Import os_path.

Lemma io_open_wb_cases o p data w :
  (IO.open_wb o p data w = (fst (open_wb o p data w), Ok tt)
   ∧ write_fault p = Sound)
  ∨ (∃ e, IO.open_wb o p data w = (w, Raise e) ∧ write_error e)
  ∨ (∃ n e, IO.open_wb o p data w
            = (fst (open_wb o p (take n data) w), Raise e)
            ∧ write_error e ∧ write_fault p ≠ Sound).
Proof.
  unfold IO.open_wb.
  destruct (has_nul p); [right; left; eexists; split; [done|by left]|].
  destruct (name_too_long p);
    [right; left; eexists; split; [done|by right; left]|].
  destruct (write_fault p) as [|err|n err] eqn:Hw.
  - by left.
  - right. left. eexists. split; [done|]. right. right. exists p, err.
    by rewrite Hw.
  - right. right. exists n. eexists. split; [done|]. split; [|done].
    right. right. exists p, err. by rewrite Hw.
Qed.

Lemma io_flight_start w0 : io_flight w0 w0 [] [].
Proof.
  split; [split|].
  - by rewrite app_nil_r.
  - intros p d H. by apply elem_of_nil in H.
  - intros p d H. by apply elem_of_nil in H.
  - auto.
  - intros p H. by apply elem_of_nil in H.
  - done.
  - intros p d H. by apply elem_of_nil in H.
Qed.

Lemma io_flight_draw w0 w evs saved :
  io_flight w0 w evs saved → io_flight w0 (fst (uuid4_str w)) evs saved.
Proof. intros [[Ht Hu Ha Hf Hs Hart] Hno]. by split. Qed.

(** Recording one more write of an upload, in full or broken off. *)
Lemma io_flight_write w0 w evs saved saved' p d :
  upload_path p →
  (saved' = saved ++ [p] ∧ write_fault p = Sound
   ∨ saved' = saved ∧ write_fault p ≠ Sound) →
  io_flight w0 w evs saved →
  io_flight w0 (fst (open_wb Upload p d w)) (evs ++ [Wrote Upload p d]) saved'.
Proof.
  intros Hp Hcase [[Ht Hu Ha Hf Hs Hart] Hno]. split; [split|]; io_simpl.
  - by rewrite Ht, app_assoc.
  - intros q dq [H|H]%elem_of_app.
    + destruct (Hu _ _ H) as [Hq [Hin|?]]; (split; [done|]); [left|by right].
      destruct Hcase as [[-> _]|[-> _]]; [|done]. apply elem_of_app. by left.
    + apply list_elem_of_singleton in H. injection H as -> ->.
      split; [done|]. destruct Hcase as [[-> _]|[_ ?]]; [left|by right].
      apply elem_of_app. right. by apply list_elem_of_singleton.
  - intros q dq [H|H]%elem_of_app; [by apply Hno in H|].
    by apply list_elem_of_singleton in H.
  - intros l Hl. destruct (decide (l = resolve p)) as [->|Hne].
    + right. exists Upload, p, d. split; [|done].
      apply elem_of_app. right. by apply list_elem_of_singleton.
    + rewrite lookup_insert_ne in Hl by done.
      destruct (Hf _ Hl) as [?|(o & q & dq & Hq & ->)]; [by left|].
      right. exists o, q, dq. split; [|done]. apply elem_of_app. by left.
  - intros q Hq. destruct Hcase as [[-> Hsound]|[-> _]]; [|by apply Hs].
    apply elem_of_app in Hq as [Hq|Hq]; [by apply Hs|].
    by apply list_elem_of_singleton in Hq as ->.
  - done.
  - intros q dq [H|H]%elem_of_app; [by apply Hno in H|].
    by apply list_elem_of_singleton in H.
Qed.

(** No output was attempted. *)
Lemma io_landed_none w0 w evs saved :
  io_flight w0 w evs saved → io_landed w0 w evs saved None.
Proof. by intros [? _]. Qed.

(** The output was written, in full or broken off. *)
Lemma io_landed_artifact w0 w evs saved id d art :
  artifact_name id = true →
  (art = Some (id, d) ∨ art = None ∧ write_fault (join TEMP_DIR id) ≠ Sound) →
  io_flight w0 w evs saved →
  io_landed w0 (fst (open_wb Artifact (join TEMP_DIR id) d w))
            (evs ++ [Wrote Artifact (join TEMP_DIR id) d]) saved art.
Proof.
  intros Hid Hcase [[Ht Hu Ha Hf Hs Hart] Hno]. split; io_simpl.
  - by rewrite Ht, app_assoc.
  - intros q dq [H|H]%elem_of_app; [by apply Hu in H|].
    by apply list_elem_of_singleton in H.
  - intros q dq [H|H]%elem_of_app; [by apply Hno in H|].
    apply list_elem_of_singleton in H. injection H as -> ->.
    exists id. split; [done|]. split; [done|].
    destruct Hcase as [?|[? ?]]; [by left|by right].
  - intros l Hl. rewrite (resolve_artifact _ Hid) in *.
    destruct (decide (l = entry id)) as [->|Hne].
    + right. exists Artifact, (join TEMP_DIR id), d. split.
      * apply elem_of_app. right. by apply list_elem_of_singleton.
      * by rewrite (resolve_artifact _ Hid).
    + rewrite lookup_insert_ne in Hl by done.
      destruct (Hf _ Hl) as [?|(o & q & dq & Hq & ->)]; [by left|].
      right. exists o, q, dq. split; [|done]. apply elem_of_app. by left.
  - done.
  - intros id' d' Heq. destruct Hcase as [Hsome|[Hnone _]]; [|congruence].
    rewrite Hsome in Heq. injection Heq as <- <-. split; [done|]. split.
    + by rewrite (resolve_artifact _ Hid), lookup_insert_eq.
    + apply elem_of_app. right. by apply list_elem_of_singleton.
Qed.

(** *** Cleanup *)

Lemma io_os_remove_files p w l :
  files (fst (IO.os_remove p w)) !! l =
    if bool_decide (l = resolve p ∧ remove_fault p = false) then None
    else files w !! l.
Proof.
  unfold IO.os_remove. destruct (remove_fault p) eqn:Hr.
  - rewrite bool_decide_eq_false_2; [done|]. by intros [_ ?].
  - rewrite os_remove_files. repeat case_bool_decide; naive_solver.
Qed.

Lemma io_remove_all_ok ps w : snd (IO.remove_all ps w) = Ok tt.
Proof.
  revert w. induction ps as [|p ps IH]; intros w; [done|].
  cbn [IO.remove_all]. rewrite bind_run. unfold try_pass. apply IH.
Qed.

Lemma io_remove_all_run ps w :
  IO.remove_all ps w = (fst (IO.remove_all ps w), Ok tt).
Proof.
  pose proof (io_remove_all_ok ps w) as H.
  destruct (IO.remove_all ps w) as [w' r]. cbn [fst snd] in *. by subst.
Qed.

(** A location none of the paths resolves to keeps its file. *)
Lemma io_remove_all_other ps w l :
  l ∉ resolve <$> ps →
  files (fst (IO.remove_all ps w)) !! l = files w !! l.
Proof.
  revert w. induction ps as [|p ps IH]; intros w Hl; [done|].
  cbn [IO.remove_all]. rewrite bind_run. unfold try_pass.
  rewrite fmap_cons in Hl. apply not_elem_of_cons in Hl as [Hne Hl].
  rewrite IH by done. rewrite io_os_remove_files.
  rewrite bool_decide_eq_false_2; [done|]. by intros [? _].
Qed.

(** Cleanup writes nothing: a location without a file stays without. *)
Lemma io_remove_all_none ps w l :
  files w !! l = None → files (fst (IO.remove_all ps w)) !! l = None.
Proof.
  revert w. induction ps as [|p ps IH]; intros w Hl; [done|].
  cbn [IO.remove_all]. rewrite bind_run. unfold try_pass.
  apply IH. rewrite io_os_remove_files. by case_bool_decide.
Qed.

(** A listed path whose removal is not refused is gone. *)
Lemma io_remove_all_gone ps w p :
  p ∈ ps → remove_fault p = false →
  files (fst (IO.remove_all ps w)) !! resolve p = None.
Proof.
  revert w. induction ps as [|q ps IH]; intros w Hin Hr.
  - by apply elem_of_nil in Hin.
  - cbn [IO.remove_all]. rewrite bind_run. unfold try_pass.
    apply elem_of_cons in Hin as [->|Hin]; [|by apply IH].
    apply io_remove_all_none. rewrite io_os_remove_files.
    by rewrite bool_decide_eq_true_2.
Qed.

Lemma io_os_remove_trace p w :
  trace (fst (IO.os_remove p w)) = trace w
  ∨ trace (fst (IO.os_remove p w)) = trace w ++ [Removed p].
Proof.
  unfold IO.os_remove. destruct (remove_fault p); [by left|].
  unfold os_remove. destruct (files w !! resolve p); [by right|by left].
Qed.

Lemma io_remove_all_trace ps w :
  ∃ rs, trace (fst (IO.remove_all ps w)) = (trace w ++ rs)%list
        ∧ ∀ o p d, Wrote o p d ∉ rs.
Proof.
  revert w. induction ps as [|p ps IH]; intros w.
  - exists []. split; [by rewrite app_nil_r|].
    intros o q d H. by apply elem_of_nil in H.
  - cbn [IO.remove_all]. rewrite bind_run. unfold try_pass.
    destruct (IH (fst (IO.os_remove p w))) as (rs & Hrs & Hno).
    destruct (io_os_remove_trace p w) as [Heq|Heq]; rewrite Heq in Hrs.
    + by exists rs.
    + exists (Removed p :: rs). split; [by rewrite Hrs, <- app_assoc|].
      intros o q d [H|H]%elem_of_cons; [done|]. by apply Hno in H.
Qed.

(** Whatever the body of a handler did, the cleanup settles the store. *)
Lemma io_cleanup_settles w0 w evs saved art :
  io_landed w0 w evs saved art →
  ∃ evs', io_settled w0 (fst (IO.remove_all saved w)) evs' art.
Proof.
  intros [Ht Hu Ha Hf Hs Hart].
  destruct (io_remove_all_trace saved w) as (rs & Hrs & Hno).
  assert (∀ p, upload_path p → ∀ id, artifact_name id = true →
               resolve p ≠ entry id) as Hdiff.
  { intros p (n & Hn & ->) id Hid. rewrite (resolve_upload _ Hn).
    intros Heq%entry_inj. by apply (upload_artifact_ne n id). }
  exists (evs ++ rs)%list. split.
  - by rewrite Hrs, Ht, app_assoc.
  - intros p d [H|H]%elem_of_app; [|by apply Hno in H].
    destruct (Hu _ _ H) as [Hp Hcase]. split; [done|].
    intros Hsound Hrem. destruct Hcase as [Hin|?]; [|done].
    by apply io_remove_all_gone.
  - intros p d [H|H]%elem_of_app; [|by apply Hno in H]. by apply Ha.
  - intros l Hl.
    assert (is_Some (files w !! l)) as Hl'.
    { destruct (files w !! l) eqn:Hw; [done|].
      rewrite (io_remove_all_none _ _ _ Hw) in Hl. by destruct Hl. }
    destruct (Hf _ Hl') as [?|(o & p & d & Hin & ->)]; [by left|].
    right. destruct o.
    + right. exists p, d. split; [apply elem_of_app; by left|]. split; [done|].
      destruct (Hu _ _ Hin) as [Hp [Hsaved|?]]; [|by left].
      destruct (remove_fault p) eqn:Hr; [by right|].
      rewrite (io_remove_all_gone _ _ _ Hsaved Hr) in Hl. by destruct Hl.
    + left. exists p, d. split; [apply elem_of_app; by left|done].
  - intros id d Heq. destruct (Hart _ _ Heq) as (Hid & Hfile & Hev).
    split; [done|]. split; [|apply elem_of_app; by left].
    rewrite io_remove_all_other; [done|].
    intros (p & Hp & Hin)%list_elem_of_fmap.
    destruct (Hs _ Hin) as [Hup _]. by apply (Hdiff p Hup id Hid).
Qed.

End IOStoreFacts.

(** ** The handlers *)

Section IOHandlerFacts.

Context {E : Engines} {D : Disk}.
Import os_path.

Lemma io_save_upload_run f w :
  filename f ≠ "" →
  IO._save_upload f w =
    match IO.open_wb Upload (upload_dest f w) (file f) (fst (uuid4_str w)) with
    | (w', Ok _) => (w', Ok (upload_dest f w))
    | (w', Raise e) => (w', Raise e)
    end.
Proof.
  intros Hf. unfold IO._save_upload.
  destruct (String.eqb_spec (filename f) ""); [done|]. reflexivity.
Qed.

Lemma io_flight_save w0 w evs saved f :
  filename f ≠ "" →
  io_flight w0 w evs saved →
  ∃ evs',
    match snd (IO._save_upload f w) with
    | Ok p => io_flight w0 (fst (IO._save_upload f w)) evs' (saved ++ [p])
              ∧ read_file (fst (IO._save_upload f w)) p = Some (file f)
    | Raise e => io_flight w0 (fst (IO._save_upload f w)) evs' saved
                 ∧ write_error e
    end.
Proof.
  intros Hf Hfl. rewrite (io_save_upload_run _ _ Hf).
  destruct (upload_dest_name f w) as (n & Hn & Heq).
  assert (upload_path (upload_dest f w)) as Hup by (by exists n).
  apply io_flight_draw in Hfl.
  destruct (io_open_wb_cases Upload (upload_dest f w) (file f) (fst (uuid4_str w)))
    as [[-> Hs]|[(e & -> & He)|(k & e & -> & He & Hb)]]; cbn [fst snd].
  - eexists. split.
    + eapply io_flight_write; [done| |done]. by left.
    + rewrite Heq, (read_file_entry _ _ (upload_name_plain _ Hn)).
      cbn [open_wb fst files].
      by rewrite (resolve_upload _ Hn), lookup_insert_eq.
  - by exists evs.
  - eexists. split; [|done]. eapply io_flight_write; [done| |done]. by right.
Qed.

(** *** merge *)

Lemma io_merge_loop_cons f rest fr :
  IO.merge_loop (f :: rest) fr =
    if negb (is_pdf_name f) then
      (fr, Raise (HTTPException 400 (filename f +:+ " is not a PDF")))
    else
      match IO._save_upload f (m_world fr) with
      | (w1, Ok p) =>
          let fr1 writer := {| m_world := w1;
                               m_saved_paths := m_saved_paths fr ++ [p];
                               m_writer := writer |} in
          match read_file w1 p with
          | None => (fr1 (m_writer fr), Raise (OtherError "FileNotFoundError"))
          | Some data =>
              match PdfReader_pages data with
              | None => (fr1 (m_writer fr), Raise (OtherError "PdfReadError"))
              | Some ps => IO.merge_loop rest (fr1 (m_writer fr ++ ps))
              end
          end
      | (w1, Raise e) =>
          ({| m_world := w1; m_saved_paths := m_saved_paths fr;
              m_writer := m_writer fr |}, Raise e)
      end.
Proof.
  cbn [IO.merge_loop]. rewrite bind_run.
  destruct (is_pdf_name f); cbn [negb]; [|done].
  rewrite ret_run, bind_run. unfold m_io at 1.
  destruct (IO._save_upload f (m_world fr)) as [w1 [p|e]]; [|done].
  rewrite bind_run. unfold m_append_saved, modify.
  rewrite bind_run. unfold m_io at 1. frame_simpl. unfold PdfReader.
  destruct (read_file w1 p) as [data|]; [|done].
  destruct (PdfReader_pages data) as [ps|]; frame_simpl; [|done].
  rewrite bind_run. unfold m_add_pages, modify. frame_simpl.
  by rewrite fold_add_page.
Qed.

Lemma io_merge_loop_spec files : ∀ w0 fr evs,
  io_flight w0 (m_world fr) evs (m_saved_paths fr) →
  ∃ evs',
    io_flight w0 (m_world (fst (IO.merge_loop files fr))) evs'
              (m_saved_paths (fst (IO.merge_loop files fr)))
    ∧ ∀ e, snd (IO.merge_loop files fr) = Raise e → handler_error e.
Proof.
  induction files as [|f rest IH]; intros w0 fr evs Hfl.
  - exists evs. split; [done|]. intros e He. discriminate He.
  - rewrite io_merge_loop_cons.
    destruct (is_pdf_name f) eqn:Hpdf; cbn [negb].
    + destruct (io_flight_save _ _ _ _ f (is_pdf_name_filename _ Hpdf) Hfl)
        as (evs1 & H1).
      destruct (IO._save_upload f (m_world fr)) as [w1 [p|e1]]; cbn [fst snd] in H1.
      * destruct H1 as [Hfl1 Hread]. rewrite Hread. cbv zeta.
        destruct (PdfReader_pages (file f)) as [ps|].
        -- by apply (IH w0 _ evs1).
        -- exists evs1. split; [done|]. intros e [= <-]. right. by left.
      * exists evs1. frame_simpl. split; [apply H1|].
        intros e [= <-]. right. right. right. apply H1.
    + exists evs. split; [done|]. intros e [= <-]. left. eexists.
      split; [done|]. apply not_a_pdf_message.
Qed.

Lemma io_settled_refl w : io_settled w w [] None.
Proof.
  split; [by rewrite app_nil_r| | |by left|done];
    intros ? ? H; by apply elem_of_nil in H.
Qed.

(** A request turned down before anything was written. *)
Lemma io_rejected req w detail :
  required_engine req w = Imported →
  detail ≠ "File must have a filename" →
  ∃ evs art,
    io_settled w w evs art
    ∧ io_outcome req w (Raise (HTTPException 400 detail)) art.
Proof.
  intros Himp Hd. exists [], None. split; [apply io_settled_refl|].
  split; [done|]. right. split; [done|]. left. by exists detail.
Qed.

(** The body raised before it came to write its output. *)
Lemma io_abort_settles req w0 w evs saved e :
  required_engine req w0 = Imported →
  io_flight w0 w evs saved → handler_error e →
  ∃ evs' art,
    io_settled w0 (fst (IO.remove_all saved w)) evs' art
    ∧ io_outcome req w0 (Raise e) art.
Proof.
  intros Himp Hfl He.
  destruct (io_cleanup_settles _ _ _ _ None (io_landed_none _ _ _ _ Hfl))
    as (evs' & Hst).
  exists evs', None. split; [done|]. split; [done|]. by right.
Qed.

(** Write the output, then remove the saved uploads. *)
Lemma io_finish_settles req w0 w evs saved pre data :
  required_engine req w0 = Imported →
  no_slash pre = true →
  head_is (λ c, negb (uuid.uuid_char c) && negb (Ascii.eqb c ".")) pre = true →
  io_flight w0 w evs saved →
  ∃ evs' art,
    io_settled w0
      (fst (IO.remove_all saved
              (fst (IO.open_wb Artifact
                      (join TEMP_DIR (pre +:+ next_uuid w +:+ ".pdf")) data
                      (fst (uuid4_str w))))))
      evs' art
    ∧ io_outcome req w0
        match snd (IO.open_wb Artifact
                     (join TEMP_DIR (pre +:+ next_uuid w +:+ ".pdf")) data
                     (fst (uuid4_str w))) with
        | Ok _ => Ok (_make_download
                        (join TEMP_DIR (pre +:+ next_uuid w +:+ ".pdf"))
                        (pre +:+ next_uuid w +:+ ".pdf"))
        | Raise e => Raise e
        end art.
Proof.
  intros Himp Hpre Hhead Hfl.
  assert (artifact_name (pre +:+ next_uuid w +:+ ".pdf") = true) as Hid
    by (by apply artifact_name_intro).
  set (id := pre +:+ next_uuid w +:+ ".pdf") in *.
  pose proof (io_flight_draw _ _ _ _ Hfl) as Hfl1.
  destruct (io_open_wb_cases Artifact (join TEMP_DIR id) data (fst (uuid4_str w)))
    as [[-> Hs]|[(e & -> & He)|(k & e & -> & He & Hb)]]; cbn [fst snd].
  - destruct (io_cleanup_settles _ _ _ _ (Some (id, data))
                (io_landed_artifact _ _ _ _ _ _ _ Hid (or_introl eq_refl) Hfl1))
      as (evs' & Hst).
    exists evs', (Some (id, data)). split; [done|].
    exists id, data. split; [done|]. split; [|done].
    by apply make_download_artifact.
  - destruct (io_cleanup_settles _ _ _ _ None (io_landed_none _ _ _ _ Hfl1))
      as (evs' & Hst).
    exists evs', None. split; [done|]. split; [done|]. right. split; [done|].
    right. right. by right.
  - destruct (io_cleanup_settles _ _ _ _ None
                (io_landed_artifact _ _ _ _ _ (take k data) _ Hid
                   (or_intror (conj eq_refl Hb)) Hfl1))
      as (evs' & Hst).
    exists evs', None. split; [done|]. split; [done|]. right. split; [done|].
    right. right. by right.
Qed.

Lemma io_merge_body_run files fr0 :
  IO.merge_body files fr0 =
    match IO.merge_loop files fr0 with
    | (fr1, Ok _) =>
        let id := "merged_" +:+ next_uuid (m_world fr1) +:+ ".pdf" in
        let r := IO.open_wb Artifact (join TEMP_DIR id)
                   (PdfWriter_write (m_writer fr1))
                   (fst (uuid4_str (m_world fr1))) in
        ({| m_world := fst r; m_saved_paths := m_saved_paths fr1;
            m_writer := m_writer fr1 |},
         match snd r with
         | Ok _ => Ok (_make_download (join TEMP_DIR id) id)
         | Raise e => Raise e
         end)
    | (fr1, Raise e) => (fr1, Raise e)
    end.
Proof.
  unfold IO.merge_body. rewrite bind_run.
  destruct (IO.merge_loop files fr0) as [fr1 [[]|e]]; [|done].
  rewrite bind_run. unfold m_io at 1. rewrite uuid4_str_run.
  rewrite bind_run. unfold get_state at 1. frame_simpl.
  rewrite bind_run. unfold m_io. frame_simpl. cbv zeta.
  by destruct (IO.open_wb _ _ _ _) as [w2 [[]|e]].
Qed.

Lemma io_merge_finally_run fr :
  IO.merge_finally fr =
    ({| m_world := fst (IO.remove_all (m_saved_paths fr) (m_world fr));
        m_saved_paths := m_saved_paths fr;
        m_writer := m_writer fr |}, Ok tt).
Proof.
  unfold IO.merge_finally. rewrite bind_run. unfold get_state, m_io.
  by rewrite io_remove_all_run.
Qed.

Lemma io_merge_pdfs_spec files w :
  ∃ evs art,
    io_settled w (fst (IO.merge_pdfs files w)) evs art
    ∧ io_outcome (PostMerge files) w (snd (IO.merge_pdfs files w)) art.
Proof.
  unfold IO.merge_pdfs. rewrite bind_run. unfold import_PyPDF2.
  destruct (PyPDF2 w) as [|ie] eqn:Himp.
  - destruct (length files <? 2)%nat; [by apply io_rejected|].
    unfold with_locals, try_finally. rewrite io_merge_body_run.
    set (fr0 := {| m_world := w; m_saved_paths := []; m_writer := [] |}).
    destruct (io_merge_loop_spec files w fr0 [] (io_flight_start w))
      as (evs & Hfl & Herr).
    destruct (IO.merge_loop files fr0) as [fr1 [[]|e1]]; frame_simpl.
    + cbv zeta. rewrite io_merge_finally_run. frame_simpl.
      by apply (io_finish_settles (PostMerge files) w (m_world fr1) evs
                  (m_saved_paths fr1) "merged_").
    + rewrite io_merge_finally_run. frame_simpl.
      apply (io_abort_settles (PostMerge files) w (m_world fr1) evs); [done..|].
      by apply Herr.
  - exists [], None. split; [apply io_settled_refl|]. split; [done|].
    left. exists ie. by split.
Qed.

(** *** split *)

Lemma io_try_pass_remove p w :
  try_pass (IO.os_remove p) w = IO.remove_all [p] w.
Proof. reflexivity. Qed.

Lemma io_split_body_run p s e w :
  IO.split_body p s e w =
    match read_file w p with
    | None => (w, Raise (OtherError "FileNotFoundError"))
    | Some data =>
        match PdfReader_pages data with
        | None => (w, Raise (OtherError "PdfReadError"))
        | Some pages =>
            if (s <? 1)%Z || (e <? s)%Z || (Z.of_nat (length pages) <? e)%Z then
              (w, Raise (HTTPException 400
                           ("Invalid page range. Document has "
                            +:+ Py.str_of_nat (length pages) +:+ " pages.")))
            else
              match split_loop pages (py_range (s - 1) e) [] w with
              | (w2, Ok writer) =>
                  let id := "split_" +:+ next_uuid w2 +:+ ".pdf" in
                  let r := IO.open_wb Artifact (join TEMP_DIR id)
                             (PdfWriter_write writer) (fst (uuid4_str w2)) in
                  (fst r,
                   match snd r with
                   | Ok _ => Ok (_make_download (join TEMP_DIR id) id)
                   | Raise err => Raise err
                   end)
              | (w2, Raise err) => (w2, Raise err)
              end
        end
    end.
Proof.
  unfold IO.split_body. rewrite bind_run. unfold PdfReader.
  destruct (read_file w p) as [data|]; [|done].
  destruct (PdfReader_pages data) as [pages|]; [|done].
  destruct ((s <? 1)%Z || (e <? s)%Z || (Z.of_nat (length pages) <? e)%Z); [done|].
  rewrite bind_run.
  destruct (split_loop pages (py_range (s - 1) e) [] w) as [w2 [writer|err]]; [|done].
  rewrite bind_run, uuid4_str_run. rewrite bind_run. cbv zeta.
  by destruct (IO.open_wb _ _ _ _) as [w3 [[]|err]].
Qed.

Lemma io_split_pdf_spec f s e w :
  ∃ evs art,
    io_settled w (fst (IO.split_pdf f s e w)) evs art
    ∧ io_outcome (PostSplit f s e) w (snd (IO.split_pdf f s e w)) art.
Proof.
  unfold IO.split_pdf. rewrite bind_run. unfold import_PyPDF2.
  destruct (PyPDF2 w) as [|ie] eqn:Himp.
  - destruct (is_pdf_name f) eqn:Hpdf; cbn [negb]; [|by apply io_rejected].
    apply is_pdf_name_filename in Hpdf. rewrite bind_run.
    destruct (io_flight_save w w [] [] f Hpdf (io_flight_start w)) as (evs1 & H1).
    cbn [app] in H1.
    destruct (IO._save_upload f w) as [w1 [p|e1]]; cbn [fst snd] in H1.
    + destruct H1 as [Hfl Hread]. unfold try_finally.
      rewrite io_split_body_run, Hread.
      destruct (PdfReader_pages (file f)) as [pages|].
      * destruct ((s <? 1)%Z || (e <? s)%Z || (Z.of_nat (length pages) <? e)%Z)
          eqn:Hrange.
        -- rewrite io_try_pass_remove, io_remove_all_run. cbn [fst snd].
           apply (io_abort_settles (PostSplit f s e) w w1 evs1 [p]); [done..|].
           left. by eexists.
        -- apply orb_false_iff in Hrange as [[H1 H2]%orb_false_iff H3].
           apply Z.ltb_ge in H1, H2, H3.
           rewrite split_loop_range by lia. cbv beta iota zeta.
           rewrite io_try_pass_remove, io_remove_all_run. cbn [fst snd].
           by apply (io_finish_settles (PostSplit f s e) w w1 evs1 [p] "split_").
      * rewrite io_try_pass_remove, io_remove_all_run. cbn [fst snd].
        apply (io_abort_settles (PostSplit f s e) w w1 evs1 [p]); [done..|].
        right. by left.
    + destruct H1 as [Hfl He].
      apply (io_abort_settles (PostSplit f s e) w w1 evs1 [] e1); [done..|].
      right. right. by right.
  - exists [], None. split; [apply io_settled_refl|]. split; [done|].
    left. exists ie. by split.
Qed.

(** *** images to pdf *)

Lemma io_images_loop_cons img rest fr :
  IO.images_loop (img :: rest) fr =
    if negb (is_image_name img) then
      (fr, Raise (HTTPException 400
                    ("Unsupported image format: " +:+ filename img)))
    else
      match IO._save_upload img (i_world fr) with
      | (w1, Ok p) =>
          let fr1 ims := {| i_world := w1;
                            i_saved_paths := i_saved_paths fr ++ [p];
                            i_pil_images := ims |} in
          match read_file w1 p with
          | None =>
              (fr1 (i_pil_images fr), Raise (OtherError "FileNotFoundError"))
          | Some data =>
              match Image_open_RGB data with
              | None => (fr1 (i_pil_images fr),
                         Raise (OtherError "UnidentifiedImageError"))
              | Some im => IO.images_loop rest (fr1 (i_pil_images fr ++ [im]))
              end
          end
      | (w1, Raise e) =>
          ({| i_world := w1; i_saved_paths := i_saved_paths fr;
              i_pil_images := i_pil_images fr |}, Raise e)
      end.
Proof.
  cbn [IO.images_loop]. rewrite bind_run.
  destruct (is_image_name img); cbn [negb]; [|done].
  rewrite ret_run, bind_run. unfold i_io at 1.
  destruct (IO._save_upload img (i_world fr)) as [w1 [p|e]]; [|done].
  rewrite bind_run. unfold i_append_saved, modify.
  rewrite bind_run. unfold i_io at 1. frame_simpl. unfold Image_open.
  destruct (read_file w1 p) as [data|]; [|done].
  destruct (Image_open_RGB data) as [im|]; frame_simpl; [|done].
  rewrite bind_run. unfold i_append_image, modify. by frame_simpl.
Qed.

Lemma io_images_loop_spec images : ∀ w0 fr evs,
  io_flight w0 (i_world fr) evs (i_saved_paths fr) →
  ∃ evs',
    io_flight w0 (i_world (fst (IO.images_loop images fr))) evs'
              (i_saved_paths (fst (IO.images_loop images fr)))
    ∧ (∀ e, snd (IO.images_loop images fr) = Raise e → handler_error e)
    ∧ (snd (IO.images_loop images fr) = Ok tt →
       length (i_pil_images (fst (IO.images_loop images fr)))
       = (length (i_pil_images fr) + length images)%nat).
Proof.
  induction images as [|f rest IH]; intros w0 fr evs Hfl.
  - exists evs. split; [done|]. split; [intros e He; discriminate He|].
    intros _. cbn [IO.images_loop length]. rewrite ret_run. cbn [fst]. lia.
  - rewrite io_images_loop_cons.
    destruct (is_image_name f) eqn:Himg; cbn [negb].
    + destruct (io_flight_save _ _ _ _ f (is_image_name_filename _ Himg) Hfl)
        as (evs1 & H1).
      destruct (IO._save_upload f (i_world fr)) as [w1 [p|e1]]; cbn [fst snd] in H1.
      * destruct H1 as [Hfl1 Hread]. rewrite Hread. cbv zeta.
        destruct (Image_open_RGB (file f)) as [im|].
        -- destruct (IH w0 {| i_world := w1;
                              i_saved_paths := i_saved_paths fr ++ [p];
                              i_pil_images := i_pil_images fr ++ [im] |}
                       evs1 Hfl1) as (evs2 & Hfl2 & Herr & Hlen).
           exists evs2. split; [done|]. split; [done|].
           intros Hok. rewrite (Hlen Hok). frame_simpl.
           rewrite length_app. cbn [length]. lia.
        -- exists evs1. split; [done|]. split; [|done].
           intros e [= <-]. right. right. by left.
      * exists evs1. frame_simpl. split; [apply H1|]. split; [|done].
        intros e [= <-]. right. right. right. apply H1.
    + exists evs. split; [done|]. split; [|done].
      intros e [= <-]. left. by eexists.
Qed.

Lemma io_images_body_run images fr0 :
  IO.images_body images fr0 =
    match IO.images_loop images fr0 with
    | (fr1, Ok _) =>
        let id := "images_" +:+ next_uuid (i_world fr1) +:+ ".pdf" in
        match i_pil_images fr1 with
        | [] =>
            ({| i_world := fst (uuid4_str (i_world fr1));
                i_saved_paths := i_saved_paths fr1;
                i_pil_images := i_pil_images fr1 |},
             Raise (OtherError "IndexError"))
        | first :: rest =>
            let r := IO.open_wb Artifact (join TEMP_DIR id)
                       (Image_save_PDF first rest)
                       (fst (uuid4_str (i_world fr1))) in
            ({| i_world := fst r; i_saved_paths := i_saved_paths fr1;
                i_pil_images := i_pil_images fr1 |},
             match snd r with
             | Ok _ => Ok (_make_download (join TEMP_DIR id) id)
             | Raise e => Raise e
             end)
        end
    | (fr1, Raise e) => (fr1, Raise e)
    end.
Proof.
  unfold IO.images_body. rewrite bind_run.
  destruct (IO.images_loop images fr0) as [fr1 [[]|e]]; [|done].
  rewrite bind_run. unfold i_io at 1. rewrite uuid4_str_run.
  rewrite bind_run. unfold get_state at 1. frame_simpl.
  destruct (i_pil_images fr1) as [|first rest] eqn:Hpil; [done|].
  rewrite bind_run. unfold i_io. frame_simpl. cbv zeta.
  by destruct (IO.open_wb _ _ _ _) as [w2 [[]|e]].
Qed.

Lemma io_images_finally_run fr :
  IO.images_finally fr =
    ({| i_world := fst (IO.remove_all (i_saved_paths fr) (i_world fr));
        i_saved_paths := i_saved_paths fr;
        i_pil_images := i_pil_images fr |}, Ok tt).
Proof.
  unfold IO.images_finally. rewrite bind_run. unfold get_state, i_io.
  by rewrite io_remove_all_run.
Qed.

Lemma io_images_to_pdf_spec images w :
  ∃ evs art,
    io_settled w (fst (IO.images_to_pdf images w)) evs art
    ∧ io_outcome (PostImagesToPdf images) w
        (snd (IO.images_to_pdf images w)) art.
Proof.
  unfold IO.images_to_pdf. rewrite bind_run. unfold import_PIL.
  destruct (PIL w) as [|ie] eqn:Himp.
  - destruct images as [|img0 images0]; [by apply io_rejected|].
    set (images := img0 :: images0).
    unfold with_locals, try_finally. rewrite io_images_body_run.
    set (fr0 := {| i_world := w; i_saved_paths := []; i_pil_images := [] |}).
    destruct (io_images_loop_spec images w fr0 [] (io_flight_start w))
      as (evs & Hfl & Herr & Hlen).
    destruct (IO.images_loop images fr0) as [fr1 [[]|e1]]; frame_simpl.
    + specialize (Hlen eq_refl). cbn [length fr0 i_pil_images] in Hlen.
      destruct (i_pil_images fr1) as [|first rest]; [done|].
      cbv zeta. rewrite io_images_finally_run. frame_simpl.
      by apply (io_finish_settles (PostImagesToPdf images) w (i_world fr1) evs
                  (i_saved_paths fr1) "images_").
    + rewrite io_images_finally_run. frame_simpl.
      apply (io_abort_settles (PostImagesToPdf images) w (i_world fr1) evs);
        [done..|].
      by apply Herr.
  - exists [], None. split; [apply io_settled_refl|]. split; [done|].
    left. exists ie. by split.
Qed.

(** *** all three handlers *)

Lemma io_handle_spec req w :
  ∃ evs art,
    io_settled w (fst (IO.handle req w)) evs art
    ∧ io_outcome req w (snd (IO.handle req w)) art.
Proof.
  destruct req as [files|f s e|images]; cbn [IO.handle].
  - apply io_merge_pdfs_spec.
  - apply io_split_pdf_spec.
  - apply io_images_to_pdf_spec.
Qed.

End IOHandlerFacts.

(** ** Cleanup and not-found when file operations can fail *)

(** C2, as stated, fails when the write of the output breaks off: the merge
    below ends in the error of the write and declares no artifact, its two
    uploads are removed, and the part of the output that reached the disk
    is left in the temp directory, where nothing was before. *)
Lemma failed_write_leaves_partial_output :
  let r := IO.handle (E := toy_engines) (D := merged_breaks)
             (PostMerge two_pdfs) fresh_world in
  snd r = Raise (OtherError "OSError")
  ∧ files fresh_world
      !! entry "merged_00000000-0000-4000-a244-21e8fbd3022a.pdf" = None
  ∧ files (fst r)
      !! entry "merged_00000000-0000-4000-a244-21e8fbd3022a.pdf"
    = Some [Byte.x25].
Proof. vm_compute. done. Qed.

(** C2, amended.  Whatever a merge, split or images-to-pdf invocation ends
    with, and whichever file operations fail: every upload file that was
    written in full and whose removal is not refused is gone from the temp
    directory when the handler returns; and a file that was not there
    before is, uploads whose own write or removal failed apart, the artifact
    the response declares, or, when the handler raised, what reached the
    output path of a write that failed. *)
Theorem handler_leaves_only_output `{E : Engines} `{D : Disk}
    (req : request) (w : world) :
  ∃ evs,
    trace (fst (IO.handle req w)) = trace w ++ evs
    ∧ (∀ p d, Wrote Upload p d ∈ evs →
         write_fault p = Sound → remove_fault p = false →
         os_path_exists (fst (IO.handle req w)) p = false
         ∧ read_file (fst (IO.handle req w)) p = None)
    ∧ (∀ l, is_Some (files (fst (IO.handle req w)) !! l) →
         is_Some (files w !! l)
         ∨ (∃ p d, Wrote Upload p d ∈ evs ∧ l = os_path.resolve p
                   ∧ (write_fault p ≠ Sound ∨ remove_fault p = true))
         ∨ match snd (IO.handle req w) with
           | Ok resp =>
               l = os_path.resolve (os_path.join TEMP_DIR (file_id resp))
           | Raise _ =>
               ∃ p d, Wrote Artifact p d ∈ evs ∧ l = os_path.resolve p
                      ∧ write_fault p ≠ Sound
           end).
Proof.
  destruct (io_handle_spec req w) as (evs & art & Hst & Hres).
  destruct Hst as [Ht Hup Ha Hf Hart].
  exists evs. split; [done|]. split.
  - intros p d Hin Hs Hr. destruct (Hup _ _ Hin) as [(n & Hn & ->) Hgone].
    specialize (Hgone Hs Hr). rewrite (resolve_upload _ Hn) in Hgone.
    pose proof (upload_name_plain _ Hn) as Hp.
    rewrite (exists_entry _ _ Hp), (read_file_entry _ _ Hp), Hgone.
    split; [|done]. apply bool_decide_eq_false. by intros [? ?].
  - intros l Hl.
    destruct (Hf _ Hl) as [?|[(p & d & Hin & ->)|?]];
      [by left| |by right; left].
    right. right. destruct (Ha _ _ Hin) as (id & Hid & -> & Hcase).
    destruct (snd (IO.handle req w)) as [resp|e]; cbn [io_outcome] in Hres.
    + destruct Hres as (id' & d' & _ & -> & Heq). cbn [download_of file_id].
      destruct Hcase as [Hsome|[Hnone _]]; [|by rewrite Hnone in Heq].
      rewrite Hsome in Heq. by injection Heq as -> ->.
    + by exists (os_path.join TEMP_DIR id), d;
        destruct Hres as [Hnone _], Hcase as [Hsome|[_ ?]];
        [rewrite Hnone in Hsome|].
Qed.

(** C8, as stated, fails in two ways.  In the store a merge leaves behind,
    the identifier [x/merged_...pdf] was never handed out, yet its
    directory part is stripped and the artifact is served.  And after a
    merge whose output write broke off, no identifier was handed out at
    all, yet the name of the output is found. *)
Lemma download_unserved_found :
  let r := IO.handle (E := toy_engines) (D := sound_disk)
             (PostMerge two_pdfs) fresh_world in
  let r' := IO.handle (E := toy_engines) (D := merged_breaks)
              (PostMerge two_pdfs) fresh_world in
  snd r = Ok (download_of "merged_00000000-0000-4000-a244-21e8fbd3022a.pdf")
  ∧ is_NotFound (snd (download_file
                        "x/merged_00000000-0000-4000-a244-21e8fbd3022a.pdf"
                        (fst r))) = false
  ∧ snd r' = Raise (OtherError "OSError")
  ∧ is_NotFound (snd (download_file
                        "merged_00000000-0000-4000-a244-21e8fbd3022a.pdf"
                        (fst r'))) = false.
Proof. vm_compute. done. Qed.

(** C8, amended.  For an identifier whose last component is an ordinary
    entry name, the download handler raises NotFound exactly when the temp
    directory holds no file under that component, whoever put a file there
    and whether or not a handler returned its name; and an identifier a
    handler has just returned is served. *)
Theorem download_not_found `{E : Engines} `{D : Disk} (w : world) (id : string) :
  (plain_name (os_path.basename id) = true →
   (is_NotFound (snd (download_file id w)) = true
    ↔ files w !! entry (os_path.basename id) = None))
  ∧ (∀ req resp,
       snd (IO.handle req w) = Ok resp →
       ∃ served,
         snd (download_file (file_id resp) (fst (IO.handle req w)))
         = Ok served).
Proof.
  split.
  - intros Hplain. rewrite download_file_run, (exists_entry _ _ Hplain).
    destruct (files w !! entry (os_path.basename id)) as [d|] eqn:Hd.
    + rewrite bool_decide_eq_true_2 by done. by split.
    + rewrite bool_decide_eq_false_2 by (by intros [? ?]). by split.
  - intros req resp Hok.
    destruct (io_handle_spec req w) as (evs & art & Hst & Hres).
    rewrite Hok in Hres. destruct Hres as (id' & d & Hid & -> & ->).
    destruct (ios_art _ _ _ _ Hst _ _ eq_refl) as (_ & Hfile & _).
    destruct (download_artifact _ _ _ Hid Hfile) as [Hdl _].
    eexists. cbn [download_of file_id]. by rewrite Hdl.
Qed.

(** In an empty temp directory the name of an artifact is not found. *)
Lemma download_not_found_witness :
  is_NotFound (snd (download_file "sub/merged_other.pdf" fresh_world)) = true.
Proof.
  destruct (download_not_found (E := toy_engines) (D := sound_disk)
              fresh_world "sub/merged_other.pdf") as [Hiff _].
  apply Hiff; reflexivity.
Defined.

(** ** Uploads, cleanup and errors when file operations can fail *)

Section IOExtraFacts.

Context {D : Disk}.
Import os_path.

(** After the cleanup loop a location holds what it held, or it is one of
    the listed paths and holds nothing. *)
Lemma io_remove_all_cases ps w l :
  files (fst (IO.remove_all ps w)) !! l = files w !! l
  ∨ (files (fst (IO.remove_all ps w)) !! l = None ∧ l ∈ resolve <$> ps).
Proof.
  destruct (decide (l ∈ resolve <$> ps)) as [Hin|Hout].
  - destruct (files (fst (IO.remove_all ps w)) !! l) as [d|] eqn:Hd;
      [|by right].
    left. revert w Hd. clear Hin.
    induction ps as [|p ps IH]; intros w Hd; [done|].
    cbn [IO.remove_all] in Hd. rewrite bind_run in Hd. unfold try_pass in Hd.
    apply IH in Hd. rewrite io_os_remove_files in Hd.
    by destruct (bool_decide _).
  - left. by apply io_remove_all_other.
Qed.

End IOExtraFacts.

(** X1. Whatever the claimed filename, directory parts and [..] included, and
    whatever fails, [_save_upload] touches one location only, a direct entry
    of the temp root under an ordinary name.  A path that holds a NUL is
    refused and nothing is stored; when it returns, it returns the path of
    that entry and the content reads back as uploaded; and it returns when
    nothing fails. *)
Theorem save_upload_stays_in_temp_root `{D : Disk} (f : UploadFile) (w : world) :
  filename f ≠ "" →
  ∃ n,
    plain_name n = true
    ∧ upload_dest f w = os_path.join TEMP_DIR n
    ∧ os_path.resolve (upload_dest f w) = entry n
    ∧ (∀ l, l ≠ entry n →
         files (fst (IO._save_upload f w)) !! l = files w !! l)
    ∧ (has_nul (upload_dest f w) = true →
       snd (IO._save_upload f w) = Raise (OtherError "ValueError")
       ∧ files (fst (IO._save_upload f w)) = files w)
    ∧ (∀ p, snd (IO._save_upload f w) = Ok p →
         p = upload_dest f w
         ∧ read_file (fst (IO._save_upload f w)) p = Some (file f))
    ∧ (has_nul (upload_dest f w) = false →
       name_too_long (upload_dest f w) = false →
       write_fault (upload_dest f w) = Sound →
       snd (IO._save_upload f w) = Ok (upload_dest f w)).
Proof.
  intros Hf. destruct (upload_dest_name f w) as (n & Hn & Heq).
  pose proof (upload_name_plain _ Hn) as Hp.
  pose proof (resolve_upload _ Hn) as Hres. rewrite <- Heq in Hres.
  exists n. split; [done|]. split; [done|]. split; [done|].
  rewrite (io_save_upload_run _ _ Hf). unfold IO.open_wb.
  destruct (has_nul (upload_dest f w)).
  { cbn [fst snd]. split; [done|]. split; [done|]. split; done. }
  destruct (name_too_long (upload_dest f w)).
  { cbn [fst snd]. split; [done|]. split; [done|]. split; done. }
  destruct (write_fault (upload_dest f w)) as [|err|k err];
    cbn [fst snd open_wb files].
  - split; [by intros l Hl; rewrite Hres, lookup_insert_ne|].
    split; [done|]. split; [|done]. intros p [= <-]. split; [done|].
    rewrite Heq, (read_file_entry _ _ Hp). cbn [files].
    by rewrite <- Heq, Hres, lookup_insert_eq.
  - split; [done|]. split; [done|]. split; done.
  - split; [by intros l Hl; rewrite Hres, lookup_insert_ne|].
    split; [done|]. split; done.
Qed.

(** An upload that claims the name [../../etc/passwd]. *)
Lemma save_upload_stays_in_temp_root_witness :
  ∃ n,
    plain_name n = true
    ∧ upload_dest (upload "../../etc/passwd" [Byte.x2a]) fresh_world
      = os_path.join TEMP_DIR n.
Proof.
  destruct (save_upload_stays_in_temp_root (D := sound_disk)
              (upload "../../etc/passwd" [Byte.x2a]) fresh_world)
    as (n & Hn & Heq & _).
  - discriminate.
  - exists n. split; [exact Hn|exact Heq].
Defined.

(** X8. The cleanup loop of the [finally] blocks, run on paths of entries of
    the temp root, never raises, whether or not the files still exist, are
    listed twice or refuse to be removed; a listed file whose removal is
    not refused is gone afterwards, and every other location holds what it
    held. *)
Theorem cleanup_never_raises `{D : Disk} (names : list string) (w : world) :
  Forall (λ n, plain_name n = true) names →
  snd (IO.remove_all (os_path.join TEMP_DIR <$> names) w) = Ok tt
  ∧ (∀ n, n ∈ names → remove_fault (os_path.join TEMP_DIR n) = false →
       files (fst (IO.remove_all (os_path.join TEMP_DIR <$> names) w))
         !! entry n = None)
  ∧ (∀ l, files (fst (IO.remove_all (os_path.join TEMP_DIR <$> names) w)) !! l
          = files w !! l
          ∨ (files (fst (IO.remove_all (os_path.join TEMP_DIR <$> names) w))
               !! l = None
             ∧ ∃ n, n ∈ names ∧ l = entry n)).
Proof.
  intros Hplain. rewrite Forall_forall in Hplain.
  split; [apply io_remove_all_ok|]. split.
  - intros n Hin Hr. rewrite <- (resolve_join_plain _ (Hplain _ Hin)).
    apply io_remove_all_gone; [|done]. by apply list_elem_of_fmap_2.
  - intros l.
    destruct (io_remove_all_cases (os_path.join TEMP_DIR <$> names) w l)
      as [?|[Hnone Hin]]; [by left|].
    right. split; [done|].
    apply list_elem_of_fmap in Hin as (p & -> & Hp).
    apply list_elem_of_fmap in Hp as (n & -> & Hn).
    exists n. split; [done|]. by apply resolve_join_plain, Hplain.
Qed.

(** Removing a file that is there and, twice, one that is not. *)
Lemma cleanup_never_raises_witness :
  snd (IO.remove_all (D := sound_disk)
         (os_path.join TEMP_DIR <$> ["secret"; "gone.pdf"; "gone.pdf"])
         secret_world) = Ok tt.
Proof.
  apply (cleanup_never_raises (D := sound_disk)
           ["secret"; "gone.pdf"; "gone.pdf"] secret_world).
  repeat constructor.
Defined.

(** X14. Every exception an operation handler ends with is the 500 of a
    missing engine, a 400 of the handler's own validation, the read or
    decode error of the engine, or the error of a file write that failed.
    In particular a saved upload is always found again, no index is ever
    out of range, and the filename check of [_save_upload] never fires,
    because the handlers reject an empty filename first. *)
Theorem handler_errors `{E : Engines} `{D : Disk} (req : request) (w : world)
    (e : exn) :
  snd (IO.handle req w) = Raise e →
  (∃ ie, required_engine req w = ImportError ie
         ∧ e = HTTPException 500
                 (engine_label req +:+ " engine unavailable: " +:+ ie))
  ∨ (required_engine req w = Imported
     ∧ ((∃ detail, e = HTTPException 400 detail
                   ∧ detail ≠ "File must have a filename")
        ∨ e = OtherError "PdfReadError"
        ∨ e = OtherError "UnidentifiedImageError"
        ∨ write_error e)).
Proof.
  intros Hraise. destruct (io_handle_spec req w) as (evs & art & _ & Hres).
  rewrite Hraise in Hres. by destruct Hres as [_ Hres].
Qed.

(** An unreadable PDF in a merge ends in the read error of the engine. *)
Lemma handler_errors_witness :
  (∃ ie, PyPDF2 fresh_world = ImportError ie
         ∧ OtherError "PdfReadError"
           = HTTPException 500 ("PDF engine unavailable: " +:+ ie))
  ∨ (PyPDF2 fresh_world = Imported
     ∧ ((∃ detail, OtherError "PdfReadError" = HTTPException 400 detail
                   ∧ detail ≠ "File must have a filename")
        ∨ OtherError "PdfReadError" = OtherError "PdfReadError"
        ∨ OtherError "PdfReadError" = OtherError "UnidentifiedImageError"
        ∨ write_error (D := sound_disk) (OtherError "PdfReadError"))).
Proof.
  apply (handler_errors (E := toy_engines) (D := sound_disk)
           (PostMerge [upload "broken.pdf" []; upload "a.pdf" [Byte.x25]])
           fresh_world (OtherError "PdfReadError")).
  vm_compute. reflexivity.
Defined.

(** X19. When the copy of the upload breaks off, the split handler ends with
    the error of the copy and the part that was copied stays in the temp
    directory: [_save_upload] runs before the [try] whose [finally] removes
    the upload. *)
Theorem broken_upload_stays `{E : Engines} `{D : Disk} (f : UploadFile)
    (s e : Z) (w : world) (n : nat) (err : string) :
  PyPDF2 w = Imported →
  is_pdf_name f = true →
  has_nul (upload_dest f w) = false →
  name_too_long (upload_dest f w) = false →
  write_fault (upload_dest f w) = Broken n err →
  snd (IO.split_pdf f s e w) = Raise (OtherError err)
  ∧ read_file (fst (IO.split_pdf f s e w)) (upload_dest f w)
    = Some (take n (file f)).
Proof.
  intros Himp Hpdf Hnul Hlong Hw.
  unfold IO.split_pdf. rewrite bind_run. unfold import_PyPDF2. rewrite Himp.
  rewrite Hpdf. cbn [negb]. rewrite bind_run.
  rewrite (io_save_upload_run _ _ (is_pdf_name_filename _ Hpdf)).
  unfold IO.open_wb. rewrite Hnul, Hlong, Hw. cbn [fst snd].
  split; [done|].
  destruct (upload_dest_name f w) as (k & Hk & Heq). rewrite Heq.
  rewrite (read_file_entry _ _ (upload_name_plain _ Hk)). cbn [open_wb fst files].
  by rewrite (resolve_upload _ Hk), lookup_insert_eq.
Qed.

(** A split whose upload is cut after one byte. *)
Lemma broken_upload_stays_witness :
  read_file
    (fst (IO.split_pdf (E := toy_engines) (D := uploads_break)
            five_pages 2 4 fresh_world))
    (upload_dest five_pages fresh_world)
  = Some [Byte.x25].
Proof.
  apply (broken_upload_stays (E := toy_engines) (D := uploads_break)
           five_pages 2 4 fresh_world 1 "OSError"); reflexivity.
Defined.
